(** * The AI listing-content service of listtra-backend (services/ai.service.js)

    A shallow embedding of the service class [AIService] together with the
    fragment of ECMAScript its methods rely on: strings as sequences of
    UTF-16 code units, numbers as IEEE 754 binary64 values, JSON values,
    abrupt completions (exceptions), [JSON.parse], [parseFloat] and a few
    string and array methods.

    The sources hold two generations of the class, both in the file
    src/models/User.js after the user model: the first at lines 90-396
    (module [AIServiceV1] below), the richer one, with the marketplace
    content, at lines 397-856 (module [AIService]).

    Around the service, the development also covers the two text helpers of
    the class, the user model at the head of the same file (module [User]),
    the routes that call the service (src/routes/ai.routes.js and
    unnamed/part_001, modules [AiRoutes], [AiRoutesV2] and [AiRoutesV1]) and
    the webhook handler that creates users (src/middleware/auth.js, module
    [Webhook]). *)

From Stdlib Require Import ZArith NArith List String Ascii Bool Lia.
From Stdlib Require Import SpecFloat.
From Stdlib Require DecimalString.
Import ListNotations.

(** ** The ECMAScript fragment *)

Module JS.

Local Open Scope N_scope.

(** *** Strings

    An ECMAScript string is a finite sequence of 16-bit code units.  String
    constants of the source are written as Rocq strings and read through
    [lit]; every constant of the service is ASCII, or is given by its code
    units. *)

Definition codeunit := N.
Definition jsstring := list codeunit.

Definition lit (s : string) : jsstring :=
  List.map N_of_ascii (list_ascii_of_string s).

Coercion lit : string >-> jsstring.

Fixpoint str_eqb (a b : jsstring) : bool :=
  match a, b with
  | [], [] => true
  | x :: a', y :: b' => N.eqb x y && str_eqb a' b'
  | _, _ => false
  end.

(** [s.substring(0, n)] for a constant [n >= 0]. *)
Definition substring0 (s : jsstring) (n : nat) : jsstring := firstn n s.

Fixpoint startsWith (s key : jsstring) : bool :=
  match key, s with
  | [], _ => true
  | k :: key', c :: s' => N.eqb k c && startsWith s' key'
  | _ :: _, [] => false
  end.

(** [s.includes(key)]: [key] occurs in [s] as a contiguous run of code units. *)
Fixpoint includes (s key : jsstring) : bool :=
  startsWith s key ||
  match s with
  | [] => false
  | _ :: s' => includes s' key
  end.

Definition in_range (lo hi c : N) : bool := N.leb lo c && N.leb c hi.

Definition is_upper (c : codeunit) : bool := in_range 65 90 c.
Definition is_lower (c : codeunit) : bool := in_range 97 122 c.
Definition is_digit (c : codeunit) : bool := in_range 48 57 c.

(** [String.prototype.toLowerCase], one code unit at a time.  Exact on Basic
    Latin and Latin-1, and on the two characters outside them whose lower
    case contains a Basic Latin letter: U+212A KELVIN SIGN (to [k]) and
    U+0130 (to [i] followed by U+0307).  Every other character is kept; its
    real lower case, like the character itself, has no code unit in
    [a-z] or [-]. *)
Definition lowerUnit (c : codeunit) : list codeunit :=
  if is_upper c then [c + 32]
  else if in_range 192 222 c && negb (N.eqb c 215) then [c + 32]
  else if N.eqb c 8490 then [107]
  else if N.eqb c 304 then [105; 775]
  else [c].

Definition toLowerCase (s : jsstring) : jsstring := flat_map lowerUnit s.

(** [s.replace(/[^a-z-]/g, '')]: drop every code unit that is neither a
    lower-case Basic Latin letter nor the hyphen. *)
Definition is_az_hyphen (c : codeunit) : bool := is_lower c || N.eqb c 45.

Definition replace_non_az_hyphen (s : jsstring) : jsstring :=
  filter is_az_hyphen s.

(** Template text.  A template literal of the source is written one Rocq
    string per line; in these a grave accent stands for the quotation mark
    and an at sign for U+2014, neither of which the templates contain. *)
Definition template_unit (c : codeunit) : codeunit :=
  if N.eqb c 96 then 34 else if N.eqb c 64 then 8212 else c.

Fixpoint template (lines : list string) : jsstring :=
  match lines with
  | [] => []
  | [l] => List.map template_unit (lit l)
  | l :: rest => List.map template_unit (lit l) ++ 10 :: template rest
  end.

(** An optional string argument: [None] is [null] or [undefined].  It is
    truthy when it is a string with at least one code unit. *)
Definition truthy (s : option jsstring) : bool :=
  match s with
  | Some (_ :: _) => true
  | _ => false
  end.

Definition text_of (s : option jsstring) : jsstring :=
  match s with
  | Some t => t
  | None => []
  end.

(** *** Numbers: IEEE 754 binary64 *)

Definition number := spec_float.

Definition prec : Z := 53.
Definition emax : Z := 1024.

Definition NaN : number := S754_nan.
Definition Infinity (neg : bool) : number := S754_infinity neg.

(** The Number value of the decimal [(-1)^neg * m * 10^e]: the binary64
    number nearest to it, ties to even.  The quotient is taken with at least
    64 significant bits and rounded once, from the quotient and the position
    of the remainder. *)
Definition of_decimal (neg : bool) (m : N) (e : Z) : number :=
  match m with
  | N0 => S754_zero neg
  | Npos p =>
      let num := (Zpos p * 10 ^ Z.max e 0)%Z in
      let den := (10 ^ Z.max (- e) 0)%Z in
      let s := (Z.log2 den + 64)%Z in
      let '(q, r) := Z.div_eucl (Z.shiftl num s) den in
      binary_round_aux prec emax neg q (- s)%Z (new_location den r)
  end.

Definition is_zero (x : number) : bool :=
  match x with S754_zero _ => true | _ => false end.

Definition is_nan (x : number) : bool :=
  match x with S754_nan => true | _ => false end.

Definition leb (x y : number) : bool := SFleb x y.

(** *** Values

    The values a decoded payload is made of, [undefined] for a property that
    is absent, and [VFunction] for a built-in method read off a primitive. *)

#[warnings="-register-all"]
Inductive value : Type :=
| VUndefined
| VNull
| VBool (b : bool)
| VNum (n : number)
| VStr (s : jsstring)
| VArr (elems : list value)
| VObj (props : list (jsstring * value))
| VFunction (name : jsstring).

(** [ToBoolean]. *)
Definition ToBoolean (v : value) : bool :=
  match v with
  | VUndefined | VNull => false
  | VBool b => b
  | VNum n => negb (is_zero n || is_nan n)
  | VStr s => match s with [] => false | _ => true end
  | VArr _ | VObj _ | VFunction _ => true
  end.

(** [a || b] on values. *)
Definition or_else (a b : value) : value := if ToBoolean a then a else b.

(** [Array.isArray(v) ? v : []]. *)
Definition arrayOrEmpty (v : value) : list value :=
  match v with VArr l => l | _ => [] end.

Fixpoint lookup (k : jsstring) (props : list (jsstring * value)) : option value :=
  match props with
  | [] => None
  | (k', v) :: rest => if str_eqb k k' then Some v else lookup k rest
  end.

(** [o?.k] for a property name [k] that no built-in prototype defines: the
    own property of an object, [undefined] otherwise, also when [o] is [null]
    or [undefined].  None of the names the service reads from a decoded
    payload is [length], an index or an inherited name, but for [sub] in the
    first generation (see [get_sub] there). *)
Definition get (o : value) (k : jsstring) : value :=
  match o with
  | VObj props => match lookup k props with Some v => v | None => VUndefined end
  | _ => VUndefined
  end.

(** *** Completions *)

(** Modelled from the spec: the error class [AppError] of
    middleware/errorHandler.js, a file that is not among the sources.  An
    instance is taken as the two arguments of its constructor, the message
    and the HTTP status code: the specification's [InvalidRequest] condition
    is the one of the 400 class, its [GenerationFailed] and
    [ProviderUnavailable] conditions are of the 500 class. *)
Record AppError := {
  message : jsstring;
  statusCode : Z }.

(** What a call can throw. *)
Inductive exn : Type :=
| SyntaxError
| TypeError
| RangeError
| Error (msg : jsstring)
| Thrown (e : AppError).

(** [new AppError(message, statusCode)], as a thrown value. *)
Definition newAppError (message : jsstring) (statusCode : Z) : exn :=
  Thrown {| message := message; statusCode := statusCode |}.

Inductive completion (A : Type) : Type :=
| Return (a : A)
| Throw (e : exn).

Arguments Return {A} a.
Arguments Throw {A} e.

Definition bind {A B} (c : completion A) (k : A -> completion B) : completion B :=
  match c with
  | Return a => k a
  | Throw e => Throw e
  end.

(** [try { c } catch (error) { handler error }]. *)
Definition try_catch {A} (c : completion A) (handler : exn -> completion A)
  : completion A :=
  match c with
  | Return a => Return a
  | Throw e => handler e
  end.

(** *** Numeric literals in strings *)

Fixpoint span_digits (s : jsstring) : list codeunit * jsstring :=
  match s with
  | c :: s' =>
      if is_digit c then let '(ds, r) := span_digits s' in (c :: ds, r)
      else ([], s)
  | [] => ([], [])
  end.

(** The value of a run of decimal digits. *)
Definition digits_value (ds : list codeunit) : N :=
  fold_left (fun acc d => 10 * acc + (d - 48)) ds 0.

(** An optional exponent part [e], [e+] or [e-] followed by at least one
    digit; without the digits the indicator is not part of the literal. *)
Definition scan_exponent (s : jsstring) : option (Z * jsstring) :=
  match s with
  | c :: s1 =>
      if N.eqb c 101 || N.eqb c 69 then
        let '(neg, s2) :=
          match s1 with
          | c' :: t =>
              if N.eqb c' 43 then (false, t)
              else if N.eqb c' 45 then (true, t)
              else (false, s1)
          | [] => (false, s1)
          end in
        match span_digits s2 with
        | ([], _) => None
        | (ds, r) =>
            let v := Z.of_N (digits_value ds) in
            Some (if neg then (- v)%Z else v, r)
        end
      else None
  | [] => None
  end.

(** The Number value of [int.frac] times ten to the [ex]. *)
Definition decimal_value (neg : bool) (int frac : list codeunit) (ex : Z) : number :=
  of_decimal neg (digits_value (int ++ frac)) (ex - Z.of_nat (List.length frac))%Z.

(** *** [parseFloat] *)

(** [StrWhiteSpaceChar]: white space and line terminators. *)
Definition is_StrWhiteSpaceChar (c : codeunit) : bool :=
  in_range 9 13 c || N.eqb c 32 || N.eqb c 160 || N.eqb c 5760 ||
  in_range 8192 8202 c || N.eqb c 8232 || N.eqb c 8233 || N.eqb c 8239 ||
  N.eqb c 8287 || N.eqb c 12288 || N.eqb c 65279.

Fixpoint trimStart (s : jsstring) : jsstring :=
  match s with
  | c :: s' => if is_StrWhiteSpaceChar c then trimStart s' else s
  | [] => []
  end.

(** The longest prefix that is a [StrUnsignedDecimalLiteral], as a number:
    the nearest one, also for a literal of more than twenty significant
    digits, where the standard leaves the last digit to the engine. *)
Definition parseUnsignedDecimal (neg : bool) (s : jsstring) : number :=
  if startsWith s (lit "Infinity") then Infinity neg
  else
    let '(int, r1) := span_digits s in
    let '(frac, r2) :=
      match r1 with
      | c :: t => if N.eqb c 46 then span_digits t else ([], r1)
      | [] => ([], r1)
      end in
    match int, frac with
    | [], [] => NaN
    | _, _ =>
        match scan_exponent r2 with
        | Some (ex, _) => decimal_value neg int frac ex
        | None => decimal_value neg int frac 0
        end
    end.

(** [parseFloat(s)] for a string [s]. *)
Definition parseFloat_string (s : jsstring) : number :=
  match trimStart s with
  | c :: t =>
      if N.eqb c 43 then parseUnsignedDecimal false t
      else if N.eqb c 45 then parseUnsignedDecimal true t
      else parseUnsignedDecimal false (c :: t)
  | [] => NaN
  end.

(** [ToString(v)] throws a TypeError for an object with an own property
    [toString]: a decoded payload holds no function, so neither that property
    nor [valueOf] yields a primitive.  An array is joined, so it throws when
    one of its elements does.  The nesting of the arrays is taken to be
    within what the stack of the engine has room for; beyond that the
    printing throws a RangeError (see [ToString] below), which the handler of
    the parser catches like every other error. *)
Fixpoint toStringThrows (v : value) : bool :=
  match v with
  | VObj props =>
      match lookup (lit "toString") props with Some _ => true | None => false end
  | VArr elems => existsb toStringThrows elems
  | _ => false
  end.

(** [parseFloat(ToString(v))] when [ToString(v)] returns.  A number prints
    as a decimal that reads back as the same number, [-0] as [0]; an array
    prints as its elements joined by commas, and a comma ends a literal, so
    only its first element counts; [null], [undefined], booleans and objects
    print as words that start no literal. *)
Fixpoint parseFloat_printed (v : value) : number :=
  match v with
  | VNum n => if is_zero n then S754_zero false else n
  | VStr s => parseFloat_string s
  | VArr (x :: _) => parseFloat_printed x
  | _ => NaN
  end.

Definition parseFloat (v : value) : completion number :=
  if toStringThrows v then Throw TypeError else Return (parseFloat_printed v).

(** *** [JSON.parse] *)

Definition is_json_ws (c : codeunit) : bool :=
  N.eqb c 32 || N.eqb c 9 || N.eqb c 10 || N.eqb c 13.

Fixpoint skip_ws (s : jsstring) : jsstring :=
  match s with
  | c :: s' => if is_json_ws c then skip_ws s' else s
  | [] => []
  end.

Definition hex_value (c : codeunit) : option N :=
  if is_digit c then Some (c - 48)
  else if in_range 97 102 c then Some (c - 87)
  else if in_range 65 70 c then Some (c - 55)
  else None.

Definition hex4 (a b c d : codeunit) : option codeunit :=
  match hex_value a, hex_value b, hex_value c, hex_value d with
  | Some x, Some y, Some z, Some w => Some (4096 * x + 256 * y + 16 * z + w)
  | _, _, _, _ => None
  end.

(** The single-character escapes of a JSON string. *)
Definition escape_unit (c : codeunit) : option codeunit :=
  if N.eqb c 34 then Some 34          (* quotation mark *)
  else if N.eqb c 92 then Some 92     (* reverse solidus *)
  else if N.eqb c 47 then Some 47     (* solidus *)
  else if N.eqb c 98 then Some 8      (* backspace *)
  else if N.eqb c 102 then Some 12    (* form feed *)
  else if N.eqb c 110 then Some 10    (* line feed *)
  else if N.eqb c 114 then Some 13    (* carriage return *)
  else if N.eqb c 116 then Some 9     (* tab *)
  else None.

Definition cons_fst {A B} (a : A) (r : option (list A * B)) : option (list A * B) :=
  match r with
  | Some (l, b) => Some (a :: l, b)
  | None => None
  end.

(** The body of a JSON string, read after its opening quote, and what
    follows its closing quote. *)
Fixpoint scan_string (s : jsstring) : option (jsstring * jsstring) :=
  match s with
  | [] => None
  | c :: r =>
      if N.eqb c 34 then Some ([], r)
      else if N.eqb c 92 then
        match r with
        | [] => None
        | e :: t =>
            if N.eqb e 117 then
              match t with
              | a :: b :: c' :: d :: t' =>
                  match hex4 a b c' d with
                  | Some u => cons_fst u (scan_string t')
                  | None => None
                  end
              | _ => None
              end
            else
              match escape_unit e with
              | Some u => cons_fst u (scan_string t)
              | None => None
              end
        end
      else if N.ltb c 32 then None
      else cons_fst c (scan_string r)
  end.

(** A JSON number at the head of [s].  The scan stops where the literal can
    no longer be extended; a character left over that cannot follow a value
    (a digit after a leading zero, a point or an exponent mark without
    digits) fails the enclosing production. *)
Definition scan_number (s : jsstring) : option (number * jsstring) :=
  let '(neg, s1) :=
    match s with
    | c :: t => if N.eqb c 45 then (true, t) else (false, s)
    | [] => (false, s)
    end in
  let '(int, r1) :=
    match s1 with
    | c :: t => if N.eqb c 48 then ([c], t) else span_digits s1
    | [] => ([], [])
    end in
  match int with
  | [] => None
  | _ :: _ =>
      let '(frac, r2) :=
        match r1 with
        | c :: t =>
            if N.eqb c 46 then
              match span_digits t with
              | ([], _) => ([], r1)
              | (fs, r) => (fs, r)
              end
            else ([], r1)
        | [] => ([], r1)
        end in
      match scan_exponent r2 with
      | Some (ex, r3) => Some (decimal_value neg int frac ex, r3)
      | None => Some (decimal_value neg int frac 0, r2)
      end
  end.

(** [CreateDataProperty]: a repeated key overwrites the earlier value. *)
Fixpoint set_prop (k : jsstring) (v : value) (props : list (jsstring * value))
  : list (jsstring * value) :=
  match props with
  | [] => [(k, v)]
  | (k', v') :: rest =>
      if str_eqb k k' then (k', v) :: rest else (k', v') :: set_prop k v rest
  end.

Definition word (w : string) (v : value) (s : jsstring) : option (value * jsstring) :=
  if startsWith s (lit w) then Some (v, skipn (List.length (lit w)) s) else None.

(** Recursive descent over the JSON grammar.  [parse_elements] and
    [parse_members] stand at the first element or key of a non-empty array
    or object and read up to the closing bracket. *)
Fixpoint parse_value (fuel : nat) (s : jsstring) {struct fuel}
  : option (value * jsstring) :=
  match fuel with
  | O => None
  | S fuel' =>
      match skip_ws s with
      | [] => None
      | c :: r =>
          if N.eqb c 123 then
            match skip_ws r with
            | [] => None
            | c' :: r' =>
                if N.eqb c' 125 then Some (VObj [], r')
                else parse_members fuel' (c' :: r') []
            end
          else if N.eqb c 91 then
            match skip_ws r with
            | [] => None
            | c' :: r' =>
                if N.eqb c' 93 then Some (VArr [], r')
                else parse_elements fuel' (c' :: r') []
            end
          else if N.eqb c 34 then
            match scan_string r with
            | Some (str, r') => Some (VStr str, r')
            | None => None
            end
          else if N.eqb c 116 then word "true" (VBool true) (c :: r)
          else if N.eqb c 102 then word "false" (VBool false) (c :: r)
          else if N.eqb c 110 then word "null" VNull (c :: r)
          else
            match scan_number (c :: r) with
            | Some (n, r') => Some (VNum n, r')
            | None => None
            end
      end
  end

with parse_elements (fuel : nat) (s : jsstring) (acc : list value) {struct fuel}
  : option (value * jsstring) :=
  match fuel with
  | O => None
  | S fuel' =>
      match parse_value fuel' s with
      | None => None
      | Some (v, r) =>
          match skip_ws r with
          | [] => None
          | c :: r' =>
              if N.eqb c 44 then parse_elements fuel' r' (acc ++ [v])
              else if N.eqb c 93 then Some (VArr (acc ++ [v]), r')
              else None
          end
      end
  end

with parse_members (fuel : nat) (s : jsstring) (acc : list (jsstring * value))
  {struct fuel} : option (value * jsstring) :=
  match fuel with
  | O => None
  | S fuel' =>
      match skip_ws s with
      | [] => None
      | q :: r0 =>
          if N.eqb q 34 then
            match scan_string r0 with
            | None => None
            | Some (key, r1) =>
                match skip_ws r1 with
                | [] => None
                | colon :: r2 =>
                    if N.eqb colon 58 then
                      match parse_value fuel' r2 with
                      | None => None
                      | Some (v, r3) =>
                          match skip_ws r3 with
                          | [] => None
                          | c :: r4 =>
                              if N.eqb c 44 then
                                parse_members fuel' r4 (set_prop key v acc)
                              else if N.eqb c 125 then
                                Some (VObj (set_prop key v acc), r4)
                              else None
                          end
                      end
                    else None
                end
            end
          else None
      end
  end.

(** [JSON.parse(text)]: one value between optional white space; a
    SyntaxError otherwise.  Twice the length of the text is fuel enough for
    the descent (lemma [JSON_parse_fuel]).  The recursion limit of an engine
    is not modelled. *)
Definition JSON_parse (text : jsstring) : completion value :=
  match parse_value (S (2 * List.length text)) text with
  | Some (v, rest) =>
      match skip_ws rest with
      | [] => Return v
      | _ :: _ => Throw SyntaxError
      end
  | None => Throw SyntaxError
  end.

(** *** [text.match(/\{[\s\S]*\}/)]

    The class [[\s\S]] accepts every code unit and the star is greedy: the
    match runs from the first opening brace of the text to its last closing
    brace, when there is one after it. *)

Fixpoint from_first_open (s : jsstring) : option jsstring :=
  match s with
  | [] => None
  | c :: r => if N.eqb c 123 then Some s else from_first_open r
  end.

Fixpoint upto_last_close (s : jsstring) : option jsstring :=
  match s with
  | [] => None
  | c :: r =>
      match upto_last_close r with
      | Some p => Some (c :: p)
      | None => if N.eqb c 125 then Some [c] else None
      end
  end.

(** The matched text [jsonMatch[0]], or [None] for [null]. *)
Definition match_braces (text : jsstring) : option jsstring :=
  match from_first_open text with
  | Some s => upto_last_close s
  | None => None
  end.

End JS.

Export JS.

Declare Scope js_scope.
Delimit Scope js_scope with js.
Notation "x <- c ;; k" := (bind c (fun x => k))
  (at level 61, c at next level, right associativity) : js_scope.
Open Scope string_scope.
Open Scope list_scope.
Open Scope js_scope.



(** ** Condition values *)

(** [validateCondition] has the same text in both generations of the
    service. *)

Definition validConditions : list jsstring :=
  map lit ["new"; "like-new"; "excellent"; "good"; "fair"; "poor"; "for-parts"].

(** The entries of [conditionMap], in the order [Object.entries] lists them. *)
Definition conditionMap : list (jsstring * jsstring) :=
  map (fun kv => (lit (fst kv), lit (snd kv)))
    [ ("brand new", "new");
      ("mint", "like-new");
      ("very good", "excellent");
      ("used", "good");
      ("acceptable", "fair");
      ("damaged", "poor");
      ("broken", "for-parts") ].

(** [condition?.toLowerCase().replace(/[^a-z-]/g, '')]; [None] stands for
    [undefined], the value of the chain when [condition] is [null] or
    [undefined].  A value that is neither a string nor nullish has no method
    [toLowerCase], and the call throws. *)
Definition normalizeCondition (condition : value) : completion (option jsstring) :=
  match condition with
  | VUndefined | VNull => Return None
  | VStr s => Return (Some (replace_non_az_hyphen (toLowerCase s)))
  | _ => Throw TypeError
  end.

(** The loop over [Object.entries(conditionMap)]: the value of the first
    entry whose key occurs in [normalized]. *)
Fixpoint firstVariation (entries : list (jsstring * jsstring)) (normalized : jsstring)
  : option jsstring :=
  match entries with
  | [] => None
  | (key, val) :: rest =>
      if includes normalized key then Some val else firstVariation rest normalized
  end.

Definition validateCondition (condition : value) : completion jsstring :=
  normalized <- normalizeCondition condition ;;
  match normalized with
  | Some n =>
      if existsb (str_eqb n) validConditions then Return n
      else
        match firstVariation conditionMap n with
        | Some val => Return val
        | None => Return (lit "good")
        end
  | None => Return (lit "good")
  end.

(** ** Shared pieces of the response parser *)

(** [new Date()]: the time of the call, in milliseconds since the epoch. *)
Definition Date := Z.

(** [v?.substring(0, n)]. *)
Definition opt_substring0 (v : value) (n : nat) : completion value :=
  match v with
  | VUndefined | VNull => Return VUndefined
  | VStr s => Return (VStr (substring0 s n))
  | _ => Throw TypeError
  end.

(** [x || d] on numbers: [0], [-0] and [NaN] are falsy. *)
Definition num_or (x d : number) : number :=
  if is_zero x || is_nan x then d else x.

Definition zero : number := S754_zero false.
Definition half : number := of_decimal false 5 (-1).
Definition three_tenths : number := of_decimal false 3 (-1).

(** A property read [parsed.k] without the optional chain throws on [null]
    and [undefined]. *)
Definition requireObjectCoercible (v : value) : completion unit :=
  match v with
  | VUndefined | VNull => Throw TypeError
  | _ => Return tt
  end.

(** ** Calls that leave the process *)

(** An inline image part of a Gemini request: base64 data and MIME type. *)
Record InlineData := {
  data : jsstring;
  mimeType : jsstring }.

(** The request of [openai.chat.completions.create]: the system message and
    the user message, whose content is the prompt alone ([None]) or the
    prompt followed by the image URLs. *)
Record ChatRequest := {
  model : jsstring;
  systemContent : jsstring;
  userText : jsstring;
  userImages : option (list jsstring);
  max_tokens : Z;
  temperature : number }.

(** What the outside answers.  [fetchImage] stands for [fetch] followed by
    [arrayBuffer] and the base64 encoding, and yields the content type when
    the response has one; [generateContent] yields [response.text()];
    [createCompletion] yields [choices[0].message.content].  The text a
    provider answers with is taken to be a string. *)
Record Backend := {
  fetchImage : jsstring -> completion (jsstring * option jsstring);
  generateContent : jsstring -> list InlineData -> completion jsstring;
  createCompletion : ChatRequest -> completion jsstring }.

Inductive event : Type :=
| ConsoleError (label : jsstring)
| Fetch (url : jsstring)
| GeminiCall (prompt : jsstring) (images : list InlineData)
| OpenAICall (request : ChatRequest).

(** An external (provider or network) call, as opposed to a log line. *)
Definition is_external (e : event) : bool :=
  match e with
  | ConsoleError _ => false
  | Fetch _ | GeminiCall _ _ | OpenAICall _ => true
  end.

(** A computation with its trace of events, oldest first. *)
Definition io (A : Type) : Type := (list event * completion A)%type.

Definition io_ret {A} (a : A) : io A := ([], Return a).
Definition io_throw {A} (e : exn) : io A := ([], Throw e).
Definition io_lift {A} (c : completion A) : io A := ([], c).
Definition io_call {A} (ev : event) (answer : completion A) : io A := ([ev], answer).

Definition io_bind {A B} (m : io A) (k : A -> io B) : io B :=
  match m with
  | (tr, Return a) => let '(tr', r) := k a in (tr ++ tr', r)
  | (tr, Throw e) => (tr, Throw e)
  end.

Definition io_try {A} (m : io A) (handler : exn -> io A) : io A :=
  match m with
  | (tr, Return a) => (tr, Return a)
  | (tr, Throw e) => let '(tr', r) := handler e in (tr ++ tr', r)
  end.

Notation "x <~ c ;; k" := (io_bind c (fun x => k))
  (at level 61, c at next level, right associativity) : js_scope.

(** [await Promise.all(images.map(f))]: every [f] is started, in order; the
    results keep the order of [images]; one rejection rejects the whole. *)
Fixpoint io_all {A B} (f : A -> io B) (l : list A) : io (list B) :=
  match l with
  | [] => io_ret []
  | a :: rest =>
      let '(tr, r) := f a in
      let '(tr', rs) := io_all f rest in
      (tr ++ tr',
       match r, rs with
       | Return b, Return bs => Return (b :: bs)
       | Throw e, _ => Throw e
       | Return _, Throw e => Throw e
       end)
  end.

(** [!images || images.length === 0]; [None] is [null] or [undefined]. *)
Definition noImages (images : option (list jsstring)) : bool :=
  match images with
  | Some (_ :: _) => false
  | _ => true
  end.

Definition urls (images : option (list jsstring)) : list jsstring :=
  match images with
  | Some l => l
  | None => []
  end.

Definition systemForImages : jsstring :=
  "You are an expert at analyzing product images and creating detailed, accurate marketplace listings. Always provide honest condition assessments and accurate product information.".

Definition systemForSpecifications : jsstring :=
  "You are an expert at analyzing product specifications and creating detailed, accurate marketplace listings. Always provide honest condition assessments and accurate product information.".

(** ** The service, marketplace-content generation *)

Module AIService.

Module SeoKeywords.
Record t := {
  primary : list value;
  secondary : list value;
  longTail : list value }.
End SeoKeywords.

Module MarketplaceContent.
Record t := {
  seoTitle : value;
  keyFeatures : list value;
  productDescription : value;
  shortMarketplaceSummary : value;
  longSeoDescription : value;
  seoKeywords : SeoKeywords.t;
  marketplaceTags : list value }.
End MarketplaceContent.

Module Category.
Record t := {
  main : value;
  sub : value;
  tags : list value }.
End Category.

Module Specifications.
Record t := {
  brand : value;
  model : value;
  modelNumber : value;
  category : value;
  subCategory : value;
  dimensions : value;
  weight : value;
  year : value;
  color : value;
  size : value;
  material : value;
  capacity : value;
  condition : value;
  powerSpecs : value;
  connectivity : value;
  compatibility : value;
  warranty : value;
  origin : value;
  certifications : value;
  features : list value;
  allSpecs : value }.
End Specifications.

Module SuggestedPrice.
Record t := {
  min : number;
  max : number;
  currency : value;
  reasoning : value }.
End SuggestedPrice.

(** The object [parseAIResponse] returns.  [specifications] is [None] for
    the empty object of the fallback; [error] is present on the fallback
    only. *)
Record ListingContent := {
  title : value;
  description : value;
  marketplaceContent : MarketplaceContent.t;
  category : Category.t;
  condition : jsstring;
  conditionNotes : value;
  specifications : option Specifications.t;
  suggestedPrice : SuggestedPrice.t;
  searchKeywords : list value;
  warnings : list value;
  confidence : number;
  aiProvider : jsstring;
  generatedAt : Date;
  error : option jsstring }.

(** The object literal of the [try] block, given the values of its five
    sub-expressions that can throw: the [substring] call, the
    [validateCondition] call and the three [parseFloat] calls. *)
Definition listing (parsed : value) (provider : jsstring) (now : Date)
  (title : value) (condition : jsstring) (min max confidence : number)
  : ListingContent :=
  let specs := get parsed "specifications" in
  let price := get parsed "suggestedPrice" in
  let keywords := get parsed "seoKeywords" in
  {|
    title := or_else title (VStr "Product Listing");
    description := or_else (get parsed "productDescription") (VStr "");
    marketplaceContent := {|
      MarketplaceContent.seoTitle := or_else (get parsed "seoTitle") (VStr "");
      MarketplaceContent.keyFeatures := arrayOrEmpty (get parsed "keyFeatures");
      MarketplaceContent.productDescription :=
        or_else (get parsed "productDescription") (VStr "");
      MarketplaceContent.shortMarketplaceSummary :=
        or_else (get parsed "shortMarketplaceSummary") (VStr "");
      MarketplaceContent.longSeoDescription :=
        or_else (get parsed "longSeoDescription") (VStr "");
      MarketplaceContent.seoKeywords := {|
        SeoKeywords.primary := arrayOrEmpty (get keywords "primary");
        SeoKeywords.secondary := arrayOrEmpty (get keywords "secondary");
        SeoKeywords.longTail := arrayOrEmpty (get keywords "longTail") |};
      MarketplaceContent.marketplaceTags := arrayOrEmpty (get parsed "marketplaceTags") |};
    category := {|
      Category.main := or_else (get specs "category") (VStr "Other");
      Category.sub := VStr "";
      Category.tags := firstn 10 (arrayOrEmpty (get parsed "marketplaceTags")) |};
    condition := condition;
    conditionNotes := or_else (get parsed "conditionNotes") (VStr "");
    specifications := Some {|
      Specifications.brand := or_else (get specs "brand") (VStr "");
      Specifications.model := or_else (get specs "model") (VStr "");
      Specifications.modelNumber := or_else (get specs "modelNumber") (VStr "");
      Specifications.category := or_else (get specs "category") (VStr "");
      Specifications.subCategory := or_else (get specs "subCategory") (VStr "");
      Specifications.dimensions := or_else (get specs "dimensions") (VStr "");
      Specifications.weight := or_else (get specs "weight") (VStr "");
      Specifications.year := or_else (get specs "year") VNull;
      Specifications.color := or_else (get specs "color") (VStr "");
      Specifications.size :=
        or_else (or_else (get specs "size") (get specs "capacity")) (VStr "");
      Specifications.material := or_else (get specs "material") (VStr "");
      Specifications.capacity := or_else (get specs "capacity") (VStr "");
      Specifications.condition := or_else (get specs "condition") (VStr "");
      Specifications.powerSpecs := or_else (get specs "powerSpecs") (VStr "");
      Specifications.connectivity := or_else (get specs "connectivity") (VStr "");
      Specifications.compatibility := or_else (get specs "compatibility") (VStr "");
      Specifications.warranty := or_else (get specs "warranty") (VStr "");
      Specifications.origin := or_else (get specs "origin") (VStr "");
      Specifications.certifications := or_else (get specs "certifications") (VStr "");
      Specifications.features := arrayOrEmpty (get parsed "keyFeatures");
      Specifications.allSpecs := or_else (get specs "allSpecs") (VObj []) |};
    suggestedPrice := {|
      SuggestedPrice.min := num_or min zero;
      SuggestedPrice.max := num_or max zero;
      SuggestedPrice.currency := or_else (get price "currency") (VStr "USD");
      SuggestedPrice.reasoning := or_else (get price "reasoning") (VStr "") |};
    searchKeywords :=
      arrayOrEmpty (get keywords "primary") ++ arrayOrEmpty (get keywords "secondary");
    warnings := arrayOrEmpty (get parsed "warnings");
    confidence := num_or confidence half;
    aiProvider := provider;
    generatedAt := now;
    error := None |}.

(** The same literal with its throwing sub-expressions evaluated in source
    order. *)
Definition readListing (parsed : value) (provider : jsstring) (now : Date)
  : completion ListingContent :=
  _ <- requireObjectCoercible parsed ;;
  title <- opt_substring0 (get parsed "seoTitle") 200 ;;
  condition <- validateCondition (get parsed "condition") ;;
  min <- parseFloat (get (get parsed "suggestedPrice") "min") ;;
  max <- parseFloat (get (get parsed "suggestedPrice") "max") ;;
  confidence <- parseFloat (get parsed "confidence") ;;
  Return (listing parsed provider now title condition min max confidence).

(** The [try] block: extract, decode, read. *)
Definition tryParse (text provider : jsstring) (now : Date) : completion ListingContent :=
  match match_braces text with
  | Some json =>
      parsed <- JSON_parse json ;;
      readListing parsed provider now
  | None => Throw (Error "Could not parse AI response")
  end.

(** The object literal of the [catch] block. *)
Definition fallback (text provider : jsstring) (now : Date) : ListingContent := {|
  title := VStr "Product for Sale";
  description := VStr (substring0 text 1000);
  marketplaceContent := {|
    MarketplaceContent.seoTitle := VStr "";
    MarketplaceContent.keyFeatures := [];
    MarketplaceContent.productDescription := VStr (substring0 text 500);
    MarketplaceContent.shortMarketplaceSummary := VStr "";
    MarketplaceContent.longSeoDescription := VStr "";
    MarketplaceContent.seoKeywords := {|
      SeoKeywords.primary := [];
      SeoKeywords.secondary := [];
      SeoKeywords.longTail := [] |};
    MarketplaceContent.marketplaceTags := [] |};
  category := {|
    Category.main := VStr "Other";
    Category.sub := VStr "";
    Category.tags := [] |};
  condition := "good";
  conditionNotes := VStr "";
  specifications := None;
  suggestedPrice := {|
    SuggestedPrice.min := zero;
    SuggestedPrice.max := zero;
    SuggestedPrice.currency := VStr "USD";
    SuggestedPrice.reasoning := VStr "" |};
  searchKeywords := [];
  warnings := [];
  confidence := three_tenths;
  aiProvider := provider;
  generatedAt := now;
  error := Some (lit "Failed to parse structured response") |}.

(** [parseAIResponse(text, provider)], called at time [now].  The two
    [console.error] lines of the handler only log. *)
Definition parseAIResponse (text provider : jsstring) (now : Date)
  : completion ListingContent :=
  try_catch (tryParse text provider now)
            (fun _ => Return (fallback text provider now)).

(** The instance: whether [geminiModel] is set (the Google key was present
    at start-up), the configured provider, and whether the module-level
    [openai] client is set. *)
Record t := {
  geminiModel : bool;
  preferredProvider : jsstring;
  openai : bool }.

(** *** [buildPrompt] *)

Definition schemaIntro : list string :=
  [ "Act as a senior e-commerce content strategist and marketplace listing expert.";
    "";
    "Generate premium marketplace content for this product: **" ].
Definition schemaBody : list string :=
  [ "**";
    "";
    "Deliver the output in strict JSON format with the following structure:";
    "";
    "{";
    "  `seoTitle`: `SEO-optimised product title (80-120 chars) - include brand, model, key features`,";
    "  `keyFeatures`: [";
    "    `6-10 bullet points focused on real benefits, not just specs`,";
    "    `Emphasise build quality, energy efficiency, hygiene, durability, capacity, quiet operation`,";
    "    `Each point should highlight value and user benefits`";
    "  ],";
    "  `productDescription`: `2-3 paragraphs, premium tone. Clear, helpful, professional @ no hype. Explain who it's ideal for and why. (200-300 words)`,";
    "  `specifications`: {";
    "    `brand`: `Product brand`,";
    "    `model`: `Product model`,";
    "    `modelNumber`: `Full model number`,";
    "    `category`: `Product category (Electronics, Fashion, Home Appliances, Furniture, Sports, Automotive, etc.)`,";
    "    `subCategory`: `Specific subcategory`,";
    "    `dimensions`: `Product dimensions (L x W x H)`,";
    "    `weight`: `Product weight`,";
    "    `capacity`: `Capacity/Size if applicable`,";
    "    `color`: `Product color/finish`,";
    "    `material`: `Primary materials used`,";
    "    `year`: `Year/manufacture date`,";
    "    `condition`: `Current condition assessment`,";
    "    `powerSpecs`: `Power requirements/battery (if applicable)`,";
    "    `connectivity`: `Connection types/ports (if applicable)`,";
    "    `compatibility`: `Compatible systems/models (if applicable)`,";
    "    `warranty`: `Warranty information (if known)`,";
    "    `origin`: `Country of manufacture (if visible)`,";
    "    `certifications`: `Safety certifications/standards (if visible)`,";
    "    `allSpecs`: {";
    "      `Generate ALL product-specific specifications here as key-value pairs`: `Include every technical detail, feature, measurement, rating, etc. based on product type`,";
    "      `For Electronics`: `Screen size, resolution, processor, RAM, storage, battery, OS, etc.`,";
    "      `For Appliances`: `Energy rating, capacity, dimensions, load type, RPM, noise level, etc.`,";
    "      `For Furniture`: `Dimensions, material, weight capacity, assembly required, style, etc.`,";
    "      `For Clothing`: `Size, fit, fabric composition, care instructions, style, etc.`,";
    "      `For Vehicles/Parts`: `Make, model, year, VIN, mileage, engine, transmission, etc.`,";
    "      `Be comprehensive`: `Include everything visible or known about this specific product`";
    "    }";
    "  },";
    "  `shortMarketplaceSummary`: `1 concise paragraph for eBay/FB Marketplace/Google Shopping (50-80 words)`,";
    "  `longSeoDescription`: `1-2 paragraphs targeting search keywords. Avoid repetition from earlier sections. Focus on benefits and search intent. (150-200 words)`,";
    "  `seoKeywords`: {";
    "    `primary`: [`3-5 primary keywords`],";
    "    `secondary`: [`5-7 secondary keywords`],";
    "    `longTail`: [`5-8 long-tail keywords phrases`]";
    "  },";
    "  `marketplaceTags`: [`20-30 relevant tags for marketplace categorisation`],";
    "  `condition`: `new|like-new|excellent|good|fair|poor|for-parts`,";
    "  `conditionNotes`: `Specific condition details if visible, any defects or wear`,";
    "  `suggestedPrice`: {";
    "    `min`: 0,";
    "    `max`: 0,";
    "    `currency`: `USD`,";
    "    `reasoning`: `Brief price justification based on condition and market value`";
    "  },";
    "  `warnings`: [`Any safety or authenticity concerns if applicable`],";
    "  `confidence`: 0.95";
    "}";
    "";
    "**Tone & Style Guidelines:**";
    "- Sounds like premium retail (Appliances Online / The Good Guys / JB Hi-Fi)";
    "- Clean, confident, premium tone";
    "- Australia context where relevant";
    "- Zero fluff, zero overly-salesy language";
    "- Use straightforward language, high trust, high clarity";
    "- Focus on durability, hygiene, efficiency and real user benefits";
    "";
    "**Important:**";
    "- Write as if product details are known";
    "- Focus on high-intent keywords and conversion";
    "- Make content suitable for Facebook Marketplace, eBay, Google Shopping & website product pages";
    "- Include keywords that improve search ranking";
    "- Avoid repeated sentences across sections";
    "- **CRITICAL: Generate ALL possible specifications for this product type**";
    "- Extract every technical detail visible or known";
    "- Fill the `allSpecs` object with comprehensive product-specific details";
    "- Be thorough - more specifications = better listings" ].
Definition modelLead : list string :=
  [ "";
    "";
    "**Product Model Number:** " ].
Definition modelGuidance : list string :=
  [ "";
    "";
    "Look up this exact model and provide:";
    "- ALL technical specifications from manufacturer";
    "- Complete feature list";
    "- Every measurement and rating";
    "- All compatibility information";
    "- Full performance specifications";
    "- Any certifications or standards";
    "- Complete material/construction details";
    "- Everything a buyer would want to know" ].
Definition imageGuidance : list string :=
  [ "";
    "";
    "**Note:** Analyze the product from the images provided.";
    "";
    "Extract from images:";
    "- Identify brand, model, and model numbers from labels";
    "- Read all visible text, labels, and tags";
    "- Estimate dimensions from context";
    "- Identify materials from appearance";
    "- Note any visible specifications or ratings";
    "- Capture serial numbers or model codes";
    "- Identify any certifications or safety marks";
    "- Extract ALL visible information" ].
Definition contextLead : list string :=
  [ "";
    "";
    "**Additional Context:** " ].
Definition closing : list string :=
  [ "";
    "";
    "Be accurate and honest about the condition. If you cannot determine certain details from the information provided, indicate that clearly in the confidence score." ].

Definition buildPrompt (this : t) (modelNumber additionalInfo : option jsstring)
  : jsstring :=
  let productIdentifier :=
    if truthy modelNumber then text_of modelNumber
    else lit "the product shown in the images" in
  let prompt := template schemaIntro ++ productIdentifier ++ template schemaBody in
  let prompt :=
    if truthy modelNumber then
      prompt ++ template modelLead ++ text_of modelNumber ++ template modelGuidance
    else prompt ++ template imageGuidance in
  let prompt :=
    if truthy additionalInfo then
      prompt ++ template contextLead ++ text_of additionalInfo
    else prompt in
  prompt ++ template closing.

(** *** The provider paths *)

Section Calls.

Variable backend : Backend.
Variable now : Date.

Definition parseIO (text provider : jsstring) : io ListingContent :=
  io_lift (parseAIResponse text provider now).

Definition toInlineData (imageUrl : jsstring) : io InlineData :=
  fetched <~ io_call (Fetch imageUrl) (fetchImage backend imageUrl) ;;
  io_ret {|
    data := fst fetched;
    mimeType := match snd fetched with
                | Some (c :: ct) => c :: ct
                | _ => lit "image/jpeg"
                end |}.

Definition analyzeWithGemini (this : t) (images : option (list jsstring))
  (modelNumber additionalInfo : option jsstring) : io ListingContent :=
  let prompt := buildPrompt this modelNumber additionalInfo in
  if noImages images then
    text <~ io_call (GeminiCall prompt []) (generateContent backend prompt []) ;;
    parseIO text "gemini"
  else
    imageParts <~ io_all toInlineData (urls images) ;;
    text <~ io_call (GeminiCall prompt imageParts)
                    (generateContent backend prompt imageParts) ;;
    parseIO text "gemini".

Definition chatRequest (system prompt : jsstring) (images : option (list jsstring))
  : ChatRequest := {|
  model := "gpt-4o";
  systemContent := system;
  userText := prompt;
  userImages := images;
  max_tokens := 1500;
  temperature := three_tenths |}.

Definition analyzeWithGPT4 (this : t) (images : option (list jsstring))
  (modelNumber additionalInfo : option jsstring) : io ListingContent :=
  let prompt := buildPrompt this modelNumber additionalInfo in
  if noImages images then
    let request := chatRequest systemForSpecifications prompt None in
    content <~ io_call (OpenAICall request) (createCompletion backend request) ;;
    parseIO content "openai"
  else
    let request := chatRequest systemForImages prompt (Some (urls images)) in
    content <~ io_call (OpenAICall request) (createCompletion backend request) ;;
    parseIO content "openai".

(** *** [analyzeProductImages] *)

(** The [try] block: the argument check, then the dispatch on the
    configured provider. *)
Definition analyze (this : t) (images : option (list jsstring))
  (modelNumber additionalInfo : option jsstring) : io ListingContent :=
  if noImages images && negb (truthy modelNumber) then
    io_throw (newAppError "Either images or model number is required" 400)
  else if str_eqb (preferredProvider this) "gemini" && geminiModel this then
    analyzeWithGemini this images modelNumber additionalInfo
  else if str_eqb (preferredProvider this) "openai" && openai this then
    analyzeWithGPT4 this images modelNumber additionalInfo
  else io_throw (newAppError "AI service not configured" 500).

(** The handler logs whatever was thrown and throws a new error. *)
Definition analyzeProductImages (this : t) (images : option (list jsstring))
  (modelNumber additionalInfo : option jsstring) : io ListingContent :=
  io_try (analyze this images modelNumber additionalInfo)
         (fun error =>
            _ <~ io_call (ConsoleError "AI analysis error:") (Return tt) ;;
            io_throw (newAppError "Failed to analyze product images" 500)).

End Calls.

End AIService.

(** ** The service, first generation

    The earlier text of the same class: a smaller schema, no argument check
    in [analyzeProductImages], and no text-only provider path. *)

Module AIServiceV1.

Module Category.
Record t := {
  main : value;
  sub : value;
  tags : list value }.
End Category.

Module Specifications.
Record t := {
  brand : value;
  model : value;
  modelNumber : value;
  year : value;
  color : value;
  size : value;
  material : value;
  features : list value }.
End Specifications.

Module SuggestedPrice.
Record t := {
  min : number;
  max : number;
  reasoning : value }.
End SuggestedPrice.

Record ListingContent := {
  title : value;
  description : value;
  category : Category.t;
  condition : jsstring;
  conditionNotes : value;
  specifications : option Specifications.t;
  suggestedPrice : SuggestedPrice.t;
  searchKeywords : list value;
  warnings : list value;
  confidence : number;
  aiProvider : jsstring;
  generatedAt : Date;
  error : option jsstring }.

(** [o?.sub]: a string inherits the method [String.prototype.sub]; no other
    value of a decoded payload inherits a property of that name. *)
Definition get_sub (o : value) : value :=
  match o with
  | VStr _ => VFunction "sub"
  | _ => get o "sub"
  end.

Definition listing (parsed : value) (provider : jsstring) (now : Date)
  (title : value) (condition : jsstring) (min max confidence : number)
  : ListingContent :=
  let cat := get parsed "category" in
  let specs := get parsed "specifications" in
  let price := get parsed "suggestedPrice" in
  {|
    title := or_else title (VStr "Product Listing");
    description := or_else (get parsed "description") (VStr "");
    category := {|
      Category.main := or_else (get cat "main") (VStr "Other");
      Category.sub := or_else (get_sub cat) (VStr "");
      Category.tags := arrayOrEmpty (get cat "tags") |};
    condition := condition;
    conditionNotes := or_else (get parsed "conditionNotes") (VStr "");
    specifications := Some {|
      Specifications.brand := or_else (get specs "brand") (VStr "");
      Specifications.model := or_else (get specs "model") (VStr "");
      Specifications.modelNumber := or_else (get specs "modelNumber") (VStr "");
      Specifications.year := or_else (get specs "year") VNull;
      Specifications.color := or_else (get specs "color") (VStr "");
      Specifications.size := or_else (get specs "size") (VStr "");
      Specifications.material := or_else (get specs "material") (VStr "");
      Specifications.features := arrayOrEmpty (get specs "features") |};
    suggestedPrice := {|
      SuggestedPrice.min := num_or min zero;
      SuggestedPrice.max := num_or max zero;
      SuggestedPrice.reasoning := or_else (get price "reasoning") (VStr "") |};
    searchKeywords := arrayOrEmpty (get parsed "searchKeywords");
    warnings := arrayOrEmpty (get parsed "warnings");
    confidence := num_or confidence half;
    aiProvider := provider;
    generatedAt := now;
    error := None |}.

Definition readListing (parsed : value) (provider : jsstring) (now : Date)
  : completion ListingContent :=
  _ <- requireObjectCoercible parsed ;;
  title <- opt_substring0 (get parsed "title") 200 ;;
  condition <- validateCondition (get parsed "condition") ;;
  min <- parseFloat (get (get parsed "suggestedPrice") "min") ;;
  max <- parseFloat (get (get parsed "suggestedPrice") "max") ;;
  confidence <- parseFloat (get parsed "confidence") ;;
  Return (listing parsed provider now title condition min max confidence).

Definition tryParse (text provider : jsstring) (now : Date) : completion ListingContent :=
  match match_braces text with
  | Some json =>
      parsed <- JSON_parse json ;;
      readListing parsed provider now
  | None => Throw (Error "Could not parse AI response")
  end.

Definition fallback (text provider : jsstring) (now : Date) : ListingContent := {|
  title := VStr "Product for Sale";
  description := VStr (substring0 text 1000);
  category := {|
    Category.main := VStr "Other";
    Category.sub := VStr "";
    Category.tags := [] |};
  condition := "good";
  conditionNotes := VStr "";
  specifications := None;
  suggestedPrice := {|
    SuggestedPrice.min := zero;
    SuggestedPrice.max := zero;
    SuggestedPrice.reasoning := VStr "" |};
  searchKeywords := [];
  warnings := [];
  confidence := three_tenths;
  aiProvider := provider;
  generatedAt := now;
  error := Some (lit "Failed to parse structured response") |}.

Definition parseAIResponse (text provider : jsstring) (now : Date)
  : completion ListingContent :=
  try_catch (tryParse text provider now)
            (fun _ => Return (fallback text provider now)).

Record t := {
  geminiModel : bool;
  preferredProvider : jsstring;
  openai : bool }.

Definition schema : list string :=
  [ "Analyze these product images and provide detailed information for a marketplace listing.";
    "    ";
    "    Please provide the following in JSON format:";
    "    {";
    "      `title`: `Concise, descriptive product title (max 80 chars)`,";
    "      `description`: `Detailed product description including key features, specifications, and condition details (200-500 words)`,";
    "      `category`: {";
    "        `main`: `Main category (Electronics, Fashion, Home, Sports, etc.)`,";
    "        `sub`: `Subcategory`,";
    "        `tags`: [`relevant`, `search`, `tags`]";
    "      },";
    "      `condition`: `new|like-new|excellent|good|fair|poor|for-parts`,";
    "      `conditionNotes`: `Specific condition details, any defects or wear`,";
    "      `specifications`: {";
    "        `brand`: `Product brand`,";
    "        `model`: `Product model`,";
    "        `modelNumber`: `Model number if visible`,";
    "        `year`: `Year if applicable`,";
    "        `color`: `Product color`,";
    "        `size`: `Size if applicable`,";
    "        `material`: `Materials used`,";
    "        `features`: [`key`, `product`, `features`]";
    "      },";
    "      `suggestedPrice`: {";
    "        `min`: `Minimum suggested price in USD`,";
    "        `max`: `Maximum suggested price in USD`,";
    "        `reasoning`: `Brief price justification`";
    "      },";
    "      `searchKeywords`: [`relevant`, `search`, `keywords`],";
    "      `warnings`: [`Any safety or authenticity concerns`],";
    "      `confidence`: 0.95";
    "    }" ].
Definition modelLead : list string :=
  [ "";
    "";
    "Model Number provided: " ].
Definition modelTail : list string :=
  [ ". Use this to look up accurate specifications." ].
Definition contextLead : list string :=
  [ "";
    "";
    "Additional context: " ].
Definition closing : list string :=
  [ "";
    "";
    "Be accurate and honest about the condition. If you cannot determine certain details from the images, indicate that clearly." ].

Definition buildPrompt (this : t) (modelNumber additionalInfo : option jsstring)
  : jsstring :=
  let prompt := template schema in
  let prompt :=
    if truthy modelNumber then
      prompt ++ template modelLead ++ text_of modelNumber ++ template modelTail
    else prompt in
  let prompt :=
    if truthy additionalInfo then
      prompt ++ template contextLead ++ text_of additionalInfo
    else prompt in
  prompt ++ template closing.

Section Calls.

Variable backend : Backend.
Variable now : Date.

Definition parseIO (text provider : jsstring) : io ListingContent :=
  io_lift (parseAIResponse text provider now).

Definition toInlineData (imageUrl : jsstring) : io InlineData :=
  fetched <~ io_call (Fetch imageUrl) (fetchImage backend imageUrl) ;;
  io_ret {|
    data := fst fetched;
    mimeType := match snd fetched with
                | Some (c :: ct) => c :: ct
                | _ => lit "image/jpeg"
                end |}.

(** [images.map] throws when [images] is [null] or [undefined]. *)
Definition analyzeWithGemini (this : t) (images : option (list jsstring))
  (modelNumber additionalInfo : option jsstring) : io ListingContent :=
  let prompt := buildPrompt this modelNumber additionalInfo in
  match images with
  | None => io_throw TypeError
  | Some l =>
      imageParts <~ io_all toInlineData l ;;
      text <~ io_call (GeminiCall prompt imageParts)
                      (generateContent backend prompt imageParts) ;;
      parseIO text "gemini"
  end.

Definition analyzeWithGPT4 (this : t) (images : option (list jsstring))
  (modelNumber additionalInfo : option jsstring) : io ListingContent :=
  let prompt := buildPrompt this modelNumber additionalInfo in
  match images with
  | None => io_throw TypeError
  | Some l =>
      let request := {|
        model := "gpt-4o";
        systemContent := systemForImages;
        userText := prompt;
        userImages := Some l;
        max_tokens := 1500;
        temperature := three_tenths |} in
      content <~ io_call (OpenAICall request) (createCompletion backend request) ;;
      parseIO content "openai"
  end.

Definition analyze (this : t) (images : option (list jsstring))
  (modelNumber additionalInfo : option jsstring) : io ListingContent :=
  if str_eqb (preferredProvider this) "gemini" && geminiModel this then
    analyzeWithGemini this images modelNumber additionalInfo
  else if str_eqb (preferredProvider this) "openai" && openai this then
    analyzeWithGPT4 this images modelNumber additionalInfo
  else io_throw (newAppError "AI service not configured" 500).

Definition analyzeProductImages (this : t) (images : option (list jsstring))
  (modelNumber additionalInfo : option jsstring) : io ListingContent :=
  io_try (analyze this images modelNumber additionalInfo)
         (fun error =>
            _ <~ io_call (ConsoleError "AI analysis error:") (Return tt) ;;
            io_throw (newAppError "Failed to analyze product images" 500)).

End Calls.

End AIServiceV1.

(** ** Vocabulary of the specification *)

(** The [parseFailed] flag of the listing record is the presence of the
    [error] property, which only the fallback object carries. *)
Definition parseFailed (r : AIService.ListingContent) : bool :=
  match AIService.error r with Some _ => true | None => false end.

Definition parseFailedV1 (r : AIServiceV1.ListingContent) : bool :=
  match AIServiceV1.error r with Some _ => true | None => false end.

(** The text in which no JSON object can be located or decoded: the pattern
    finds no match, or [JSON.parse] throws on the match. *)
Definition noJsonObject (text : jsstring) : Prop :=
  match_braces text = None \/
  exists json e, match_braces text = Some json /\ JSON_parse json = Throw e.

(** A condition argument of the type the normalizer is specified for: an
    optional string. *)
Definition optionalString (v : value) : Prop :=
  v = VUndefined \/ v = VNull \/ exists s, v = VStr s.

Definition one : number := of_decimal false 1 0.

(** [0 <= x <= 1]. *)
Definition in_unit_interval (x : number) : bool := leb zero x && leb x one.

(** Sample inputs. *)

Definition quoted (s : string) : jsstring := (34%N :: lit s) ++ [34%N].

Definition noJsonText : jsstring := "Sorry, I cannot describe this product.".

Definition brokenJsonText : jsstring :=
  lit "Here you go: {" ++ quoted "seoTitle" ++ lit ": }".

(** A request to a provider carries the instruction text [p]. *)
Definition carriesPrompt (p : jsstring) (ev : event) : Prop :=
  match ev with
  | GeminiCall q _ => q = p
  | OpenAICall request => userText request = p
  | ConsoleError _ | Fetch _ => True
  end.

Definition priceText : jsstring :=
  lit "{" ++ quoted "suggestedPrice" ++ lit ": {" ++ quoted "min" ++ lit ": "
    ++ quoted "199.99abc" ++ lit "}}".

(** A payload whose [condition] is a number, with a title beside it. *)
Definition numericConditionText : jsstring :=
  lit "{" ++ quoted "seoTitle" ++ lit ": " ++ quoted "Desk lamp" ++ lit ", "
    ++ quoted "condition" ++ lit ": 5}".

Definition five : number := of_decimal false 5 0.

Definition confidenceFiveText : jsstring :=
  lit "{" ++ quoted "confidence" ++ lit ": 5}".

Definition confidenceZeroText : jsstring :=
  lit "{" ++ quoted "confidence" ++ lit ": 0}".

(** A finite number [m * 2^e] lies within half a unit in the last place of
    the fraction [num / den]: it is a nearest binary64 number to it. *)
Definition within_half_ulp (x : number) (num den : Z) : bool :=
  match x with
  | S754_finite false m e =>
      (Z.abs (Zpos m * den - num * 2 ^ (- e)) * 2 <=? den)%Z && (e <? 0)%Z
  | _ => false
  end.

Definition sampleServiceV1 : AIServiceV1.t := {|
  AIServiceV1.geminiModel := true;
  AIServiceV1.preferredProvider := "gemini";
  AIServiceV1.openai := false |}.









(** With [n] code units consumed, [2n - 1] is fuel enough for a value and
    [2n - 2] for the rest of an array or object. *)
Definition enough_value (f : nat) : Prop :=
  forall s v r, parse_value f s = Some (v, r) ->
    List.length r < List.length s /\
    forall g, 2 * (List.length s - List.length r) <= g + 1 ->
              parse_value g s = Some (v, r).

Definition enough_elements (f : nat) : Prop :=
  forall s acc v r, parse_elements f s acc = Some (v, r) ->
    List.length r + 1 < List.length s /\
    forall g, 2 * (List.length s - List.length r) <= g + 2 ->
              parse_elements g s acc = Some (v, r).

Definition enough_members (f : nat) : Prop :=
  forall s acc v r, parse_members f s acc = Some (v, r) ->
    List.length r + 1 < List.length s /\
    forall g, 2 * (List.length s - List.length r) <= g + 2 ->
              parse_members g s acc = Some (v, r).

(** ** Printing, trimming and own entries

    What the helpers and the callers of the service use on top of the
    fragment above: the conversion of a value to a string, as the operator
    [+], a template literal and [Array.prototype.join] perform it,
    [String.prototype.trim] and [Object.entries]. *)

Definition nl : jsstring := [10%N].

(** The strings of [l] with [sep] between them. *)
Definition join_strings (sep : jsstring) (l : list jsstring) : jsstring :=
  match l with
  | [] => []
  | x :: rest => x ++ flat_map (fun y => sep ++ y) rest
  end.

(** Completions in source order; the first abrupt one ends the run. *)
Fixpoint sequence {A} (l : list (completion A)) : completion (list A) :=
  match l with
  | [] => Return []
  | c :: rest =>
      x <- c ;;
      xs <- sequence rest ;;
      Return (x :: xs)
  end.

(** [s.trim()]: the white space of [StrWhiteSpaceChar] is removed at both
    ends. *)
Definition trimEnd (s : jsstring) : jsstring := rev (trimStart (rev s)).

Definition trim (s : jsstring) : jsstring := trimEnd (trimStart s).

(** [v === s] for a string [s]. *)
Definition strictEq (v : value) (s : jsstring) : bool :=
  match v with
  | VStr t => str_eqb t s
  | _ => false
  end.

(** [o.k], without the optional chain, for a name [k] as in [get]. *)
Definition member (o : value) (k : jsstring) : completion value :=
  _ <- requireObjectCoercible o ;;
  Return (get o k).

(** [o[0]] for [o] neither [null] nor [undefined]: the first element of an
    array, the first code unit of a string, the property [0] of an
    object. *)
Definition at0 (o : value) : value :=
  match o with
  | VArr (x :: _) => x
  | VStr (c :: _) => VStr [c]
  | VObj _ => get o "0"
  | _ => VUndefined
  end.

(** [o?.[0]]. *)
Definition opt_at0 (o : value) : value :=
  match o with
  | VUndefined | VNull => VUndefined
  | _ => at0 o
  end.

(** The decimal digits of [n], as [ToString] prints an array index. *)
Definition decimal (n : N) : jsstring :=
  lit (DecimalString.NilEmpty.string_of_uint (N.to_uint n)).

(** An array index: the canonical decimal form of an integer below
    [2^32 - 1]. *)
Definition array_index (k : jsstring) : option N :=
  match k with
  | [] => None
  | c :: rest =>
      if forallb is_digit k &&
         (negb (N.eqb c 48) || match rest with [] => true | _ :: _ => false end)
      then
        let n := digits_value k in
        if N.leb n 4294967294 then Some n else None
      else None
  end.

Fixpoint insert_index (e : N * (jsstring * value)) (l : list (N * (jsstring * value)))
  : list (N * (jsstring * value)) :=
  match l with
  | [] => [e]
  | x :: rest =>
      if N.ltb (fst e) (fst x) then e :: l else x :: insert_index e rest
  end.

(** [Object.entries(o)] for an object or an array [o]: the own properties,
    those whose key is an array index first, in ascending order, then the
    others in the order of their creation. *)
Definition entries (o : value) : list (jsstring * value) :=
  match o with
  | VObj props =>
      map snd
        (fold_right insert_index []
           (flat_map (fun kv => match array_index (fst kv) with
                                | Some n => [(n, kv)]
                                | None => []
                                end) props))
      ++ filter (fun kv => match array_index (fst kv) with
                           | Some _ => false
                           | None => true
                           end) props
  | VArr elems =>
      combine (map (fun i => decimal (N.of_nat i)) (seq 0 (List.length elems))) elems
  | _ => []
  end.

Section Printing.

(** [Number::toString], the shortest decimal that reads back as the number,
    is a parameter of what follows: no property below depends on how a
    number prints. *)
Variable numberToString : number -> jsstring.

(** [ToString(v)], and [ToPrimitive] before it, for the values of a decoded
    payload: an array prints as its elements joined by commas, an object as
    the text of [Object.prototype.toString] unless an own property
    [toString] hides that method (see [toStringThrows]); a built-in function
    prints as V8 prints it.

    Printing an array calls [join], which prints the elements, and so on
    down the nesting.  Every level takes room on the stack of the engine,
    and when the room is used up the engine throws a RangeError: [depth] is
    the number of levels the stack still has room for. *)
Fixpoint ToString (depth : nat) (v : value) {struct v} : completion jsstring :=
  match v with
  | VUndefined => Return (lit "undefined")
  | VNull => Return (lit "null")
  | VBool true => Return (lit "true")
  | VBool false => Return (lit "false")
  | VNum n => Return (numberToString n)
  | VStr s => Return s
  | VArr elems =>
      match depth with
      | O => Throw RangeError
      | S below =>
          strs <- sequence (map (fun x => match x with
                                          | VUndefined | VNull => Return []
                                          | _ => ToString below x
                                          end) elems) ;;
          Return (join_strings (lit ",") strs)
      end
  | VObj props =>
      match lookup (lit "toString") props with
      | Some _ => Throw TypeError
      | None => Return (lit "[object Object]")
      end
  | VFunction name =>
      Return (lit "function " ++ name ++ lit "() { [native code] }")
  end.

(** An element of [join]: [undefined] and [null] print as the empty
    string. *)
Definition element_text (depth : nat) (x : value) : completion jsstring :=
  match x with
  | VUndefined | VNull => Return []
  | _ => ToString depth x
  end.

(** [elems.join(sep)], with room for [depth] levels below the elements. *)
Definition join (depth : nat) (sep : jsstring) (elems : list value)
  : completion jsstring :=
  strs <- sequence (map (element_text depth) elems) ;;
  Return (join_strings sep strs).

(** The room the stack has where the code below prints a value: it depends
    on the engine and on how deep the call is, and no property below depends
    on its value. *)
Variable stack : nat.

(** The pieces appended to a string by a run of [+=] statements. *)
Definition appended (pieces : list (completion jsstring)) : completion jsstring :=
  strs <- sequence pieces ;;
  Return (List.concat strs).

(** ** The text helpers of the service

    [generateTitle] and [enhanceDescription] have the same text in both
    generations of the class. *)

(** [generateTitle(brand, model, category, additionalDetails = {})]. *)
Definition generateTitle (brand model category additionalDetails : value)
  : completion jsstring :=
  let additionalDetails :=
    match additionalDetails with
    | VUndefined => VObj []
    | d => d
    end in
  let parts := if ToBoolean brand then [brand] else [] in
  let parts := if ToBoolean model then parts ++ [model] else parts in
  storage <- (if strictEq category "Electronics"
              then member additionalDetails "storage"
              else Return (VBool false)) ;;
  let parts := if ToBoolean storage then parts ++ [storage] else parts in
  size <- (if strictEq category "Fashion"
           then member additionalDetails "size"
           else Return (VBool false)) ;;
  sized <- (if ToBoolean size
            then s <- ToString stack size ;; Return [VStr (lit "Size " ++ s)]
            else Return []) ;;
  let parts := parts ++ sized in
  color <- member additionalDetails "color" ;;
  let parts := if ToBoolean color then parts ++ [color] else parts in
  joined <- join stack " " parts ;;
  Return (substring0 joined 200).

(** The closing paragraph of [enhanceDescription], given the two joined
    keyword lists. *)
Definition keywordParagraph (first3 all : jsstring) : jsstring :=
  template [""; ""; "Perfect for those searching for "] ++ first3 ++ lit ". " ++
  lit "This listing includes everything shown in the photos. " ++
  lit "Keywords: " ++ all ++ lit ".".

(** [enhanceDescription(description, keywords)]: [keywords.slice(0, 3)
    .join(', ')] throws unless [keywords] is an array; a string has
    [slice] but its result has no [join]. *)
Definition enhanceDescription (description keywords : value) : completion jsstring :=
  match keywords with
  | VArr l =>
      first3 <- join stack ", " (firstn 3 l) ;;
      all <- join stack ", " l ;;
      enhanced <- ToString stack description ;;
      Return (enhanced ++ keywordParagraph first3 all)
  | _ => Throw TypeError
  end.

End Printing.

(** ** The user model (src/models/User.js, lines 1-90) *)

Module User.

(** [delete o.k] on the own properties of a plain object. *)
Fixpoint delete (k : jsstring) (props : list (jsstring * value))
  : list (jsstring * value) :=
  match props with
  | [] => []
  | (k', v) :: rest =>
      if str_eqb k k' then delete k rest else (k', v) :: delete k rest
  end.

(** The method [toJSON], on the plain object [this.toObject()] yields. *)
Definition toJSON (userObject : list (jsstring * value)) : list (jsstring * value) :=
  delete "clerkId" userObject.

(** The object handed to [this.create]. *)
Record UserData := {
  clerkId : value;
  name : value;
  email : value;
  auth_provider : jsstring;
  avatar_url : value;
  created_at : Date }.

Section WithPrinter.

Variable numberToString : number -> jsstring.
Variable stack : nat.

(** The provider choice at the head of [createFromClerk]. *)
Definition authProvider (clerkUser : value) : completion jsstring :=
  externalAccounts <- member clerkUser "externalAccounts" ;;
  if ToBoolean (get (opt_at0 externalAccounts) "provider") then
    let provider := get (at0 externalAccounts) "provider" in
    if strictEq provider "oauth_apple" then Return (lit "apple")
    else if strictEq provider "oauth_google" then Return (lit "google")
    else Return (lit "google")
  else Return (lit "google").

(** The static [createFromClerk], up to the call of [this.create], at time
    [now]. *)
Definition createFromClerk (clerkUser : value) (now : Date) : completion UserData :=
  authProvider <- authProvider clerkUser ;;
  first <- ToString numberToString stack (or_else (get clerkUser "firstName") (VStr "")) ;;
  last <- ToString numberToString stack (or_else (get clerkUser "lastName") (VStr "")) ;;
  emailAddresses <- member clerkUser "emailAddresses" ;;
  _ <- requireObjectCoercible emailAddresses ;;
  Return {|
    clerkId := get clerkUser "id";
    name := or_else (or_else (VStr (trim (first ++ lit " " ++ last)))
                             (get clerkUser "username"))
                    (VStr "User");
    email := get (at0 emailAddresses) "emailAddress";
    auth_provider := authProvider;
    avatar_url := get clerkUser "imageUrl";
    created_at := now |}.

End WithPrinter.

End User.

(** ** The routes of the service (src/routes/ai.routes.js)

    The outcome of a handler: the two 400 answers it sends itself, or the
    body of its 200 answer.  An exception leaves the handler through
    [asyncHandler]. *)

Inductive Response (A : Type) : Type :=
| ValidationFailed
| BadRequest (message : jsstring)
| Ok (body : A).

Arguments ValidationFailed {A}.
Arguments BadRequest {A} message.
Arguments Ok {A} body.

(** What the handler of [/analyze-product] reads of a request: whether
    [validationResult] is empty, the paths of the uploaded files
    ([req.files], [None] when it is not set) and two fields of the body,
    strings when present, as the sanitizers leave them. *)
Record Request := {
  valid : bool;
  files : option (list jsstring);
  modelNumber : option jsstring;
  additionalInfo : option jsstring }.

(** [req.files && req.files.length > 0]. *)
Definition hasImages (req : Request) : bool :=
  match files req with
  | Some (_ :: _) => true
  | _ => false
  end.

(** [req.body.modelNumber && req.body.modelNumber.trim().length > 0]. *)
Definition hasModelNumber (req : Request) : bool :=
  truthy (modelNumber req) &&
  match trim (text_of (modelNumber req)) with
  | [] => false
  | _ :: _ => true
  end.

(** [hasImages ? req.files.map(file => file.path) : []]. *)
Definition imageUrls (req : Request) : list jsstring :=
  if hasImages req then urls (files req) else [].

(** An optional string of the body as a value. *)
Definition opt_value (s : option jsstring) : value :=
  match s with
  | Some t => VStr t
  | None => VUndefined
  end.

(** [imageUrls.length > 0 ? imageUrls[0] : '']. *)
Definition firstOrEmpty (l : list jsstring) : jsstring :=
  match l with
  | x :: _ => x
  | [] => []
  end.

(** [condition || 'good'] on a string. *)
Definition conditionOrGood (condition : jsstring) : jsstring :=
  match condition with
  | [] => lit "good"
  | _ :: _ => condition
  end.

(** The current routes: lines 1-341. *)
Module AiRoutes.

Import AIService.

(** The section headers, by their code units: an emoji (a surrogate pair;
    the label emoji is followed by U+FE0F), a space and the caption. *)
Definition keyFeaturesHeader : jsstring := [55357; 56593]%N ++ lit " KEY FEATURES:" ++ nl.
Definition specificationsHeader : jsstring := [55357; 56522]%N ++ lit " SPECIFICATIONS:" ++ nl.
Definition summaryHeader : jsstring := [55357; 57042]%N ++ lit " QUICK SUMMARY:" ++ nl.
Definition seoHeader : jsstring := [55356; 57104]%N ++ lit " SEO DESCRIPTION:" ++ nl.
Definition keywordsHeader : jsstring := [55357; 56589]%N ++ lit " KEYWORDS:" ++ nl.
Definition tagsHeader : jsstring := [55356; 57335; 65039]%N ++ lit " TAGS:" ++ nl.
Definition bullet : jsstring := [8226; 32]%N.

Record ListingData := {
  title : value;
  description : value;
  model_number : value;
  photo_url : jsstring;
  additional_photos : list jsstring;
  condition : jsstring }.

Record Body := {
  listing_data : ListingData;
  analysis_details : ListingContent }.

Section WithPrinter.

Variable numberToString : number -> jsstring.
Variable stack : nat.

(** [if (v) fullDescription += header + v + '\n\n']. *)
Definition block (header : jsstring) (v : value) : completion jsstring :=
  if ToBoolean v then
    s <- ToString numberToString stack v ;;
    Return (header ++ s ++ nl ++ nl)
  else Return [].

(** [if (v) fullDescription += `label: ${v}\n`]. *)
Definition line (label : jsstring) (v : value) : completion jsstring :=
  if ToBoolean v then
    s <- ToString numberToString stack v ;;
    Return (label ++ lit ": " ++ s ++ nl)
  else Return [].

(** The callback over [Object.entries(specs.allSpecs)]. *)
Definition entryLine (kv : jsstring * value) : jsstring :=
  match snd kv with
  | VStr (c :: s) =>
      match trim (c :: s) with
      | [] => []
      | _ :: _ => fst kv ++ lit ": " ++ (c :: s) ++ nl
      end
  | _ => []
  end.

(** [specs.allSpecs && typeof specs.allSpecs === 'object'] holds of objects
    and arrays. *)
Definition allSpecsLines (allSpecs : value) : jsstring :=
  match allSpecs with
  | VObj _ | VArr _ => flat_map entryLine (entries allSpecs)
  | _ => []
  end.

(** The block of [analysis.specifications], an object on every record; the
    empty object of the fallback has none of the properties. *)
Definition specificationsBlock (specifications : option Specifications.t)
  : completion jsstring :=
  match specifications with
  | Some specs =>
      appended
        [ Return specificationsHeader;
          line "Brand" (Specifications.brand specs);
          line "Model" (Specifications.model specs);
          line "Model Number" (Specifications.modelNumber specs);
          line "Category" (Specifications.category specs);
          line "Type" (Specifications.subCategory specs);
          line "Dimensions" (Specifications.dimensions specs);
          line "Weight" (Specifications.weight specs);
          line "Capacity" (Specifications.capacity specs);
          line "Color" (Specifications.color specs);
          line "Material" (Specifications.material specs);
          line "Power" (Specifications.powerSpecs specs);
          line "Connectivity" (Specifications.connectivity specs);
          line "Compatibility" (Specifications.compatibility specs);
          line "Year" (Specifications.year specs);
          line "Made in" (Specifications.origin specs);
          line "Certifications" (Specifications.certifications specs);
          line "Warranty" (Specifications.warranty specs);
          Return (allSpecsLines (Specifications.allSpecs specs));
          Return nl ]
  | None => Return (specificationsHeader ++ nl)
  end.

(** [if (l && l.length > 0) fullDescription += label + l.join(', ') + '\n'],
    with [tail] for the line end. *)
Definition joined (label : jsstring) (l : list value) (tail : jsstring)
  : completion jsstring :=
  match l with
  | [] => Return []
  | _ :: _ =>
      s <- join numberToString stack ", " l ;;
      Return (label ++ s ++ tail)
  end.

(** The [forEach] over the key features. *)
Definition featureLine (feature : value) : completion jsstring :=
  s <- ToString numberToString stack feature ;;
  Return (bullet ++ s ++ nl).

Definition keyFeaturesBlock (features : list value) : completion jsstring :=
  match features with
  | [] => Return []
  | _ :: _ =>
      lines <- appended (map featureLine features) ;;
      Return (keyFeaturesHeader ++ lines ++ nl)
  end.

Definition seoKeywordsBlock (keywords : SeoKeywords.t) : completion jsstring :=
  appended
    [ Return keywordsHeader;
      joined "Primary: " (SeoKeywords.primary keywords) nl;
      joined "Secondary: " (SeoKeywords.secondary keywords) nl;
      joined "Long-tail: " (SeoKeywords.longTail keywords) nl;
      Return nl ].

(** [fullDescription], before it is trimmed. *)
Definition fullDescription (analysis : ListingContent) : completion jsstring :=
  let marketplaceContent := marketplaceContent analysis in
  appended
    [ block [] (MarketplaceContent.productDescription marketplaceContent);
      keyFeaturesBlock (MarketplaceContent.keyFeatures marketplaceContent);
      specificationsBlock (specifications analysis);
      block summaryHeader (MarketplaceContent.shortMarketplaceSummary marketplaceContent);
      block seoHeader (MarketplaceContent.longSeoDescription marketplaceContent);
      seoKeywordsBlock (MarketplaceContent.seoKeywords marketplaceContent);
      joined tagsHeader (MarketplaceContent.marketplaceTags marketplaceContent)
             (nl ++ nl) ].

(** [fullDescription.trim() || analysis.description]. *)
Definition descriptionOf (analysis : ListingContent) : completion value :=
  full <- fullDescription analysis ;;
  Return (or_else (VStr (trim full)) (AIService.description analysis)).

(** [analysis.specifications?.modelNumber]. *)
Definition analysisModelNumber (analysis : ListingContent) : value :=
  match specifications analysis with
  | Some specs => Specifications.modelNumber specs
  | None => VUndefined
  end.

(** The object [response] of [/analyze-product]. *)
Definition listingData (imageUrls : list jsstring) (modelNumber : option jsstring)
  (analysis : ListingContent) : completion ListingData :=
  description <- descriptionOf analysis ;;
  Return {|
    title := AIService.title analysis;
    description := description;
    model_number :=
      or_else (or_else (opt_value modelNumber) (analysisModelNumber analysis)) (VStr "");
    photo_url := firstOrEmpty imageUrls;
    additional_photos := skipn 1 imageUrls;
    condition := conditionOrGood (AIService.condition analysis) |}.

Variable backend : Backend.
Variable now : Date.
Variable aiService : AIService.t.

(** The handler of [POST /analyze-product]. *)
Definition analyzeProduct (req : Request) : io (Response Body) :=
  if negb (valid req) then io_ret ValidationFailed
  else if negb (hasImages req) && negb (hasModelNumber req) then
    io_ret (BadRequest "Either images or model number is required")
  else
    analysis <~ analyzeProductImages backend now aiService
                  (Some (imageUrls req)) (modelNumber req) (additionalInfo req) ;;
    response <~ io_lift (listingData (imageUrls req) (modelNumber req) analysis) ;;
    io_ret (Ok {| listing_data := response; analysis_details := analysis |}).

(** The handler of [POST /generate-title], on the three fields of the
    body. *)
Definition generateTitleRoute (valid : bool) (model_number category brand : value)
  : completion (Response jsstring) :=
  if negb valid then Return ValidationFailed
  else
    title <- generateTitle numberToString stack
               (or_else brand (VStr ""))
               (or_else model_number (VStr ""))
               (or_else category (VStr "Product"))
               VUndefined ;;
    Return (Ok title).

(** The handler of [POST /enhance-description]; [keywords] defaults to the
    empty array when the body has none. *)
Definition enhanceDescriptionRoute (valid : bool) (description keywords : value)
  : completion (Response jsstring) :=
  if negb valid then Return ValidationFailed
  else
    let keywords := match keywords with VUndefined => VArr [] | k => k end in
    enhanced <- enhanceDescription numberToString stack description keywords ;;
    Return (Ok enhanced).

(** The handler of [POST /analyze-url]: one image, no free-form context.
    Its answer has no [additional_photos]; the record below leaves that
    field empty. *)
Definition analyzeUrl (valid : bool) (image_url : jsstring) (model_number : option jsstring)
  : io (Response Body) :=
  if negb valid then io_ret ValidationFailed
  else
    analysis <~ analyzeProductImages backend now aiService
                  (Some [image_url]) model_number None ;;
    description <~ io_lift (descriptionOf analysis) ;;
    io_ret (Ok {|
      listing_data := {|
        title := AIService.title analysis;
        description := description;
        model_number :=
          or_else (or_else (opt_value model_number) (analysisModelNumber analysis))
                  (VStr "");
        photo_url := image_url;
        additional_photos := [];
        condition := conditionOrGood (AIService.condition analysis) |};
      analysis_details := analysis |}).

End WithPrinter.

End AiRoutes.

(** The routes before the assembled description (unnamed/part_001, lines
    94-262): the same two checks, an answer that copies the description of
    the analysis and carries a summary of it, [ai_metadata]. *)
Module AiRoutesV2.

Import AIService.

Record AiMetadata := {
  generated : bool;
  category : value;
  condition : jsstring;
  suggested_price : SuggestedPrice.t;
  keywords : list value;
  confidence : number }.

Record ListingData := {
  title : value;
  description : value;
  model_number : value;
  photo_url : jsstring;
  additional_photos : list jsstring;
  ai_metadata : AiMetadata }.

Record Body := {
  listing_data : ListingData;
  analysis_details : ListingContent }.

(** [analysis.specifications?.modelNumber]. *)
Definition analysisModelNumber (analysis : ListingContent) : value :=
  match specifications analysis with
  | Some specs => Specifications.modelNumber specs
  | None => VUndefined
  end.

(** The object [response]. *)
Definition listingData (imageUrls : list jsstring) (modelNumber : option jsstring)
  (analysis : ListingContent) : ListingData := {|
  title := AIService.title analysis;
  description := AIService.description analysis;
  model_number :=
    or_else (or_else (opt_value modelNumber) (analysisModelNumber analysis)) (VStr "");
  photo_url := firstOrEmpty imageUrls;
  additional_photos := skipn 1 imageUrls;
  ai_metadata := {|
    generated := true;
    category := or_else (Category.main (AIService.category analysis)) (VStr "");
    condition := AIService.condition analysis;
    suggested_price := suggestedPrice analysis;
    keywords := searchKeywords analysis;
    confidence := AIService.confidence analysis |} |}.

Section Handlers.

Variable backend : Backend.
Variable now : Date.
Variable aiService : AIService.t.

(** The handler of [POST /analyze-product]. *)
Definition analyzeProduct (req : Request) : io (Response Body) :=
  if negb (valid req) then io_ret ValidationFailed
  else if negb (hasImages req) && negb (hasModelNumber req) then
    io_ret (BadRequest "Either images or model number is required")
  else
    analysis <~ analyzeProductImages backend now aiService
                  (Some (imageUrls req)) (modelNumber req) (additionalInfo req) ;;
    io_ret (Ok {| listing_data := listingData (imageUrls req) (modelNumber req) analysis;
                  analysis_details := analysis |}).

End Handlers.

End AiRoutesV2.

(** The first routes (src/routes/ai.routes.js, lines 341-505), in front of
    the first generation of the service: an image is required. *)
Module AiRoutesV1.

Import AIServiceV1.

Record AiMetadata := {
  generated : bool;
  category : value;
  condition : jsstring;
  suggested_price : SuggestedPrice.t;
  keywords : list value;
  confidence : number }.

(** [photo_url] is [imageUrls[0]], [undefined] on an empty list. *)
Record ListingData := {
  title : value;
  description : value;
  model_number : value;
  photo_url : value;
  additional_photos : list jsstring;
  ai_metadata : AiMetadata }.

Record Body := {
  listing_data : ListingData;
  analysis_details : ListingContent }.

Definition analysisModelNumber (analysis : ListingContent) : value :=
  match specifications analysis with
  | Some specs => Specifications.modelNumber specs
  | None => VUndefined
  end.

Definition listingData (imageUrls : list jsstring) (modelNumber : option jsstring)
  (analysis : ListingContent) : ListingData := {|
  title := AIServiceV1.title analysis;
  description := AIServiceV1.description analysis;
  model_number :=
    or_else (or_else (opt_value modelNumber) (analysisModelNumber analysis)) (VStr "");
  photo_url := match imageUrls with
               | x :: _ => VStr x
               | [] => VUndefined
               end;
  additional_photos := skipn 1 imageUrls;
  ai_metadata := {|
    generated := true;
    category := or_else (Category.main (AIServiceV1.category analysis)) (VStr "");
    condition := AIServiceV1.condition analysis;
    suggested_price := suggestedPrice analysis;
    keywords := searchKeywords analysis;
    confidence := AIServiceV1.confidence analysis |} |}.

Section Handlers.

Variable backend : Backend.
Variable now : Date.
Variable aiService : AIServiceV1.t.

(** The handler of [POST /analyze-product]; the check is
    [!req.files || req.files.length === 0]. *)
Definition analyzeProduct (req : Request) : io (Response Body) :=
  if negb (valid req) then io_ret ValidationFailed
  else if noImages (files req) then
    io_ret (BadRequest "At least one image is required")
  else
    let imageUrls := urls (files req) in
    analysis <~ analyzeProductImages backend now aiService
                  (Some imageUrls) (modelNumber req) (additionalInfo req) ;;
    io_ret (Ok {| listing_data := listingData imageUrls (modelNumber req) analysis;
                  analysis_details := analysis |}).

End Handlers.

End AiRoutesV1.

(** ** The Clerk webhook (src/middleware/auth.js, lines 154-384)

    [handleUserCreated], the handler of the event [user.created], in front
    of the two calls of the user model it makes. *)
Module Webhook.

(** What the store answers: whether [User.findByClerkId] found a user, and
    how [User.create] ends; when it returns, it yields the stored document,
    whose [_id] and [email] the handler logs. *)
Record Store := {
  findByClerkId : value -> completion bool;
  create : User.UserData -> completion unit }.

Inductive call : Type :=
| FindByClerkId (clerkId : value)
| Create (userData : User.UserData).

(** How the handler ends; it returns nothing.  [Logged] is the [catch]
    block: the error is logged and not thrown again. *)
Inductive outcome : Type :=
| Skipped
| AlreadyExists
| NoValidEmail
| Created
| Logged (error : exn).

(** [id?.startsWith(key)]: a value that is neither a string nor nullish has
    no such method. *)
Definition opt_startsWith (id : value) (key : jsstring) : completion bool :=
  match id with
  | VUndefined | VNull => Return false
  | VStr s => Return (startsWith s key)
  | _ => Throw TypeError
  end.

(** Whether [v?.length] is truthy: the length of an array or of a string,
    the property of that name of an object; the one built-in method that
    occurs, [sub], has one parameter. *)
Definition lengthTruthy (v : value) : bool :=
  match v with
  | VArr (_ :: _) => true
  | VStr (_ :: _) => true
  | VObj _ => ToBoolean (get v "length")
  | VFunction _ => true
  | _ => false
  end.

(** [email.includes('@clerk.local')] for a truthy [email]: a substring test
    on a string, a membership test on an array; nothing else has the
    method. *)
Definition includesLocal (email : value) : completion bool :=
  match email with
  | VStr s => Return (includes s "@clerk.local")
  | VArr l => Return (existsb (fun x => strictEq x "@clerk.local") l)
  | _ => Throw TypeError
  end.

Section WithPrinter.

Variable numberToString : number -> jsstring.
Variable stack : nat.

(** The first test: a test event, or a user without e-mail address. *)
Definition skipped (clerkUser : value) : completion bool :=
  id <- member clerkUser "id" ;;
  test <- opt_startsWith id "user_test_" ;;
  if test then Return true
  else Return (negb (lengthTruthy (get clerkUser "email_addresses"))).

(** The e-mail address, with its two fallbacks. *)
Definition emailOf (clerkUser : value) : completion value :=
  let first := get (opt_at0 (get clerkUser "email_addresses")) "email_address" in
  let primary := get clerkUser "primary_email_address_id" in
  if ToBoolean first then Return first
  else if ToBoolean primary then Return primary
  else
    id <- ToString numberToString stack (get clerkUser "id") ;;
    Return (VStr (id ++ lit "@clerk.local")).

(** The object [userData], at time [now]. *)
Definition userDataOf (clerkUser : value) (now : Date) : completion User.UserData :=
  let authProvider :=
    if strictEq (get (opt_at0 (get clerkUser "external_accounts")) "provider") "oauth_apple"
    then lit "apple" else lit "google" in
  email <- emailOf clerkUser ;;
  first <- ToString numberToString stack (or_else (get clerkUser "first_name") (VStr "")) ;;
  last <- ToString numberToString stack (or_else (get clerkUser "last_name") (VStr "")) ;;
  Return {|
    User.clerkId := get clerkUser "id";
    User.name := or_else (or_else (VStr (trim (first ++ lit " " ++ last)))
                                  (get clerkUser "username"))
                         (VStr "User");
    User.email := email;
    User.auth_provider := authProvider;
    User.avatar_url := get clerkUser "image_url";
    User.created_at := now |}.

(** [!userData.email || userData.email.includes('@clerk.local')]. *)
Definition noValidEmail (userData : User.UserData) : completion bool :=
  if ToBoolean (User.email userData) then includesLocal (User.email userData)
  else Return true.

Variable store : Store.
Variable now : Date.

(** [handleUserCreated(clerkUser)]: the calls of the user model it makes,
    in order, and how it ends. *)
Definition handleUserCreated (clerkUser : value) : list call * outcome :=
  match skipped clerkUser with
  | Throw error => ([], Logged error)
  | Return true => ([], Skipped)
  | Return false =>
      let id := get clerkUser "id" in
      match findByClerkId store id with
      | Throw error => ([FindByClerkId id], Logged error)
      | Return true => ([FindByClerkId id], AlreadyExists)
      | Return false =>
          match (userData <- userDataOf clerkUser now ;;
                 invalid <- noValidEmail userData ;;
                 Return (userData, invalid)) with
          | Throw error => ([FindByClerkId id], Logged error)
          | Return (_, true) => ([FindByClerkId id], NoValidEmail)
          | Return (userData, false) =>
              match create store userData with
              | Return _ => ([FindByClerkId id; Create userData], Created)
              | Throw error => ([FindByClerkId id; Create userData], Logged error)
              end
          end
      end
  end.

End WithPrinter.

End Webhook.

(** ** Vocabulary of the further properties *)

(** A request to one of the two providers. *)
Definition is_provider_call (e : event) : bool :=
  match e with
  | GeminiCall _ _ | OpenAICall _ => true
  | ConsoleError _ | Fetch _ => false
  end.

(** The error every failure of [analyzeProductImages] ends in. *)
Definition analysisFailed : exn := newAppError "Failed to analyze product images" 500.

(** The configured provider has its client. *)
Definition configured (this : AIService.t) : bool :=
  (str_eqb (AIService.preferredProvider this) "gemini" && AIService.geminiModel this) ||
  (str_eqb (AIService.preferredProvider this) "openai" && AIService.openai this).

(** A string of white space only, the empty one included. *)
Definition all_white (s : jsstring) : bool := forallb is_StrWhiteSpaceChar s.

(** The code unit [c] does not occur in [s]. *)
Definition lacks (c : codeunit) (s : jsstring) : bool :=
  forallb (fun x => negb (N.eqb x c)) s.

(** A payload between prose: [pre], then an opening brace, [mid], a closing
    brace, then [post]. *)
Definition embedded (pre mid post : jsstring) : jsstring :=
  pre ++ (123%N :: mid ++ [125%N]) ++ post.

(** A completion that, if abrupt, is one of the two errors the printing of a
    value can end in: a TypeError, or the RangeError of a stack used up. *)
Definition throwsPrintingError {A} (c : completion A) : Prop :=
  match c with
  | Return _ => True
  | Throw e => e = TypeError \/ e = RangeError
  end.

(** How the printing of a value ends, [unprintable] telling whether
    [toStringThrows] singles the value out: it returns only when that is
    false, and throws a TypeError only when that is true. *)
Definition printed {A} (unprintable : bool) (c : completion A) : Prop :=
  match c with
  | Return _ => unprintable = false
  | Throw e => (e = TypeError /\ unprintable = true) \/ e = RangeError
  end.

(** A payload whose category is a string, not an object. *)
Definition stringCategoryText : jsstring :=
  lit "{" ++ quoted "category" ++ lit ": " ++ quoted "Electronics" ++ lit "}".

(** A printer of numbers for sample evaluations that print none. *)
Definition samplePrinter : number -> jsstring := fun _ => lit "0".

(** Room on the stack for sample evaluations. *)
Definition sampleStack : nat := 64.

(** An e-mail value the webhook lets through to [create]: a string with at
    least one code unit and without the text [@clerk.local], or an array
    that does not hold that text. *)
Definition acceptedEmail (email : value) : bool :=
  match email with
  | VStr (c :: s) => negb (includes (c :: s) "@clerk.local")
  | VArr l => negb (existsb (fun x => strictEq x "@clerk.local") l)
  | _ => false
  end.

(** A call of [User.create]. *)
Definition is_create (c : Webhook.call) : bool :=
  match c with
  | Webhook.Create _ => true
  | Webhook.FindByClerkId _ => false
  end.

(** A store for sample evaluations: no user yet, every creation succeeds. *)
Definition emptyStore : Webhook.Store := {|
  Webhook.findByClerkId := fun _ => Return false;
  Webhook.create := fun _ => Return tt |}.

(** Sample events: a user whose first e-mail entry has no address, without
    and with a primary address id. *)
Definition eventWithoutAddress : value :=
  VObj [ (lit "id", VStr "user_2abc");
         (lit "email_addresses", VArr [VObj [(lit "id", VStr "idn_1")]]) ].

Definition eventWithPrimaryId : value :=
  VObj [ (lit "id", VStr "user_2abc");
         (lit "email_addresses", VArr [VObj [(lit "id", VStr "idn_1")]]);
         (lit "primary_email_address_id", VStr "idn_1") ].

(** ** Theorems *)

Lemma str_eqb_eq (a b : jsstring) : str_eqb a b = true -> a = b.
Proof.
  revert b; induction a as [|x a IH]; intros [|y b]; simpl; try discriminate; auto.
  intros H. apply andb_prop in H as [Hx Ha].
  apply N.eqb_eq in Hx. subst. f_equal. auto.
Qed.

(** *** Sample evaluations of the ECMAScript fragment *)

Example of_decimal_samples :
  of_decimal false 5 (-1) = S754_finite false 4503599627370496 (-53) /\
  of_decimal false 3 (-1) = S754_finite false 5404319552844595 (-54) /\
  within_half_ulp (of_decimal false 3 (-1)) 3 10 = true /\
  of_decimal false 1 0 = S754_finite false 4503599627370496 (-52) /\
  of_decimal true 0 0 = S754_zero true /\
  of_decimal false 1 400 = S754_infinity false /\
  of_decimal false 1 (-400) = S754_zero false.
Proof. repeat split; vm_compute; reflexivity. Qed.

Example parseFloat_samples :
  parseFloat_string "199.99abc" = of_decimal false 19999 (-2) /\
  parseFloat_string "  -.5e-1x" = of_decimal true 5 (-2) /\
  parseFloat_string "1e+" = of_decimal false 1 0 /\
  parseFloat_string "0x10" = S754_zero false /\
  parseFloat_string "-Infinity and beyond" = S754_infinity true /\
  parseFloat_string "abc" = NaN /\
  parseFloat_string "." = NaN /\
  parseFloat VUndefined = Return NaN /\
  parseFloat (VNum (S754_zero true)) = Return (S754_zero false) /\
  parseFloat (VArr [VStr "7"; VNull]) = Return (of_decimal false 7 0) /\
  parseFloat (VObj []) = Return NaN /\
  parseFloat (VObj [(lit "toString", VNull)]) = Throw TypeError.
Proof. repeat split; vm_compute; reflexivity. Qed.

Example match_braces_samples :
  match_braces "text {a} and {b} end" = Some (lit "{a} and {b}") /\
  match_braces "closing } before { opening" = None /\
  match_braces "no brace" = None.
Proof. repeat split; vm_compute; reflexivity. Qed.

Example JSON_parse_samples :
  JSON_parse (lit "{" ++ quoted "a" ++ lit ": [1, -0, 2.5e1, true, null], "
              ++ quoted "a" ++ lit ": {" ++ quoted "b" ++ lit ": "
              ++ quoted "xA\n" ++ lit "}}") =
    Return (VObj [(lit "a", VObj [(lit "b", VStr [120; 65; 10]%N)])]) /\
  JSON_parse "[1, -0, 25e-1]" =
    Return (VArr [VNum (of_decimal false 1 0); VNum (S754_zero true);
                  VNum (of_decimal false 25 (-1))]) /\
  JSON_parse "[1,]" = Throw SyntaxError /\
  JSON_parse "[01]" = Throw SyntaxError /\
  JSON_parse "[1.]" = Throw SyntaxError /\
  JSON_parse "{a: 1}" = Throw SyntaxError /\
  JSON_parse "{} trailing" = Throw SyntaxError.
Proof. repeat split; vm_compute; reflexivity. Qed.

(** *** The decoder: fuel *)

Lemma skip_ws_length s : List.length (skip_ws s) <= List.length s.
Proof.
  induction s as [|c s IH]; simpl; auto.
  destruct (is_json_ws c); simpl; lia.
Qed.

Lemma scan_string_length s str r :
  scan_string s = Some (str, r) -> List.length r < List.length s.
Proof.
  revert str r.
  induction s as [s IH] using (well_founded_induction
                                 (Wf_nat.well_founded_ltof _ (@List.length codeunit))).
  unfold Wf_nat.ltof in IH.
  intros str r H. destruct s as [|c s]; simpl in H; [discriminate|].
  destruct (N.eqb c 34).
  { inversion H; subst. simpl; lia. }
  destruct (N.eqb c 92).
  - destruct s as [|e t]; [discriminate|].
    destruct (N.eqb e 117).
    + destruct t as [|a [|b [|c' [|d t']]]]; try discriminate.
      destruct (hex4 a b c' d); [|discriminate].
      destruct (scan_string t') as [[l r']|] eqn:Hs; [|discriminate].
      inversion H; subst. apply IH in Hs; simpl in *; lia.
    + destruct (escape_unit e); [|discriminate].
      destruct (scan_string t) as [[l r']|] eqn:Hs; [|discriminate].
      inversion H; subst. apply IH in Hs; simpl in *; lia.
  - destruct (N.ltb c 32); [discriminate|].
    destruct (scan_string s) as [[l r']|] eqn:Hs; [|discriminate].
    inversion H; subst. apply IH in Hs; simpl in *; lia.
Qed.

Lemma span_digits_length s ds r :
  span_digits s = (ds, r) -> List.length ds + List.length r = List.length s.
Proof.
  revert ds r. induction s as [|c s IH]; simpl; intros ds r H.
  - inversion H; reflexivity.
  - destruct (is_digit c).
    + destruct (span_digits s) as [ds' r']. inversion H; subst.
      specialize (IH _ _ eq_refl). simpl; lia.
    + inversion H; subst. simpl; lia.
Qed.

Lemma scan_exponent_length s e r :
  scan_exponent s = Some (e, r) -> List.length r < List.length s.
Proof.
  unfold scan_exponent. destruct s as [|c s1]; [discriminate|].
  destruct (N.eqb c 101 || N.eqb c 69); [|discriminate].
  destruct (match s1 with
            | [] => (false, s1)
            | c' :: t => _
            end) as [neg s2] eqn:Hs2.
  assert (List.length s2 <= List.length s1).
  { destruct s1 as [|x t]; [inversion Hs2; subst; auto|].
    destruct (N.eqb x 43); [inversion Hs2; subst; simpl; lia|].
    destruct (N.eqb x 45); inversion Hs2; subst; simpl; lia. }
  destruct (span_digits s2) as [ds r'] eqn:Hd.
  apply span_digits_length in Hd.
  destruct ds; [discriminate|]. intros Hr; inversion Hr; subst. simpl in *. lia.
Qed.

Lemma scan_number_length s n r :
  scan_number s = Some (n, r) -> List.length r < List.length s.
Proof.
  unfold scan_number.
  destruct (match s with
            | [] => (false, s)
            | c :: t => if N.eqb c 45 then (true, t) else (false, s)
            end) as [neg s1] eqn:Hs1.
  assert (H1 : List.length s1 <= List.length s).
  { destruct s as [|c t]; [inversion Hs1; subst; auto|].
    destruct (N.eqb c 45); inversion Hs1; subst; simpl; lia. }
  destruct (match s1 with
            | [] => ([], [])
            | c :: t => if N.eqb c 48 then ([c], t) else span_digits s1
            end) as [int r1] eqn:Hint.
  assert (H2 : List.length int + List.length r1 = List.length s1).
  { destruct s1 as [|c t]; [inversion Hint; subst; auto|].
    destruct (N.eqb c 48); [inversion Hint; subst; simpl; lia|].
    now apply span_digits_length. }
  destruct int as [|d int]; [discriminate|].
  destruct (match r1 with
            | [] => ([], r1)
            | c :: t => _
            end) as [frac r2] eqn:Hfrac.
  assert (H3 : List.length r2 <= List.length r1).
  { destruct r1 as [|c t]; [inversion Hfrac; subst; auto|].
    destruct (N.eqb c 46); [|inversion Hfrac; subst; auto].
    destruct (span_digits t) as [fs r'] eqn:Hd. apply span_digits_length in Hd.
    destruct fs; inversion Hfrac; subst; simpl in *; lia. }
  destruct (scan_exponent r2) as [[ex r3]|] eqn:Hex.
  - apply scan_exponent_length in Hex. intros H; inversion H; subst.
    simpl in *. lia.
  - intros H; inversion H; subst. simpl in *. lia.
Qed.

Lemma word_length w v s v' r :
  w <> EmptyString -> word w v s = Some (v', r) -> List.length r < List.length s.
Proof.
  intros Hw. unfold word.
  destruct (startsWith s (lit w)) eqn:Hs; [|discriminate].
  intros H; inversion H; subst.
  destruct w as [|a w]; [contradiction|].
  destruct s as [|c s]; [discriminate|].
  simpl. pose proof (length_skipn (List.length (lit w)) s).
  unfold lit in *. simpl. lia.
Qed.

Lemma parse_value_S f s :
  parse_value (S f) s =
  match skip_ws s with
  | [] => None
  | c :: r =>
      if N.eqb c 123 then
        match skip_ws r with
        | [] => None
        | c' :: r' =>
            if N.eqb c' 125 then Some (VObj [], r')
            else parse_members f (c' :: r') []
        end
      else if N.eqb c 91 then
        match skip_ws r with
        | [] => None
        | c' :: r' =>
            if N.eqb c' 93 then Some (VArr [], r')
            else parse_elements f (c' :: r') []
        end
      else if N.eqb c 34 then
        match scan_string r with
        | Some (str, r') => Some (VStr str, r')
        | None => None
        end
      else if N.eqb c 116 then word "true" (VBool true) (c :: r)
      else if N.eqb c 102 then word "false" (VBool false) (c :: r)
      else if N.eqb c 110 then word "null" VNull (c :: r)
      else
        match scan_number (c :: r) with
        | Some (n, r') => Some (VNum n, r')
        | None => None
        end
  end.
Proof. reflexivity. Qed.

Lemma parse_elements_S f s acc :
  parse_elements (S f) s acc =
  match parse_value f s with
  | None => None
  | Some (v, r) =>
      match skip_ws r with
      | [] => None
      | c :: r' =>
          if N.eqb c 44 then parse_elements f r' (acc ++ [v])
          else if N.eqb c 93 then Some (VArr (acc ++ [v]), r')
          else None
      end
  end.
Proof. reflexivity. Qed.

Lemma parse_members_S f s acc :
  parse_members (S f) s acc =
  match skip_ws s with
  | [] => None
  | q :: r0 =>
      if N.eqb q 34 then
        match scan_string r0 with
        | None => None
        | Some (key, r1) =>
            match skip_ws r1 with
            | [] => None
            | colon :: r2 =>
                if N.eqb colon 58 then
                  match parse_value f r2 with
                  | None => None
                  | Some (v, r3) =>
                      match skip_ws r3 with
                      | [] => None
                      | c :: r4 =>
                          if N.eqb c 44 then
                            parse_members f r4 (set_prop key v acc)
                          else if N.eqb c 125 then
                            Some (VObj (set_prop key v acc), r4)
                          else None
                      end
                  end
                else None
            end
        end
      else None
  end.
Proof. reflexivity. Qed.

Ltac skip_len E :=
  match type of E with
  | skip_ws ?s = _ =>
      let H := fresh "Hws" in
      pose proof (skip_ws_length s) as H; rewrite E in H; simpl in H
  end.

Lemma enough_fuel f : enough_value f /\ enough_elements f /\ enough_members f.
Proof.
  induction f as [|f (IHv & IHe & IHm)].
  { repeat split; intros; discriminate. }
  split; [|split].
  - intros s v r H. rewrite parse_value_S in H.
    destruct (skip_ws s) as [|c s0] eqn:E0; [discriminate|]. skip_len E0.
    destruct (N.eqb c 123) eqn:Eobj.
    { destruct (skip_ws s0) as [|c' s1] eqn:E1; [discriminate|]. skip_len E1.
      destruct (N.eqb c' 125) eqn:Eclose.
      - inversion H; subst. split; [lia|].
        intros [|g] Hg; [lia|]. rewrite parse_value_S, E0, Eobj, E1, Eclose.
        reflexivity.
      - apply IHm in H as [Hl Hg]. simpl in Hl. split; [lia|].
        intros [|g] Hg'; [lia|]. rewrite parse_value_S, E0, Eobj, E1, Eclose.
        apply Hg. cbn [List.length]. lia. }
    destruct (N.eqb c 91) eqn:Earr.
    { destruct (skip_ws s0) as [|c' s1] eqn:E1; [discriminate|]. skip_len E1.
      destruct (N.eqb c' 93) eqn:Eclose.
      - inversion H; subst. split; [lia|].
        intros [|g] Hg; [lia|]. rewrite parse_value_S, E0, Eobj, Earr, E1, Eclose.
        reflexivity.
      - apply IHe in H as [Hl Hg]. simpl in Hl. split; [lia|].
        intros [|g] Hg'; [lia|]. rewrite parse_value_S, E0, Eobj, Earr, E1, Eclose.
        apply Hg. cbn [List.length]. lia. }
    assert (Hscalar : List.length r < List.length (c :: s0)).
    { destruct (N.eqb c 34).
      { destruct (scan_string s0) as [[str r']|] eqn:Es; [|discriminate].
        apply scan_string_length in Es. inversion H; subst. simpl; lia. }
      destruct (N.eqb c 116); [eapply word_length; [|eauto]; discriminate|].
      destruct (N.eqb c 102); [eapply word_length; [|eauto]; discriminate|].
      destruct (N.eqb c 110); [eapply word_length; [|eauto]; discriminate|].
      destruct (scan_number (c :: s0)) as [[n r']|] eqn:En; [|discriminate].
      apply scan_number_length in En. inversion H; subst. exact En. }
    simpl in Hscalar. split; [lia|].
    intros [|g] Hg; [lia|]. rewrite parse_value_S, E0, Eobj, Earr. exact H.
  - intros s acc v r H. rewrite parse_elements_S in H.
    destruct (parse_value f s) as [[v1 r1]|] eqn:Ev; [|discriminate].
    apply IHv in Ev as [Hl1 Hg1].
    destruct (skip_ws r1) as [|c r2] eqn:E1; [discriminate|]. skip_len E1.
    destruct (N.eqb c 44) eqn:Ecomma.
    + apply IHe in H as [Hl2 Hg2]. split; [lia|].
      intros [|g] Hg; [lia|]. rewrite parse_elements_S.
      rewrite Hg1 by lia. rewrite E1, Ecomma. apply Hg2. lia.
    + destruct (N.eqb c 93) eqn:Eclose; [|discriminate].
      inversion H; subst. split; [lia|].
      intros [|g] Hg; [lia|]. rewrite parse_elements_S.
      rewrite Hg1 by lia. rewrite E1, Ecomma, Eclose. reflexivity.
  - intros s acc v r H. rewrite parse_members_S in H.
    destruct (skip_ws s) as [|q s0] eqn:E0; [discriminate|]. skip_len E0.
    destruct (N.eqb q 34) eqn:Equote; [|discriminate].
    destruct (scan_string s0) as [[key r1]|] eqn:Es; [|discriminate].
    pose proof (scan_string_length _ _ _ Es) as Hls.
    destruct (skip_ws r1) as [|colon r2] eqn:E1; [discriminate|]. skip_len E1.
    destruct (N.eqb colon 58) eqn:Ecolon; [|discriminate].
    destruct (parse_value f r2) as [[v1 r3]|] eqn:Ev; [|discriminate].
    apply IHv in Ev as [Hl1 Hg1].
    destruct (skip_ws r3) as [|c r4] eqn:E3; [discriminate|]. skip_len E3.
    destruct (N.eqb c 44) eqn:Ecomma.
    + apply IHm in H as [Hl2 Hg2]. split; [lia|].
      intros [|g] Hg; [lia|].
      rewrite parse_members_S, E0, Equote, Es, E1, Ecolon.
      rewrite Hg1 by lia. rewrite E3, Ecomma. apply Hg2. lia.
    + destruct (N.eqb c 125) eqn:Eclose; [|discriminate].
      inversion H; subst. split; [lia|].
      intros [|g] Hg; [lia|].
      rewrite parse_members_S, E0, Equote, Es, E1, Ecolon.
      rewrite Hg1 by lia. rewrite E3, Ecomma, Eclose. reflexivity.
Qed.

(** Whatever the descent yields with some fuel, it yields with the fuel
    [JSON_parse] gives it. *)
Theorem JSON_parse_fuel (text : jsstring) (f : nat) (v : value) (rest : jsstring) :
  parse_value f text = Some (v, rest) ->
  parse_value (S (2 * List.length text)) text = Some (v, rest).
Proof.
  intros H. destruct (enough_fuel f) as [Hv _].
  apply Hv in H as [Hl Hg]. apply Hg. lia.
Qed.

(** [JSON.parse] returns exactly what the descent yields with some fuel. *)
Lemma JSON_parse_complete (text : jsstring) (v : value) :
  JSON_parse text = Return v <->
  exists f rest, parse_value f text = Some (v, rest) /\ skip_ws rest = [].
Proof.
  unfold JSON_parse. split.
  - destruct (parse_value _ text) as [[v' rest]|] eqn:H; [|discriminate].
    destruct (skip_ws rest) eqn:Hr; [|discriminate].
    intros Hv; inversion Hv; subst. eauto.
  - intros (f & rest & H & Hr). apply JSON_parse_fuel in H. now rewrite H, Hr.
Qed.

Lemma parse_members_object f s acc v r :
  parse_members f s acc = Some (v, r) -> exists props, v = VObj props.
Proof.
  revert s acc. induction f as [|f IH]; intros s acc H; [discriminate|].
  rewrite parse_members_S in H.
  destruct (skip_ws s) as [|q s0]; [discriminate|].
  destruct (N.eqb q 34); [|discriminate].
  destruct (scan_string s0) as [[key r1]|]; [|discriminate].
  destruct (skip_ws r1) as [|colon r2]; [discriminate|].
  destruct (N.eqb colon 58); [|discriminate].
  destruct (parse_value f r2) as [[v1 r3]|]; [|discriminate].
  destruct (skip_ws r3) as [|c r4]; [discriminate|].
  destruct (N.eqb c 44); [eauto|].
  destruct (N.eqb c 125); [|discriminate].
  inversion H; eauto.
Qed.

Lemma match_braces_open (text json : jsstring) :
  match_braces text = Some json -> exists rest, json = 123%N :: rest.
Proof.
  unfold match_braces.
  destruct (from_first_open text) as [s|] eqn:Hs; [|discriminate].
  assert (Hopen : exists rest, s = 123%N :: rest).
  { clear json. induction text as [|c t IH]; simpl in Hs; [discriminate|].
    destruct (N.eqb c 123) eqn:Hc; auto.
    apply N.eqb_eq in Hc. inversion Hs; subst. eauto. }
  destruct Hopen as [rest ->]. simpl.
  destruct (upto_last_close rest) as [p|]; intros H; inversion H; eauto.
Qed.

(** The text the pattern matches starts with a brace, so what [JSON.parse]
    makes of it, if anything, is an object: the property reads on [parsed]
    never meet [null]. *)
Lemma decoded_match_is_object (text json : jsstring) (parsed : value) :
  match_braces text = Some json ->
  JSON_parse json = Return parsed ->
  exists props, parsed = VObj props.
Proof.
  intros Hm Hp. apply match_braces_open in Hm as [rest ->].
  apply JSON_parse_complete in Hp as (f & r & H & _).
  destruct f as [|f]; [discriminate|].
  rewrite parse_value_S in H. simpl in H.
  destruct (skip_ws rest) as [|c' r']; [discriminate|].
  destruct (N.eqb c' 125).
  - inversion H; eauto.
  - eapply parse_members_object; eauto.
Qed.

(** *** The condition normalizer *)

Lemma firstVariation_values (entries : list (jsstring * jsstring)) (n val : jsstring) :
  firstVariation entries n = Some val -> In val (map snd entries).
Proof.
  induction entries as [|[k v] rest IH]; simpl; try discriminate.
  destruct (includes n k).
  - intros H; inversion H; auto.
  - intros H; right; auto.
Qed.

Lemma conditionMap_values_canonical (val : jsstring) :
  In val (map snd conditionMap) -> In val validConditions.
Proof.
  intros H. vm_compute in H.
  repeat (destruct H as [H|H]; [subst; vm_compute; tauto|]). contradiction.
Qed.

Lemma validateCondition_string (s : jsstring) :
  exists c, validateCondition (VStr s) = Return c /\ In c validConditions.
Proof.
  unfold validateCondition, normalizeCondition, bind.
  set (n := replace_non_az_hyphen (toLowerCase s)).
  destruct (existsb (str_eqb n) validConditions) eqn:Hmem.
  - exists n. split; auto.
    apply existsb_exists in Hmem as [c [Hin Heq]].
    apply str_eqb_eq in Heq. now subst.
  - destruct (firstVariation conditionMap n) as [val|] eqn:Hvar.
    + exists val. split; auto.
      apply conditionMap_values_canonical.
      eapply firstVariation_values; eauto.
    + exists (lit "good"). split; auto.
      vm_compute; tauto.
Qed.

Lemma good_canonical : In (lit "good") validConditions.
Proof. vm_compute; tauto. Qed.

(** On a value that is neither a string nor nullish the normalizer throws:
    such a value has no method [toLowerCase]. *)
Lemma validateCondition_throws (v : value) :
  ~ optionalString v -> validateCondition v = Throw TypeError.
Proof.
  unfold optionalString.
  destruct v; simpl; intros H; try reflexivity; exfalso; apply H; eauto.
Qed.

Lemma validateCondition_returns_canonical (v : value) (c : jsstring) :
  validateCondition v = Return c -> In c validConditions.
Proof.
  destruct v; try discriminate.
  - simpl. intros H; inversion H. apply good_canonical.
  - simpl. intros H; inversion H. apply good_canonical.
  - destruct (validateCondition_string s) as [c' [Hc' Hin]].
    rewrite Hc'. intros H; inversion H; subst; auto.
Qed.

(** *** The response parser: how a call ends *)

Lemma readListing_inv parsed provider now r :
  AIService.readListing parsed provider now = Return r ->
  exists title c mn mx cf,
    opt_substring0 (get parsed "seoTitle") 200 = Return title /\
    validateCondition (get parsed "condition") = Return c /\
    parseFloat (get (get parsed "suggestedPrice") "min") = Return mn /\
    parseFloat (get (get parsed "suggestedPrice") "max") = Return mx /\
    parseFloat (get parsed "confidence") = Return cf /\
    r = AIService.listing parsed provider now title c mn mx cf.
Proof.
  unfold AIService.readListing, bind.
  destruct (requireObjectCoercible parsed); try discriminate.
  destruct (opt_substring0 _ _) as [title|]; try discriminate.
  destruct (validateCondition _) as [c|]; try discriminate.
  destruct (parseFloat (get (get parsed "suggestedPrice") "min")) as [mn|];
    try discriminate.
  destruct (parseFloat (get (get parsed "suggestedPrice") "max")) as [mx|];
    try discriminate.
  destruct (parseFloat (get parsed "confidence")) as [cf|]; try discriminate.
  intros H; inversion H. exists title, c, mn, mx, cf. repeat split; reflexivity.
Qed.

Lemma readListingV1_inv parsed provider now r :
  AIServiceV1.readListing parsed provider now = Return r ->
  exists title c mn mx cf,
    opt_substring0 (get parsed "title") 200 = Return title /\
    validateCondition (get parsed "condition") = Return c /\
    parseFloat (get (get parsed "suggestedPrice") "min") = Return mn /\
    parseFloat (get (get parsed "suggestedPrice") "max") = Return mx /\
    parseFloat (get parsed "confidence") = Return cf /\
    r = AIServiceV1.listing parsed provider now title c mn mx cf.
Proof.
  unfold AIServiceV1.readListing, bind.
  destruct (requireObjectCoercible parsed); try discriminate.
  destruct (opt_substring0 _ _) as [title|]; try discriminate.
  destruct (validateCondition _) as [c|]; try discriminate.
  destruct (parseFloat (get (get parsed "suggestedPrice") "min")) as [mn|];
    try discriminate.
  destruct (parseFloat (get (get parsed "suggestedPrice") "max")) as [mx|];
    try discriminate.
  destruct (parseFloat (get parsed "confidence")) as [cf|]; try discriminate.
  intros H; inversion H. exists title, c, mn, mx, cf. repeat split; reflexivity.
Qed.

Lemma tryParse_inv text provider now r :
  AIService.tryParse text provider now = Return r ->
  exists json parsed,
    match_braces text = Some json /\
    JSON_parse json = Return parsed /\
    AIService.readListing parsed provider now = Return r.
Proof.
  unfold AIService.tryParse, bind.
  destruct (match_braces text) as [json|]; try discriminate.
  destruct (JSON_parse json) as [parsed|] eqn:Hp; try discriminate.
  intros H. exists json, parsed. auto.
Qed.

Lemma tryParseV1_inv text provider now r :
  AIServiceV1.tryParse text provider now = Return r ->
  exists json parsed,
    match_braces text = Some json /\
    JSON_parse json = Return parsed /\
    AIServiceV1.readListing parsed provider now = Return r.
Proof.
  unfold AIServiceV1.tryParse, bind.
  destruct (match_braces text) as [json|]; try discriminate.
  destruct (JSON_parse json) as [parsed|] eqn:Hp; try discriminate.
  intros H. exists json, parsed. auto.
Qed.

Lemma tryParse_not_failed text provider now r :
  AIService.tryParse text provider now = Return r -> parseFailed r = false.
Proof.
  intros H. apply tryParse_inv in H as (json & parsed & _ & _ & H).
  apply readListing_inv in H as (t & c & mn & mx & cf & _ & _ & _ & _ & _ & ->).
  reflexivity.
Qed.

Lemma tryParseV1_not_failed text provider now r :
  AIServiceV1.tryParse text provider now = Return r -> parseFailedV1 r = false.
Proof.
  intros H. apply tryParseV1_inv in H as (json & parsed & _ & _ & H).
  apply readListingV1_inv in H as (t & c & mn & mx & cf & _ & _ & _ & _ & _ & ->).
  reflexivity.
Qed.

Lemma tryParse_noJson text provider now :
  noJsonObject text -> exists e, AIService.tryParse text provider now = Throw e.
Proof.
  unfold AIService.tryParse, bind.
  intros [Hm | (json & e & Hm & Hp)]; rewrite Hm; [|rewrite Hp]; eauto.
Qed.

Lemma tryParseV1_noJson text provider now :
  noJsonObject text -> exists e, AIServiceV1.tryParse text provider now = Throw e.
Proof.
  unfold AIServiceV1.tryParse, bind.
  intros [Hm | (json & e & Hm & Hp)]; rewrite Hm; [|rewrite Hp]; eauto.
Qed.

Lemma parse_cases text provider now :
  exists r,
    AIService.parseAIResponse text provider now = Return r /\
    ((AIService.tryParse text provider now = Return r /\ parseFailed r = false) \/
     ((exists e, AIService.tryParse text provider now = Throw e) /\
      r = AIService.fallback text provider now /\ parseFailed r = true)).
Proof.
  unfold AIService.parseAIResponse, try_catch.
  destruct (AIService.tryParse text provider now) as [r|e] eqn:Ht.
  - exists r. split; auto. left. split; auto.
    eapply tryParse_not_failed; eauto.
  - eexists. split; [reflexivity|]. right. repeat split; eauto.
Qed.

Lemma parseV1_cases text provider now :
  exists r,
    AIServiceV1.parseAIResponse text provider now = Return r /\
    ((AIServiceV1.tryParse text provider now = Return r /\ parseFailedV1 r = false) \/
     ((exists e, AIServiceV1.tryParse text provider now = Throw e) /\
      r = AIServiceV1.fallback text provider now /\ parseFailedV1 r = true)).
Proof.
  unfold AIServiceV1.parseAIResponse, try_catch.
  destruct (AIServiceV1.tryParse text provider now) as [r|e] eqn:Ht.
  - exists r. split; auto. left. split; auto.
    eapply tryParseV1_not_failed; eauto.
  - eexists. split; [reflexivity|]. right. repeat split; eauto.
Qed.

(** C1. [parseAIResponse] returns a listing record for every text, provider
    and time, in both generations of the service: it never throws.  The
    record is the one built from the decoded payload, with [parseFailed]
    false, when the [try] block completes; whatever is thrown inside the
    block (no match, a SyntaxError of [JSON.parse], a TypeError of a field
    read) is caught and the fallback record is returned, with [parseFailed]
    true. *)
Theorem parseAIResponse_never_throws (text provider : jsstring) (now : Date) :
  (exists r,
     AIService.parseAIResponse text provider now = Return r /\
     ((AIService.tryParse text provider now = Return r /\ parseFailed r = false) \/
      ((exists e, AIService.tryParse text provider now = Throw e) /\
       r = AIService.fallback text provider now /\ parseFailed r = true))) /\
  (exists r,
     AIServiceV1.parseAIResponse text provider now = Return r /\
     ((AIServiceV1.tryParse text provider now = Return r /\ parseFailedV1 r = false) \/
      ((exists e, AIServiceV1.tryParse text provider now = Throw e) /\
       r = AIServiceV1.fallback text provider now /\ parseFailedV1 r = true))).
Proof.
  split.
  - destruct (parse_cases text provider now) as [r [Hr Hcase]].
    exists r. split; [exact Hr | exact Hcase].
  - destruct (parseV1_cases text provider now) as [r [Hr Hcase]].
    exists r. split; [exact Hr | exact Hcase].
Qed.

(** The invariant of the parser: the [condition] of the record it returns is
    one of the seven canonical values, for every text (both generations);
    and the normalizer [validateCondition] returns a canonical value on
    every string, the empty one included, and on [undefined] and [null]. *)
Theorem condition_always_canonical :
  (forall text provider now, exists r,
     AIService.parseAIResponse text provider now = Return r /\
     In (AIService.condition r) validConditions) /\
  (forall text provider now, exists r,
     AIServiceV1.parseAIResponse text provider now = Return r /\
     In (AIServiceV1.condition r) validConditions) /\
  (forall s, exists c,
     validateCondition (VStr s) = Return c /\ In c validConditions) /\
  validateCondition VUndefined = Return (lit "good") /\
  validateCondition VNull = Return (lit "good") /\
  validateCondition (VStr "") = Return (lit "good") /\
  In (lit "good") validConditions.
Proof.
  split; [|split; [|split; [|repeat split]]].
  - intros text provider now.
    unfold AIService.parseAIResponse, try_catch.
    destruct (AIService.tryParse text provider now) as [r|e] eqn:Ht.
    + exists r. split; auto.
      apply tryParse_inv in Ht as (json & parsed & _ & _ & H).
      apply readListing_inv in H as (t & c & mn & mx & cf & _ & Hc & _ & _ & _ & ->).
      simpl. eapply validateCondition_returns_canonical; eauto.
    + eexists. split; [reflexivity|]. apply good_canonical.
  - intros text provider now.
    unfold AIServiceV1.parseAIResponse, try_catch.
    destruct (AIServiceV1.tryParse text provider now) as [r|e] eqn:Ht.
    + exists r. split; auto.
      apply tryParseV1_inv in Ht as (json & parsed & _ & _ & H).
      apply readListingV1_inv in H as (t & c & mn & mx & cf & _ & Hc & _ & _ & _ & ->).
      simpl. eapply validateCondition_returns_canonical; eauto.
    + eexists. split; [reflexivity|]. apply good_canonical.
  - apply validateCondition_string.
  - apply good_canonical.
Qed.

(** C2. The normalizer is not total.  The payload of
    [numericConditionText] decodes, and its [condition] is the number 5; on
    it [validateCondition] throws a TypeError, the number having no method
    [toLowerCase], where the claim has it return a canonical value.  Inside
    the parser the error is caught with every other: the record returned is
    the fallback, whose condition is the canonical [good], and the title of
    the payload is lost with the rest of it. *)
Theorem validateCondition_not_total :
  validateCondition (VNum five) = Throw TypeError /\
  ~ (forall v, exists c, validateCondition v = Return c /\ In c validConditions) /\
  (exists parsed,
     match_braces numericConditionText = Some numericConditionText /\
     JSON_parse numericConditionText = Return parsed /\
     get parsed "condition" = VNum five /\
     get parsed "seoTitle" = VStr "Desk lamp") /\
  (exists r,
     AIService.parseAIResponse numericConditionText "gemini" 0%Z = Return r /\
     parseFailed r = true /\
     AIService.condition r = lit "good" /\
     AIService.title r = VStr "Product for Sale") /\
  (exists r,
     AIServiceV1.parseAIResponse numericConditionText "gemini" 0%Z = Return r /\
     parseFailedV1 r = true /\
     AIServiceV1.condition r = lit "good").
Proof.
  split; [reflexivity|]. split.
  { intros H. destruct (H (VNum five)) as (c & Hc & _). discriminate. }
  split.
  { eexists. split; [reflexivity|]. split; [vm_compute; reflexivity|].
    split; vm_compute; reflexivity. }
  split.
  - eexists. split; [vm_compute; reflexivity|]. repeat split.
  - eexists. split; [vm_compute; reflexivity|]. repeat split.
Qed.

(** C3, as the specification states it, fails in the richer generation: for
    [noJsonText], in which there is no brace, the fallback record holds the
    text under [marketplaceContent.productDescription], a field of the
    structured content that is neither empty nor a default. *)
Lemma degraded_record_keeps_text :
  exists r,
    noJsonObject noJsonText /\
    AIService.parseAIResponse noJsonText "gemini" 0%Z = Return r /\
    parseFailed r = true /\
    AIService.MarketplaceContent.productDescription (AIService.marketplaceContent r) =
      VStr noJsonText /\
    AIService.MarketplaceContent.productDescription (AIService.marketplaceContent r) <>
      VStr "".
Proof.
  eexists. split; [left; reflexivity|].
  split; [vm_compute; reflexivity|].
  repeat split; vm_compute; try reflexivity; discriminate.
Qed.

(** C3, amended.  When no JSON object can be located in the text or the
    located text does not decode, the parser returns the fallback record:
    [parseFailed] true, the title the fixed non-empty placeholder, the
    description the first 1000 code units of the text, confidence 0.3,
    provider and time kept, and every structured field empty or at its
    default but one: in the richer generation the [productDescription] of
    [marketplaceContent] holds the first 500 code units of the text. *)
Theorem degraded_record (text provider : jsstring) (now : Date) :
  noJsonObject text ->
  (exists r,
     AIService.parseAIResponse text provider now = Return r /\
     parseFailed r = true /\
     AIService.title r = VStr "Product for Sale" /\
     AIService.title r <> VStr "" /\
     AIService.description r = VStr (firstn 1000 text) /\
     AIService.marketplaceContent r =
       {| AIService.MarketplaceContent.seoTitle := VStr "";
          AIService.MarketplaceContent.keyFeatures := [];
          AIService.MarketplaceContent.productDescription := VStr (firstn 500 text);
          AIService.MarketplaceContent.shortMarketplaceSummary := VStr "";
          AIService.MarketplaceContent.longSeoDescription := VStr "";
          AIService.MarketplaceContent.seoKeywords :=
            {| AIService.SeoKeywords.primary := [];
               AIService.SeoKeywords.secondary := [];
               AIService.SeoKeywords.longTail := [] |};
          AIService.MarketplaceContent.marketplaceTags := [] |} /\
     AIService.category r =
       {| AIService.Category.main := VStr "Other";
          AIService.Category.sub := VStr "";
          AIService.Category.tags := [] |} /\
     AIService.condition r = lit "good" /\
     AIService.conditionNotes r = VStr "" /\
     AIService.specifications r = None /\
     AIService.suggestedPrice r =
       {| AIService.SuggestedPrice.min := zero;
          AIService.SuggestedPrice.max := zero;
          AIService.SuggestedPrice.currency := VStr "USD";
          AIService.SuggestedPrice.reasoning := VStr "" |} /\
     AIService.searchKeywords r = [] /\
     AIService.warnings r = [] /\
     AIService.confidence r = of_decimal false 3 (-1) /\
     AIService.aiProvider r = provider /\
     AIService.generatedAt r = now) /\
  (exists r,
     AIServiceV1.parseAIResponse text provider now = Return r /\
     parseFailedV1 r = true /\
     AIServiceV1.title r = VStr "Product for Sale" /\
     AIServiceV1.title r <> VStr "" /\
     AIServiceV1.description r = VStr (firstn 1000 text) /\
     AIServiceV1.category r =
       {| AIServiceV1.Category.main := VStr "Other";
          AIServiceV1.Category.sub := VStr "";
          AIServiceV1.Category.tags := [] |} /\
     AIServiceV1.condition r = lit "good" /\
     AIServiceV1.conditionNotes r = VStr "" /\
     AIServiceV1.specifications r = None /\
     AIServiceV1.suggestedPrice r =
       {| AIServiceV1.SuggestedPrice.min := zero;
          AIServiceV1.SuggestedPrice.max := zero;
          AIServiceV1.SuggestedPrice.reasoning := VStr "" |} /\
     AIServiceV1.searchKeywords r = [] /\
     AIServiceV1.warnings r = [] /\
     AIServiceV1.confidence r = of_decimal false 3 (-1) /\
     AIServiceV1.aiProvider r = provider /\
     AIServiceV1.generatedAt r = now).
Proof.
  intros Hno. split.
  - destruct (tryParse_noJson text provider now Hno) as [e He].
    exists (AIService.fallback text provider now).
    unfold AIService.parseAIResponse, try_catch. rewrite He.
    repeat split; try reflexivity. simpl. discriminate.
  - destruct (tryParseV1_noJson text provider now Hno) as [e He].
    exists (AIServiceV1.fallback text provider now).
    unfold AIServiceV1.parseAIResponse, try_catch. rewrite He.
    repeat split; try reflexivity. simpl. discriminate.
Qed.

Lemma degraded_record_witness :
  noJsonObject noJsonText /\
  noJsonObject brokenJsonText /\
  (exists r,
     AIService.parseAIResponse brokenJsonText "gemini" 0%Z = Return r /\
     parseFailed r = true /\
     AIService.description r = VStr (firstn 1000 brokenJsonText) /\
     AIService.confidence r = of_decimal false 3 (-1)).
Proof.
  assert (H1 : noJsonObject noJsonText) by (left; reflexivity).
  assert (H2 : noJsonObject brokenJsonText).
  { right. eexists. exists SyntaxError. split; reflexivity. }
  split; [exact H1|]. split; [exact H2|].
  destruct (@degraded_record brokenJsonText (lit "gemini") 0%Z H2) as [[r Hr] _].
  exists r. tauto.
Defined.

(** *** The test vectors of the normalizer *)

Lemma startsWith_In (s key : jsstring) (c : codeunit) :
  startsWith s key = true -> In c key -> In c s.
Proof.
  revert s; induction key as [|k key IH]; intros s Hs Hin; [contradiction|].
  destruct s as [|x s]; simpl in Hs; try discriminate.
  apply andb_prop in Hs as [Hk Hs]. apply N.eqb_eq in Hk. subst.
  destruct Hin as [->|Hin]; simpl; auto.
Qed.

Lemma includes_In (s key : jsstring) (c : codeunit) :
  includes s key = true -> In c key -> In c s.
Proof.
  induction s as [|x s IH]; simpl; intros H Hin.
  - destruct key; [contradiction | discriminate].
  - apply orb_prop in H as [H|H].
    + eapply (startsWith_In (x :: s)); eauto.
    + right; auto.
Qed.

(** The cleaned text holds no space, so the two keys of [conditionMap] that
    contain one, [brand new] and [very good], match no input. *)
Lemma spaced_keys_never_match (s : jsstring) :
  includes (replace_non_az_hyphen (toLowerCase s)) (lit "brand new") = false /\
  includes (replace_non_az_hyphen (toLowerCase s)) (lit "very good") = false.
Proof.
  assert (Hsp : ~ In 32%N (replace_non_az_hyphen (toLowerCase s))).
  { unfold replace_non_az_hyphen. intros H. apply filter_In in H as [_ H].
    discriminate. }
  split.
  - destruct (includes _ (lit "brand new")) eqn:H; auto.
    exfalso. apply Hsp. eapply includes_In; eauto. vm_compute; tauto.
  - destruct (includes _ (lit "very good")) eqn:H; auto.
    exfalso. apply Hsp. eapply includes_In; eauto. vm_compute; tauto.
Qed.

(** C4. The three test vectors, evaluated: [kinda broken] gives [for-parts]
    and the empty string gives [good], but [Brand New, sealed] gives [good],
    not [new]: it is cleaned to [brandnewsealed], which is no canonical value
    and contains none of the keys, the key [brand new] having a space. *)
Theorem validateCondition_vectors :
  validateCondition (VStr "Brand New, sealed") = Return (lit "good") /\
  replace_non_az_hyphen (toLowerCase "Brand New, sealed") = lit "brandnewsealed" /\
  validateCondition (VStr "kinda broken") = Return (lit "for-parts") /\
  validateCondition (VStr "") = Return (lit "good").
Proof. repeat split; vm_compute; reflexivity. Qed.

(** *** The argument check of [analyzeProductImages] *)

Lemma analyze_rejects backend now this images modelNumber additionalInfo :
  noImages images = true -> truthy modelNumber = false ->
  AIService.analyze backend now this images modelNumber additionalInfo =
    ([], Throw (newAppError "Either images or model number is required" 400)).
Proof.
  intros Hi Hm. unfold AIService.analyze. rewrite Hi, Hm. reflexivity.
Qed.

Lemma analyzeProductImages_rejects backend now this images modelNumber additionalInfo :
  noImages images = true -> truthy modelNumber = false ->
  AIService.analyzeProductImages backend now this images modelNumber additionalInfo =
    ([ConsoleError "AI analysis error:"],
     Throw (newAppError "Failed to analyze product images" 500)).
Proof.
  intros Hi Hm. unfold AIService.analyzeProductImages.
  rewrite analyze_rejects by assumption. reflexivity.
Qed.

(** The first generation has no check: with Gemini configured the same
    arguments reach the provider. *)
Lemma analyzeProductImagesV1_calls_provider backend now additionalInfo :
  exists prompt rest outcome,
    AIServiceV1.analyzeProductImages backend now sampleServiceV1 (Some []) None
      additionalInfo = (GeminiCall prompt [] :: rest, outcome).
Proof.
  unfold AIServiceV1.analyzeProductImages, AIServiceV1.analyze, sampleServiceV1.
  simpl AIServiceV1.preferredProvider. simpl AIServiceV1.geminiModel.
  replace (str_eqb (lit "gemini") (lit "gemini")) with true by reflexivity.
  unfold AIServiceV1.analyzeWithGemini.
  set (prompt := AIServiceV1.buildPrompt _ _ _).
  simpl io_all. unfold io_bind, io_ret, io_call, io_try, AIServiceV1.parseIO, io_lift.
  simpl app.
  destruct (generateContent backend prompt []) as [text|e].
  - destruct (AIServiceV1.parseAIResponse text (lit "gemini") now); simpl; eauto.
  - simpl. eauto.
Qed.

(** C5. At the request with no image and no model number the check inside
    the [try] block throws the 400 error, before any provider or network
    call; the handler of the same block catches it, and what the caller
    gets is the 500 error [Failed to analyze product images]. *)
Theorem missing_inputs_error_masked (backend : Backend) (now : Date)
  (this : AIService.t) (additionalInfo : option jsstring) :
  AIService.analyze backend now this (Some []) None additionalInfo =
    ([], Throw (newAppError "Either images or model number is required" 400)) /\
  AIService.analyzeProductImages backend now this (Some []) None additionalInfo =
    ([ConsoleError "AI analysis error:"],
     Throw (newAppError "Failed to analyze product images" 500)) /\
  existsb is_external
    (fst (AIService.analyzeProductImages backend now this (Some []) None
            additionalInfo)) = false.
Proof.
  rewrite analyzeProductImages_rejects by reflexivity.
  rewrite analyze_rejects by reflexivity.
  repeat split; reflexivity.
Qed.

(** *** The prompt builder *)

Section Traces.

Variable P : event -> Prop.

Lemma io_bind_trace {A B} (m : io A) (k : A -> io B) :
  Forall P (fst m) -> (forall a, Forall P (fst (k a))) ->
  Forall P (fst (io_bind m k)).
Proof.
  intros Hm Hk. destruct m as [tr [a|e]]; simpl in *; auto.
  specialize (Hk a). destruct (k a) as [tr' r]. simpl in *.
  apply Forall_app; auto.
Qed.

Lemma io_try_trace {A} (m : io A) (h : exn -> io A) :
  Forall P (fst m) -> (forall e, Forall P (fst (h e))) ->
  Forall P (fst (io_try m h)).
Proof.
  intros Hm Hh. destruct m as [tr [a|e]]; simpl in *; auto.
  specialize (Hh e). destruct (h e) as [tr' r]. simpl in *.
  apply Forall_app; auto.
Qed.

Lemma io_all_trace {A B} (f : A -> io B) (l : list A) :
  (forall a, Forall P (fst (f a))) -> Forall P (fst (io_all f l)).
Proof.
  intros Hf. induction l as [|a l IH]; simpl.
  - constructor.
  - specialize (Hf a). destruct (f a) as [tr r].
    destruct (io_all f l) as [tr' rs]. simpl in *.
    apply Forall_app; auto.
Qed.

End Traces.

Lemma toInlineData_trace backend p url :
  Forall (carriesPrompt p) (fst (AIService.toInlineData backend url)).
Proof.
  unfold AIService.toInlineData. apply io_bind_trace.
  - repeat constructor.
  - intros a. constructor.
Qed.

Lemma toInlineDataV1_trace backend p url :
  Forall (carriesPrompt p) (fst (AIServiceV1.toInlineData backend url)).
Proof.
  unfold AIServiceV1.toInlineData. apply io_bind_trace.
  - repeat constructor.
  - intros a. constructor.
Qed.

(** Every request [analyzeProductImages] sends to a provider carries the
    text [buildPrompt] gives for the two arguments. *)
Lemma requests_carry_prompt backend now this images modelNumber additionalInfo :
  Forall (carriesPrompt (AIService.buildPrompt this modelNumber additionalInfo))
    (fst (AIService.analyzeProductImages backend now this images modelNumber
            additionalInfo)).
Proof.
  unfold AIService.analyzeProductImages. apply io_try_trace.
  2:{ intros e. apply io_bind_trace; [repeat constructor | intros; constructor]. }
  unfold AIService.analyze.
  destruct (noImages images && negb (truthy modelNumber)); [constructor|].
  destruct (str_eqb _ _ && AIService.geminiModel this).
  - unfold AIService.analyzeWithGemini.
    set (prompt := AIService.buildPrompt this modelNumber additionalInfo).
    destruct (noImages images).
    + apply io_bind_trace; [repeat constructor | intros; constructor].
    + apply io_bind_trace.
      * apply io_all_trace. intros url. apply toInlineData_trace.
      * intros parts. apply io_bind_trace; [repeat constructor | intros; constructor].
  - destruct (str_eqb _ _ && AIService.openai this); [|constructor].
    unfold AIService.analyzeWithGPT4.
    set (prompt := AIService.buildPrompt this modelNumber additionalInfo).
    destruct (noImages images);
      (apply io_bind_trace; [repeat constructor | intros; constructor]).
Qed.

Lemma requestsV1_carry_prompt backend now this images modelNumber additionalInfo :
  Forall (carriesPrompt (AIServiceV1.buildPrompt this modelNumber additionalInfo))
    (fst (AIServiceV1.analyzeProductImages backend now this images modelNumber
            additionalInfo)).
Proof.
  unfold AIServiceV1.analyzeProductImages. apply io_try_trace.
  2:{ intros e. apply io_bind_trace; [repeat constructor | intros; constructor]. }
  unfold AIServiceV1.analyze.
  destruct (str_eqb _ _ && AIServiceV1.geminiModel this).
  - unfold AIServiceV1.analyzeWithGemini.
    set (prompt := AIServiceV1.buildPrompt this modelNumber additionalInfo).
    destruct images as [l|]; [|constructor].
    apply io_bind_trace.
    + apply io_all_trace. intros url. apply toInlineDataV1_trace.
    + intros parts. apply io_bind_trace; [repeat constructor | intros; constructor].
  - destruct (str_eqb _ _ && AIServiceV1.openai this); [|constructor].
    unfold AIServiceV1.analyzeWithGPT4.
    set (prompt := AIServiceV1.buildPrompt this modelNumber additionalInfo).
    destruct images as [l|]; [|constructor].
    apply io_bind_trace; [repeat constructor | intros; constructor].
Qed.

(** C7. [buildPrompt] yields the same instruction text whenever it is called
    with the same model number and additional information, on whichever
    instance and in whatever state of it: the text is a function of the two
    arguments alone.  Whether images are supplied is not among its
    arguments: every request a call of [analyzeProductImages] sends to a
    provider carries that text, whatever the images, the time and the
    answers of the outside. *)
Theorem buildPrompt_deterministic (this1 this2 : AIService.t)
  (old1 old2 : AIServiceV1.t) (modelNumber additionalInfo : option jsstring) :
  AIService.buildPrompt this1 modelNumber additionalInfo =
    AIService.buildPrompt this2 modelNumber additionalInfo /\
  AIServiceV1.buildPrompt old1 modelNumber additionalInfo =
    AIServiceV1.buildPrompt old2 modelNumber additionalInfo /\
  (forall backend now images,
     Forall (carriesPrompt (AIService.buildPrompt this2 modelNumber additionalInfo))
       (fst (AIService.analyzeProductImages backend now this1 images modelNumber
               additionalInfo))) /\
  (forall backend now images,
     Forall (carriesPrompt (AIServiceV1.buildPrompt old2 modelNumber additionalInfo))
       (fst (AIServiceV1.analyzeProductImages backend now old1 images modelNumber
               additionalInfo))).
Proof.
  split; [reflexivity|]. split; [reflexivity|]. split.
  - intros backend now images.
    change (AIService.buildPrompt this2 modelNumber additionalInfo)
      with (AIService.buildPrompt this1 modelNumber additionalInfo).
    apply requests_carry_prompt.
  - intros backend now images.
    change (AIServiceV1.buildPrompt old2 modelNumber additionalInfo)
      with (AIServiceV1.buildPrompt old1 modelNumber additionalInfo).
    apply requestsV1_carry_prompt.
Qed.

(** *** Numbers read from the payload *)

Lemma parse_ok_inv text provider now r :
  AIService.parseAIResponse text provider now = Return r ->
  parseFailed r = false ->
  exists json parsed title c mn mx cf,
    match_braces text = Some json /\
    JSON_parse json = Return parsed /\
    opt_substring0 (get parsed "seoTitle") 200 = Return title /\
    validateCondition (get parsed "condition") = Return c /\
    parseFloat (get (get parsed "suggestedPrice") "min") = Return mn /\
    parseFloat (get (get parsed "suggestedPrice") "max") = Return mx /\
    parseFloat (get parsed "confidence") = Return cf /\
    r = AIService.listing parsed provider now title c mn mx cf.
Proof.
  unfold AIService.parseAIResponse, try_catch.
  destruct (AIService.tryParse text provider now) as [r'|e] eqn:Ht.
  - intros H _. inversion H; subst r'.
    apply tryParse_inv in Ht as (json & parsed & Hm & Hp & Hr).
    apply readListing_inv in Hr as (t & c & mn & mx & cf & Hr).
    exists json, parsed, t, c, mn, mx, cf. tauto.
  - intros H. inversion H. discriminate.
Qed.

Lemma parseV1_ok_inv text provider now r :
  AIServiceV1.parseAIResponse text provider now = Return r ->
  parseFailedV1 r = false ->
  exists json parsed title c mn mx cf,
    match_braces text = Some json /\
    JSON_parse json = Return parsed /\
    opt_substring0 (get parsed "title") 200 = Return title /\
    validateCondition (get parsed "condition") = Return c /\
    parseFloat (get (get parsed "suggestedPrice") "min") = Return mn /\
    parseFloat (get (get parsed "suggestedPrice") "max") = Return mx /\
    parseFloat (get parsed "confidence") = Return cf /\
    r = AIServiceV1.listing parsed provider now title c mn mx cf.
Proof.
  unfold AIServiceV1.parseAIResponse, try_catch.
  destruct (AIServiceV1.tryParse text provider now) as [r'|e] eqn:Ht.
  - intros H _. inversion H; subst r'.
    apply tryParseV1_inv in Ht as (json & parsed & Hm & Hp & Hr).
    apply readListingV1_inv in Hr as (t & c & mn & mx & cf & Hr).
    exists json, parsed, t, c, mn, mx, cf. tauto.
  - intros H. inversion H. discriminate.
Qed.

Lemma return_inj {A} (a b : A) : Return a = Return b -> a = b.
Proof. intros H; inversion H; reflexivity. Qed.

(** The binary64 number written [199.99]. *)
Lemma number_199_99 :
  of_decimal false 19999 (-2) = S754_finite false 7036522574045512 (-45) /\
  within_half_ulp (of_decimal false 19999 (-2)) 19999 100 = true.
Proof. split; vm_compute; reflexivity. Qed.

(** [x || 0] on a number. *)
Lemma num_or_zero (f : number) :
  num_or f zero = (if is_zero f || is_nan f then S754_zero false else f).
Proof. reflexivity. Qed.

(** C8.  The response [priceText], whose payload has the string [199.99abc]
    as [suggestedPrice.min], is read into a record whose price minimum is
    the number [199.99], the longest numeric prefix of the string, and not
    [0].  The rule, for both bounds of the price of every payload that is
    read into a record: the bound is [parseFloat] of the payload's value,
    and [0] stands in only where [parseFloat] gives [NaN], no number, or a
    zero, which it equals.  The same holds in the first generation. *)
Theorem price_partial_numeric :
  (forall provider now, exists r,
     AIService.parseAIResponse priceText provider now = Return r /\
     parseFailed r = false /\
     AIService.SuggestedPrice.min (AIService.suggestedPrice r) =
       of_decimal false 19999 (-2)) /\
  (forall provider now, exists r,
     AIServiceV1.parseAIResponse priceText provider now = Return r /\
     parseFailedV1 r = false /\
     AIServiceV1.SuggestedPrice.min (AIServiceV1.suggestedPrice r) =
       of_decimal false 19999 (-2)) /\
  (forall text provider now json parsed r,
     match_braces text = Some json ->
     JSON_parse json = Return parsed ->
     AIService.parseAIResponse text provider now = Return r ->
     parseFailed r = false ->
     exists mn mx,
       parseFloat (get (get parsed "suggestedPrice") "min") = Return mn /\
       parseFloat (get (get parsed "suggestedPrice") "max") = Return mx /\
       AIService.SuggestedPrice.min (AIService.suggestedPrice r) =
         (if is_zero mn || is_nan mn then S754_zero false else mn) /\
       AIService.SuggestedPrice.max (AIService.suggestedPrice r) =
         (if is_zero mx || is_nan mx then S754_zero false else mx) /\
       (get (get parsed "suggestedPrice") "min" = VStr "199.99abc" ->
        AIService.SuggestedPrice.min (AIService.suggestedPrice r) =
          of_decimal false 19999 (-2)) /\
       (get (get parsed "suggestedPrice") "max" = VStr "199.99abc" ->
        AIService.SuggestedPrice.max (AIService.suggestedPrice r) =
          of_decimal false 19999 (-2))) /\
  (forall text provider now json parsed r,
     match_braces text = Some json ->
     JSON_parse json = Return parsed ->
     AIServiceV1.parseAIResponse text provider now = Return r ->
     parseFailedV1 r = false ->
     exists mn mx,
       parseFloat (get (get parsed "suggestedPrice") "min") = Return mn /\
       parseFloat (get (get parsed "suggestedPrice") "max") = Return mx /\
       AIServiceV1.SuggestedPrice.min (AIServiceV1.suggestedPrice r) =
         (if is_zero mn || is_nan mn then S754_zero false else mn) /\
       AIServiceV1.SuggestedPrice.max (AIServiceV1.suggestedPrice r) =
         (if is_zero mx || is_nan mx then S754_zero false else mx) /\
       (get (get parsed "suggestedPrice") "min" = VStr "199.99abc" ->
        AIServiceV1.SuggestedPrice.min (AIServiceV1.suggestedPrice r) =
          of_decimal false 19999 (-2)) /\
       (get (get parsed "suggestedPrice") "max" = VStr "199.99abc" ->
        AIServiceV1.SuggestedPrice.max (AIServiceV1.suggestedPrice r) =
          of_decimal false 19999 (-2))).
Proof.
  split; [|split; [|split]].
  - intros provider now. eexists. split; [vm_compute; reflexivity|].
    split; vm_compute; reflexivity.
  - intros provider now. eexists. split; [vm_compute; reflexivity|].
    split; vm_compute; reflexivity.
  - intros text provider now json parsed r Hm Hp Hr Hok.
    apply parse_ok_inv in Hr as
      (json' & parsed' & t & c & mn & mx & cf & Hm' & Hp' & _ & _ & Hmn & Hmx & _ & ->);
      auto.
    rewrite Hm in Hm'. inversion Hm'; subst json'.
    rewrite Hp in Hp'. apply return_inj in Hp'. subst parsed'.
    exists mn, mx. split; [exact Hmn|]. split; [exact Hmx|].
    split; [apply num_or_zero|]. split; [apply num_or_zero|]. split.
    + intros Hv. rewrite Hv in Hmn. apply return_inj in Hmn. subst mn.
      vm_compute; reflexivity.
    + intros Hv. rewrite Hv in Hmx. apply return_inj in Hmx. subst mx.
      vm_compute; reflexivity.
  - intros text provider now json parsed r Hm Hp Hr Hok.
    apply parseV1_ok_inv in Hr as
      (json' & parsed' & t & c & mn & mx & cf & Hm' & Hp' & _ & _ & Hmn & Hmx & _ & ->);
      auto.
    rewrite Hm in Hm'. inversion Hm'; subst json'.
    rewrite Hp in Hp'. apply return_inj in Hp'. subst parsed'.
    exists mn, mx. split; [exact Hmn|]. split; [exact Hmx|].
    split; [apply num_or_zero|]. split; [apply num_or_zero|]. split.
    + intros Hv. rewrite Hv in Hmn. apply return_inj in Hmn. subst mn.
      vm_compute; reflexivity.
    + intros Hv. rewrite Hv in Hmx. apply return_inj in Hmx. subst mx.
      vm_compute; reflexivity.
Qed.

Lemma price_partial_numeric_witness :
  exists r,
    AIService.parseAIResponse priceText "gemini" 0%Z = Return r /\
    parseFailed r = false /\
    AIService.SuggestedPrice.min (AIService.suggestedPrice r) =
      S754_finite false 7036522574045512 (-45) /\
    AIService.SuggestedPrice.max (AIService.suggestedPrice r) = S754_zero false.
Proof.
  destruct (JSON_parse priceText) as [parsed|e] eqn:Hp; [|vm_compute in Hp; discriminate].
  assert (Hm : match_braces priceText = Some priceText) by reflexivity.
  destruct (AIService.parseAIResponse priceText (lit "gemini") 0%Z) as [r|e] eqn:Hr;
    [|vm_compute in Hr; discriminate].
  assert (Hok : parseFailed r = false).
  { vm_compute in Hr. apply return_inj in Hr. subst r. reflexivity. }
  assert (Hv : get (get parsed "suggestedPrice") "min" = VStr "199.99abc").
  { vm_compute in Hp. apply return_inj in Hp. subst parsed. reflexivity. }
  assert (Hx : parseFloat (get (get parsed "suggestedPrice") "max") = Return NaN).
  { vm_compute in Hp. apply return_inj in Hp. subst parsed. reflexivity. }
  exists r. split; [reflexivity|]. split; [exact Hok|].
  destruct (proj1 (proj2 (proj2 price_partial_numeric)) priceText (lit "gemini") 0%Z
              priceText parsed r Hm Hp Hr Hok)
    as (mn & mx & _ & Hmx & _ & Hmax & Hmin & _).
  rewrite (Hmin Hv), Hmax. rewrite Hx in Hmx. apply return_inj in Hmx. subst mx.
  split; [apply number_199_99 | reflexivity].
Defined.

(** *** The confidence *)

Lemma num_or_half_in_unit (f : number) :
  in_unit_interval (num_or f half) = in_unit_interval f || is_nan f.
Proof.
  destruct f as [s|s| |s m e]; simpl.
  - destruct s; reflexivity.
  - now rewrite orb_false_r.
  - reflexivity.
  - now rewrite orb_false_r.
Qed.

Lemma num_or_half_not_zero (f : number) :
  is_zero (num_or f half) = false /\ is_nan (num_or f half) = false.
Proof. destruct f; split; reflexivity. Qed.

(** C9, as the specification states it, fails: the payload of
    [confidenceFiveText], whose confidence is 5, decodes, and the record
    carries the confidence 5, outside [0,1]. *)
Lemma confidence_not_clamped :
  exists r,
    AIService.parseAIResponse confidenceFiveText "gemini" 0%Z = Return r /\
    parseFailed r = false /\
    AIService.confidence r = of_decimal false 5 0 /\
    in_unit_interval (AIService.confidence r) = false.
Proof.
  eexists. split; [vm_compute; reflexivity|].
  repeat split; vm_compute; reflexivity.
Qed.

(** C9, amended.  Every call returns a record whose confidence is either 0.3,
    on the fallback, or [parseFloat] of the payload's value with 0.5 in the
    place of [NaN] and of zero; the value is not clamped, so the confidence
    lies in [0,1] exactly when the payload's number does or is [NaN]. *)
Theorem confidence_rule (text provider : jsstring) (now : Date) :
  exists r,
    AIService.parseAIResponse text provider now = Return r /\
    ((parseFailed r = true /\
      AIService.confidence r = of_decimal false 3 (-1) /\
      in_unit_interval (AIService.confidence r) = true) \/
     (parseFailed r = false /\
      exists json parsed f,
        match_braces text = Some json /\
        JSON_parse json = Return parsed /\
        parseFloat (get parsed "confidence") = Return f /\
        AIService.confidence r =
          (if is_zero f || is_nan f then of_decimal false 5 (-1) else f) /\
        in_unit_interval (AIService.confidence r) =
          in_unit_interval f || is_nan f)).
Proof.
  destruct (parse_cases text provider now) as [r [Hr Hcase]].
  exists r. split; auto.
  destruct Hcase as [[Ht Hok] | [_ [-> Hf]]].
  - right. split; auto.
    apply parse_ok_inv in Hr as
      (json & parsed & t & c & mn & mx & cf & Hm & Hp & _ & _ & _ & _ & Hcf & ->);
      auto.
    exists json, parsed, cf. repeat split; auto.
    apply num_or_half_in_unit.
  - left. repeat split; reflexivity.
Qed.

(** C10.  When the payload decodes and is read into a record, and its
    [confidence] is the number zero, the confidence of the record is 0.5:
    [parseFloat(0) || 0.5] takes the default for a zero as for a missing or
    unreadable value.  So no payload that is read yields the confidence 0;
    nor does the fallback, whose confidence is 0.3: no record the parser
    returns has confidence zero (or [NaN]).  Both generations. *)
Theorem zero_confidence_defaults_to_half :
  (forall text provider now json parsed n r,
     match_braces text = Some json ->
     JSON_parse json = Return parsed ->
     get parsed "confidence" = VNum n ->
     is_zero n = true ->
     AIService.parseAIResponse text provider now = Return r ->
     parseFailed r = false ->
     AIService.confidence r = of_decimal false 5 (-1)) /\
  (forall text provider now json parsed n r,
     match_braces text = Some json ->
     JSON_parse json = Return parsed ->
     get parsed "confidence" = VNum n ->
     is_zero n = true ->
     AIServiceV1.parseAIResponse text provider now = Return r ->
     parseFailedV1 r = false ->
     AIServiceV1.confidence r = of_decimal false 5 (-1)) /\
  (forall text provider now, exists r,
     AIService.parseAIResponse text provider now = Return r /\
     is_zero (AIService.confidence r) = false /\
     is_nan (AIService.confidence r) = false) /\
  (forall text provider now, exists r,
     AIServiceV1.parseAIResponse text provider now = Return r /\
     is_zero (AIServiceV1.confidence r) = false /\
     is_nan (AIServiceV1.confidence r) = false).
Proof.
  split; [|split; [|split]].
  - intros text provider now json parsed n r Hm Hp Hc Hz Hr Hok.
    apply parse_ok_inv in Hr as
      (json' & parsed' & t & c & mn & mx & cf & Hm' & Hp' & _ & _ & _ & _ & Hcf & ->);
      auto.
    rewrite Hm in Hm'. inversion Hm'; subst json'.
    rewrite Hp in Hp'. apply return_inj in Hp'. subst parsed'.
    rewrite Hc in Hcf. unfold parseFloat in Hcf. simpl in Hcf.
    rewrite Hz in Hcf. apply return_inj in Hcf. subst cf. reflexivity.
  - intros text provider now json parsed n r Hm Hp Hc Hz Hr Hok.
    apply parseV1_ok_inv in Hr as
      (json' & parsed' & t & c & mn & mx & cf & Hm' & Hp' & _ & _ & _ & _ & Hcf & ->);
      auto.
    rewrite Hm in Hm'. inversion Hm'; subst json'.
    rewrite Hp in Hp'. apply return_inj in Hp'. subst parsed'.
    rewrite Hc in Hcf. unfold parseFloat in Hcf. simpl in Hcf.
    rewrite Hz in Hcf. apply return_inj in Hcf. subst cf. reflexivity.
  - intros text provider now.
    destruct (parse_cases text provider now) as [r [Hr Hcase]].
    exists r. split; auto.
    destruct Hcase as [[Ht Hok] | [_ [-> Hf]]].
    + apply parse_ok_inv in Hr as
        (json & parsed & t & c & mn & mx & cf & _ & _ & _ & _ & _ & _ & _ & ->);
        auto.
      apply num_or_half_not_zero.
    + split; reflexivity.
  - intros text provider now.
    destruct (parseV1_cases text provider now) as [r [Hr Hcase]].
    exists r. split; auto.
    destruct Hcase as [[Ht Hok] | [_ [-> Hf]]].
    + apply parseV1_ok_inv in Hr as
        (json & parsed & t & c & mn & mx & cf & _ & _ & _ & _ & _ & _ & _ & ->);
        auto.
      apply num_or_half_not_zero.
    + split; reflexivity.
Qed.

Lemma zero_confidence_defaults_to_half_witness :
  exists r,
    AIService.parseAIResponse confidenceZeroText "gemini" 0%Z = Return r /\
    parseFailed r = false /\
    AIService.confidence r = S754_finite false 4503599627370496 (-53).
Proof.
  destruct (JSON_parse confidenceZeroText) as [parsed|e] eqn:Hp;
    [|vm_compute in Hp; discriminate].
  assert (Hm : match_braces confidenceZeroText = Some confidenceZeroText)
    by reflexivity.
  destruct (AIService.parseAIResponse confidenceZeroText (lit "gemini") 0%Z)
    as [r|e] eqn:Hr; [|vm_compute in Hr; discriminate].
  assert (Hok : parseFailed r = false).
  { vm_compute in Hr. apply return_inj in Hr. subst r. reflexivity. }
  assert (Hc : get parsed "confidence" = VNum (S754_zero false)).
  { vm_compute in Hp. apply return_inj in Hp. subst parsed. reflexivity. }
  exists r. split; [reflexivity|]. split; [exact Hok|].
  rewrite (proj1 zero_confidence_defaults_to_half confidenceZeroText (lit "gemini")
             0%Z confidenceZeroText parsed (S754_zero false) r Hm Hp Hc eq_refl Hr Hok).
  reflexivity.
Defined.

(** *** Payload fields and record fields *)

Lemma or_else_truthy (v d : value) : ToBoolean v = true -> or_else v d = v.
Proof. unfold or_else. now intros ->. Qed.

Lemma validateCondition_canonical_fixed (c : jsstring) :
  In c validConditions -> validateCondition (VStr c) = Return c.
Proof.
  intros H. vm_compute in H.
  repeat (destruct H as [H|H]; [subst; vm_compute; reflexivity|]). contradiction.
Qed.






(** ** Further properties of the parser *)

Lemma or_else_falsy (v d : value) : ToBoolean v = false -> or_else v d = d.
Proof. unfold or_else. now intros ->. Qed.

Lemma title_of_substring (v title : value) (d : jsstring) :
  opt_substring0 v 200 = Return title ->
  1 <= List.length d <= 200 ->
  exists s, or_else title (VStr d) = VStr s /\ 1 <= List.length s <= 200.
Proof.
  intros Ht Hd. destruct v; try discriminate; unfold opt_substring0 in Ht;
    apply return_inj in Ht; subst title.
  - exists d. split; [reflexivity | assumption].
  - exists d. split; [reflexivity | assumption].
  - unfold or_else, ToBoolean, substring0.
    assert (Hl : List.length (firstn 200 s) <= 200) by (rewrite length_firstn; lia).
    destruct (firstn 200 s) as [|c t].
    + exists d. split; [reflexivity | assumption].
    + exists (c :: t). split; [reflexivity|].
      cbn [List.length] in *. lia.
Qed.


(** X2. The two price bounds of the record [parseAIResponse] returns are
    never NaN, for every text and in both generations: a bound that is
    missing or does not read as a number is replaced by zero.  (Nothing
    orders the two bounds or keeps them finite or positive.) *)
Theorem price_bounds_never_nan (text provider : jsstring) (now : Date) :
  (exists r,
     AIService.parseAIResponse text provider now = Return r /\
     is_nan (AIService.SuggestedPrice.min (AIService.suggestedPrice r)) = false /\
     is_nan (AIService.SuggestedPrice.max (AIService.suggestedPrice r)) = false) /\
  (exists r,
     AIServiceV1.parseAIResponse text provider now = Return r /\
     is_nan (AIServiceV1.SuggestedPrice.min (AIServiceV1.suggestedPrice r)) = false /\
     is_nan (AIServiceV1.SuggestedPrice.max (AIServiceV1.suggestedPrice r)) = false).
Proof.
  assert (Hn : forall x, is_nan (num_or x zero) = false) by (intros []; reflexivity).
  split.
  - destruct (parse_cases text provider now) as (r & Hr & [[_ Hok] | (_ & -> & _)]).
    + destruct (parse_ok_inv _ _ _ _ Hr Hok)
        as (json & parsed & t & c & mn & mx & cf & _ & _ & _ & _ & _ & _ & _ & ->).
      eexists. split; [eassumption|]. split; apply Hn.
    + eexists. split; [eassumption|]. split; reflexivity.
  - destruct (parseV1_cases text provider now) as (r & Hr & [[_ Hok] | (_ & -> & _)]).
    + destruct (parseV1_ok_inv _ _ _ _ Hr Hok)
        as (json & parsed & t & c & mn & mx & cf & _ & _ & _ & _ & _ & _ & _ & ->).
      eexists. split; [eassumption|]. split; apply Hn.
    + eexists. split; [eassumption|]. split; reflexivity.
Qed.

Lemma from_first_open_after (pre s : jsstring) :
  lacks 123%N pre = true -> from_first_open (pre ++ 123%N :: s) = Some (123%N :: s).
Proof.
  induction pre as [|c pre IH]; intros H.
  - reflexivity.
  - unfold lacks in H. cbn [forallb] in H. apply andb_prop in H as [Hc Hp].
    cbn [app from_first_open]. apply negb_true_iff in Hc. rewrite Hc. now apply IH.
Qed.

Lemma upto_last_close_none (post : jsstring) :
  lacks 125%N post = true -> upto_last_close post = None.
Proof.
  induction post as [|c post IH]; intros H.
  - reflexivity.
  - unfold lacks in H. cbn [forallb] in H. apply andb_prop in H as [Hc Hp].
    cbn [upto_last_close]. rewrite (IH Hp). apply negb_true_iff in Hc. now rewrite Hc.
Qed.

Lemma upto_last_close_before (s post : jsstring) :
  lacks 125%N post = true ->
  upto_last_close (s ++ 125%N :: post) = Some (s ++ [125%N]).
Proof.
  intros H. induction s as [|c s IH].
  - cbn [app upto_last_close]. now rewrite (upto_last_close_none _ H).
  - cbn [app upto_last_close]. now rewrite IH.
Qed.

Lemma match_braces_embedded (pre mid post : jsstring) :
  lacks 123%N pre = true -> lacks 125%N post = true ->
  match_braces (embedded pre mid post) = Some (123%N :: mid ++ [125%N]).
Proof.
  intros Hpre Hpost. unfold match_braces, embedded.
  cbn [app]. rewrite <- app_assoc. cbn [app].
  rewrite (from_first_open_after _ _ Hpre).
  exact (upto_last_close_before (123%N :: mid) post Hpost).
Qed.

(** X3. Prose around the payload does not change what is read: when the
    text before the payload has no opening brace and the text after it no
    closing brace, the pattern matches the payload exactly, and a payload
    that is read into a record on its own is read into the same record
    inside the prose, in both generations. *)
Theorem prose_around_payload (pre mid post provider : jsstring) (now : Date) :
  lacks 123%N pre = true -> lacks 125%N post = true ->
  match_braces (embedded pre mid post) = Some (embedded [] mid []) /\
  (forall r,
     AIService.parseAIResponse (embedded [] mid []) provider now = Return r ->
     parseFailed r = false ->
     AIService.parseAIResponse (embedded pre mid post) provider now = Return r) /\
  (forall r,
     AIServiceV1.parseAIResponse (embedded [] mid []) provider now = Return r ->
     parseFailedV1 r = false ->
     AIServiceV1.parseAIResponse (embedded pre mid post) provider now = Return r).
Proof.
  intros Hpre Hpost.
  assert (Hm : match_braces (embedded pre mid post) = Some (embedded [] mid [])).
  { rewrite (match_braces_embedded _ _ _ Hpre Hpost).
    unfold embedded. cbn [app]. now rewrite app_nil_r. }
  assert (Hm0 : match_braces (embedded [] mid []) = Some (embedded [] mid [])).
  { rewrite (match_braces_embedded [] mid []) by reflexivity.
    unfold embedded. cbn [app]. now rewrite app_nil_r. }
  split; [exact Hm|]. split.
  - intros r Hr Hok.
    unfold AIService.parseAIResponse, try_catch in *.
    assert (Ht : AIService.tryParse (embedded pre mid post) provider now =
                 AIService.tryParse (embedded [] mid []) provider now).
    { unfold AIService.tryParse. now rewrite Hm, Hm0. }
    rewrite Ht.
    destruct (AIService.tryParse (embedded [] mid []) provider now) as [r'|e];
      [assumption|].
    apply return_inj in Hr. subst r. discriminate.
  - intros r Hr Hok.
    unfold AIServiceV1.parseAIResponse, try_catch in *.
    assert (Ht : AIServiceV1.tryParse (embedded pre mid post) provider now =
                 AIServiceV1.tryParse (embedded [] mid []) provider now).
    { unfold AIServiceV1.tryParse. now rewrite Hm, Hm0. }
    rewrite Ht.
    destruct (AIServiceV1.tryParse (embedded [] mid []) provider now) as [r'|e];
      [assumption|].
    apply return_inj in Hr. subst r. discriminate.
Qed.

Lemma prose_around_payload_witness :
  lacks 123%N "Here is the listing: " = true /\
  lacks 125%N " Let me know." = true /\
  exists r,
    AIService.parseAIResponse (embedded [] (quoted "condition" ++ lit ": " ++ quoted "Mint") [])
      "gemini" 0%Z = Return r /\
    parseFailed r = false /\
    AIService.parseAIResponse
      (embedded "Here is the listing: " (quoted "condition" ++ lit ": " ++ quoted "Mint")
                " Let me know.") "gemini" 0%Z = Return r.
Proof.
  split; [reflexivity|]. split; [reflexivity|].
  destruct (AIService.parseAIResponse
              (embedded [] (quoted "condition" ++ lit ": " ++ quoted "Mint") [])
              "gemini" 0%Z) as [r|e] eqn:Hr; [|vm_compute in Hr; discriminate].
  assert (Hok : parseFailed r = false).
  { vm_compute in Hr. apply return_inj in Hr. subst r. reflexivity. }
  exists r. split; [reflexivity|]. split; [exact Hok|].
  exact (proj1 (proj2 (prose_around_payload "Here is the listing: "
                         (quoted "condition" ++ lit ": " ++ quoted "Mint")
                         " Let me know." "gemini" 0%Z eq_refl eq_refl)) r Hr Hok).
Defined.

(** ** Further properties of the condition normalizer *)

Lemma str_eqb_refl (a : jsstring) : str_eqb a a = true.
Proof.
  induction a as [|x a IH]; [reflexivity|].
  cbn [str_eqb]. now rewrite N.eqb_refl, IH.
Qed.

(** X4. Normalizing is idempotent: whatever [validateCondition] returns, it
    returns again when given that result; on an argument it cannot read it
    throws a TypeError. *)
Theorem validateCondition_idempotent (v : value) :
  match validateCondition v with
  | Return c => validateCondition (VStr c) = Return c
  | Throw e => e = TypeError
  end.
Proof.
  destruct (validateCondition v) as [c|e] eqn:Hv.
  - apply validateCondition_canonical_fixed.
    eapply validateCondition_returns_canonical; eassumption.
  - destruct v; try (vm_compute in Hv; congruence).
    destruct (validateCondition_string s) as (c & Hc & _). congruence.
Qed.

(** X5. [validateCondition] answers [new] only for a string that is the
    word itself once lowered and stripped of everything but letters and
    hyphens, and likewise [excellent]: the two variations that map to them
    contain a space and never occur in a stripped string, so no phrase is
    recognised as either. *)
Theorem new_and_excellent_only_when_exact (s : jsstring) :
  (validateCondition (VStr s) = Return (lit "new") <->
   replace_non_az_hyphen (toLowerCase s) = lit "new") /\
  (validateCondition (VStr s) = Return (lit "excellent") <->
   replace_non_az_hyphen (toLowerCase s) = lit "excellent").
Proof.
  destruct (spaced_keys_never_match s) as [Hb Hv].
  unfold validateCondition, normalizeCondition, bind.
  set (n := replace_non_az_hyphen (toLowerCase s)) in *.
  destruct (existsb (str_eqb n) validConditions) eqn:He.
  - split; split; intros H;
      try (apply return_inj in H; exact H); rewrite H; reflexivity.
  - assert (Hnew : n <> lit "new").
    { intros E. rewrite E in He. vm_compute in He. discriminate. }
    assert (Hex : n <> lit "excellent").
    { intros E. rewrite E in He. vm_compute in He. discriminate. }
    unfold conditionMap. cbn [map fst snd firstVariation].
    rewrite Hb, Hv.
    split; split; intros H; try contradiction; exfalso;
      repeat match type of H with
             | context [if ?b then _ else _] => destruct b
             end;
      apply return_inj in H; vm_compute in H; discriminate.
Qed.

(** ** Further properties of [analyzeProductImages] *)

Lemma toInlineData_events backend url :
  fst (AIService.toInlineData backend url) = [Fetch url].
Proof.
  unfold AIService.toInlineData, io_bind, io_call, io_ret.
  destruct (fetchImage backend url); reflexivity.
Qed.

Lemma toInlineDataV1_events backend url :
  fst (AIServiceV1.toInlineData backend url) = [Fetch url].
Proof.
  unfold AIServiceV1.toInlineData, io_bind, io_call, io_ret.
  destruct (fetchImage backend url); reflexivity.
Qed.

Lemma io_all_events {A B} (f : A -> io B) (l : list A) :
  fst (io_all f l) = flat_map (fun a => fst (f a)) l.
Proof.
  induction l as [|a l IH]; [reflexivity|].
  cbn [io_all flat_map]. destruct (f a) as [tr r]. destruct (io_all f l) as [tr' rs].
  cbn [fst] in *. now rewrite IH.
Qed.

Lemma io_all_fetches backend (l : list jsstring) :
  fst (io_all (AIService.toInlineData backend) l) = map Fetch l.
Proof.
  rewrite io_all_events. induction l as [|u l IH]; [reflexivity|].
  cbn [flat_map map]. now rewrite toInlineData_events, IH.
Qed.

Lemma io_all_fetchesV1 backend (l : list jsstring) :
  fst (io_all (AIServiceV1.toInlineData backend) l) = map Fetch l.
Proof.
  rewrite io_all_events. induction l as [|u l IH]; [reflexivity|].
  cbn [flat_map map]. now rewrite toInlineDataV1_events, IH.
Qed.

Lemma noImages_urls (images : option (list jsstring)) :
  noImages images = true -> urls images = [].
Proof. destruct images as [[|u l]|]; try reflexivity; discriminate. Qed.

(** The trace and the outcome of the two provider paths, case by case. *)
Lemma analyzeWithGemini_cases backend now this images modelNumber additionalInfo :
  let m := AIService.analyzeWithGemini backend now this images modelNumber additionalInfo in
  exists prompt parts,
    (fst m = map Fetch (urls images) /\ (exists e, snd m = Throw e)) \/
    (fst m = map Fetch (urls images) ++ [GeminiCall prompt parts] /\
     ((exists e, snd m = Throw e) \/
      exists text, snd m = AIService.parseAIResponse text "gemini" now)).
Proof.
  unfold AIService.analyzeWithGemini.
  generalize (AIService.buildPrompt this modelNumber additionalInfo); intros prompt.
  destruct (noImages images) eqn:Hn.
  - exists prompt, []. right. rewrite (noImages_urls _ Hn).
    unfold io_bind, io_call, AIService.parseIO, io_lift.
    destruct (generateContent backend prompt []) as [text|e]; cbn.
    + split; [reflexivity|]. right. eauto.
    + split; [reflexivity|]. left. eauto.
  - pose proof (io_all_fetches backend (urls images)) as Hf.
    destruct (io_all (AIService.toInlineData backend) (urls images)) as [tr [parts|e]];
      cbn [fst] in Hf; subst tr.
    + exists prompt, parts. right.
      unfold io_bind, io_call, AIService.parseIO, io_lift.
      destruct (generateContent backend prompt parts) as [text|e]; cbn.
      * split; [rewrite ?app_nil_r; reflexivity|]. right. eauto.
      * split; [reflexivity|]. left. eauto.
    + exists prompt, []. left. cbn. eauto.
Qed.

Lemma analyzeWithGPT4_cases backend now this images modelNumber additionalInfo :
  let m := AIService.analyzeWithGPT4 backend now this images modelNumber additionalInfo in
  exists request,
    fst m = [OpenAICall request] /\
    ((exists e, snd m = Throw e) \/
     exists text, snd m = AIService.parseAIResponse text "openai" now).
Proof.
  unfold AIService.analyzeWithGPT4.
  generalize (AIService.buildPrompt this modelNumber additionalInfo); intros prompt.
  destruct (noImages images);
    eexists; unfold io_bind, io_call, AIService.parseIO, io_lift;
    match goal with
    | |- context [createCompletion backend ?r] =>
        destruct (createCompletion backend r) as [text|e]; cbn
    end;
    (split; [reflexivity|]); eauto.
Qed.

Lemma analyzeWithGeminiV1_cases backend now this images modelNumber additionalInfo :
  let m := AIServiceV1.analyzeWithGemini backend now this images modelNumber additionalInfo in
  exists prompt parts,
    (fst m = map Fetch (urls images) /\ (exists e, snd m = Throw e)) \/
    (fst m = map Fetch (urls images) ++ [GeminiCall prompt parts] /\
     ((exists e, snd m = Throw e) \/
      exists text, snd m = AIServiceV1.parseAIResponse text "gemini" now)).
Proof.
  unfold AIServiceV1.analyzeWithGemini.
  generalize (AIServiceV1.buildPrompt this modelNumber additionalInfo); intros prompt.
  destruct images as [l|].
  - pose proof (io_all_fetchesV1 backend l) as Hf. cbn [urls].
    destruct (io_all (AIServiceV1.toInlineData backend) l) as [tr [parts|e]];
      cbn [fst] in Hf; subst tr.
    + exists prompt, parts. right.
      unfold io_bind, io_call, AIServiceV1.parseIO, io_lift.
      destruct (generateContent backend prompt parts) as [text|e]; cbn.
      * split; [rewrite ?app_nil_r; reflexivity|]. right. eauto.
      * split; [reflexivity|]. left. eauto.
    + exists prompt, []. left. cbn. eauto.
  - exists prompt, []. left. cbn. eauto.
Qed.

Lemma analyzeWithGPT4V1_cases backend now this images modelNumber additionalInfo :
  let m := AIServiceV1.analyzeWithGPT4 backend now this images modelNumber additionalInfo in
  (fst m = [] /\ exists e, snd m = Throw e) \/
  exists request,
    fst m = [OpenAICall request] /\
    ((exists e, snd m = Throw e) \/
     exists text, snd m = AIServiceV1.parseAIResponse text "openai" now).
Proof.
  unfold AIServiceV1.analyzeWithGPT4.
  generalize (AIServiceV1.buildPrompt this modelNumber additionalInfo); intros prompt.
  destruct images as [l|].
  - right. eexists. unfold io_bind, io_call, AIServiceV1.parseIO, io_lift.
    match goal with
    | |- context [createCompletion backend ?r] =>
        destruct (createCompletion backend r) as [text|e]; cbn
    end;
    (split; [reflexivity|]); eauto.
  - left. cbn. eauto.
Qed.

Lemma handler_outcome backend now this images modelNumber additionalInfo :
  let m := AIService.analyze backend now this images modelNumber additionalInfo in
  AIService.analyzeProductImages backend now this images modelNumber additionalInfo =
  match snd m with
  | Return r => (fst m, Return r)
  | Throw _ => (fst m ++ [ConsoleError "AI analysis error:"], Throw analysisFailed)
  end.
Proof.
  unfold AIService.analyzeProductImages, io_try. cbv zeta.
  destruct (AIService.analyze _ _ _ _ _ _) as [tr [r|e]]; reflexivity.
Qed.

Lemma handlerV1_outcome backend now this images modelNumber additionalInfo :
  let m := AIServiceV1.analyze backend now this images modelNumber additionalInfo in
  AIServiceV1.analyzeProductImages backend now this images modelNumber additionalInfo =
  match snd m with
  | Return r => (fst m, Return r)
  | Throw _ => (fst m ++ [ConsoleError "AI analysis error:"], Throw analysisFailed)
  end.
Proof.
  unfold AIServiceV1.analyzeProductImages, io_try. cbv zeta.
  destruct (AIServiceV1.analyze _ _ _ _ _ _) as [tr [r|e]]; reflexivity.
Qed.

Lemma parsed_provider text provider now r :
  AIService.parseAIResponse text provider now = Return r ->
  AIService.aiProvider r = provider /\ AIService.generatedAt r = now.
Proof.
  intros Hr.
  destruct (parse_cases text provider now) as (r' & Hr' & Hc).
  rewrite Hr in Hr'. apply return_inj in Hr'. subst r'.
  destruct Hc as [[_ Hok] | (_ & -> & _)]; [|split; reflexivity].
  destruct (parse_ok_inv _ _ _ _ Hr Hok)
    as (json & parsed & t & c & mn & mx & cf & _ & _ & _ & _ & _ & _ & _ & ->).
  split; reflexivity.
Qed.

Lemma parsedV1_provider text provider now r :
  AIServiceV1.parseAIResponse text provider now = Return r ->
  AIServiceV1.aiProvider r = provider /\ AIServiceV1.generatedAt r = now.
Proof.
  intros Hr.
  destruct (parseV1_cases text provider now) as (r' & Hr' & Hc).
  rewrite Hr in Hr'. apply return_inj in Hr'. subst r'.
  destruct Hc as [[_ Hok] | (_ & -> & _)]; [|split; reflexivity].
  destruct (parseV1_ok_inv _ _ _ _ Hr Hok)
    as (json & parsed & t & c & mn & mx & cf & _ & _ & _ & _ & _ & _ & _ & ->).
  split; reflexivity.
Qed.

(** What [analyze] returns was read by [parseAIResponse] from some text,
    under the name of the configured provider. *)
Lemma analyze_returns_parsed backend now this images modelNumber additionalInfo r :
  snd (AIService.analyze backend now this images modelNumber additionalInfo) = Return r ->
  exists text provider,
    AIService.parseAIResponse text provider now = Return r /\
    provider = AIService.preferredProvider this /\
    In provider [lit "gemini"; lit "openai"].
Proof.
  unfold AIService.analyze.
  destruct (noImages images && negb (truthy modelNumber)); [discriminate|].
  destruct (str_eqb (AIService.preferredProvider this) "gemini") eqn:Hg; cbn [andb].
  - apply str_eqb_eq in Hg.
    destruct (AIService.geminiModel this).
    + destruct (analyzeWithGemini_cases backend now this images modelNumber additionalInfo)
        as (p & parts & [[_ [e He]] | [_ [[e He] | [text Ht]]]]);
        cbv zeta in *; intros H; try congruence.
      exists text, (lit "gemini"). rewrite <- Ht, H, Hg. cbn. auto.
    + destruct (str_eqb (AIService.preferredProvider this) "openai") eqn:Ho;
        [|discriminate].
      apply str_eqb_eq in Ho. rewrite Hg in Ho. vm_compute in Ho. discriminate.
  - destruct (str_eqb (AIService.preferredProvider this) "openai") eqn:Ho;
      [|discriminate].
    apply str_eqb_eq in Ho. cbn [andb].
    destruct (AIService.openai this); [|discriminate].
    destruct (analyzeWithGPT4_cases backend now this images modelNumber additionalInfo)
      as (request & _ & [[e He] | [text Ht]]);
      cbv zeta in *; intros H; try congruence.
    exists text, (lit "openai"). rewrite <- Ht, H, Ho. cbn. auto.
Qed.

Lemma analyzeV1_returns_parsed backend now this images modelNumber additionalInfo r :
  snd (AIServiceV1.analyze backend now this images modelNumber additionalInfo) = Return r ->
  exists text provider,
    AIServiceV1.parseAIResponse text provider now = Return r /\
    provider = AIServiceV1.preferredProvider this /\
    In provider [lit "gemini"; lit "openai"].
Proof.
  unfold AIServiceV1.analyze.
  destruct (str_eqb (AIServiceV1.preferredProvider this) "gemini") eqn:Hg; cbn [andb].
  - apply str_eqb_eq in Hg.
    destruct (AIServiceV1.geminiModel this).
    + destruct (analyzeWithGeminiV1_cases backend now this images modelNumber additionalInfo)
        as (p & parts & [[_ [e He]] | [_ [[e He] | [text Ht]]]]);
        cbv zeta in *; intros H; try congruence.
      exists text, (lit "gemini"). rewrite <- Ht, H, Hg. cbn. auto.
    + destruct (str_eqb (AIServiceV1.preferredProvider this) "openai") eqn:Ho;
        [|discriminate].
      apply str_eqb_eq in Ho. rewrite Hg in Ho. vm_compute in Ho. discriminate.
  - destruct (str_eqb (AIServiceV1.preferredProvider this) "openai") eqn:Ho;
      [|discriminate].
    apply str_eqb_eq in Ho. cbn [andb].
    destruct (AIServiceV1.openai this); [|discriminate].
    destruct (analyzeWithGPT4V1_cases backend now this images modelNumber additionalInfo)
      as [[_ [e He]] | (request & _ & [[e He] | [text Ht]])];
      cbv zeta in *; intros H; try congruence.
    exists text, (lit "openai"). rewrite <- Ht, H, Ho. cbn. auto.
Qed.

(** X6. A call of [analyzeProductImages] ends in one of two ways, whatever
    the arguments, the configuration and the answers from outside: it
    returns a record stamped with the configured provider, one of [gemini]
    and [openai], and with the time of the call, or it throws the one error
    [Failed to analyze product images] with status 500.  No other error
    leaves the service, in either generation. *)
Theorem analyzeProductImages_outcome (backend : Backend) (now : Date)
  (this : AIService.t) (old : AIServiceV1.t) (images : option (list jsstring))
  (modelNumber additionalInfo : option jsstring) :
  match snd (AIService.analyzeProductImages backend now this images modelNumber
               additionalInfo) with
  | Return r =>
      AIService.aiProvider r = AIService.preferredProvider this /\
      In (AIService.aiProvider r) [lit "gemini"; lit "openai"] /\
      AIService.generatedAt r = now
  | Throw e => e = analysisFailed
  end /\
  match snd (AIServiceV1.analyzeProductImages backend now old images modelNumber
               additionalInfo) with
  | Return r =>
      AIServiceV1.aiProvider r = AIServiceV1.preferredProvider old /\
      In (AIServiceV1.aiProvider r) [lit "gemini"; lit "openai"] /\
      AIServiceV1.generatedAt r = now
  | Throw e => e = analysisFailed
  end.
Proof.
  split.
  - rewrite handler_outcome. cbv zeta.
    destruct (snd (AIService.analyze backend now this images modelNumber additionalInfo))
      as [r|e] eqn:Hm; cbn [snd]; [|reflexivity].
    apply analyze_returns_parsed in Hm as (text & provider & Hp & Hpp & Hin).
    apply parsed_provider in Hp as [Hp Hn]. rewrite Hp. subst provider. auto.
  - rewrite handlerV1_outcome. cbv zeta.
    destruct (snd (AIServiceV1.analyze backend now old images modelNumber additionalInfo))
      as [r|e] eqn:Hm; cbn [snd]; [|reflexivity].
    apply analyzeV1_returns_parsed in Hm as (text & provider & Hp & Hpp & Hin).
    apply parsedV1_provider in Hp as [Hp Hn]. rewrite Hp. subst provider. auto.
Qed.

Lemma analyze_events backend now this images modelNumber additionalInfo :
  exists calls,
    fst (AIService.analyze backend now this images modelNumber additionalInfo) =
      map Fetch
        (if str_eqb (AIService.preferredProvider this) "gemini" && AIService.geminiModel this
         then urls images else []) ++ calls /\
    (calls = [] \/ exists ev, calls = [ev] /\ is_provider_call ev = true).
Proof.
  unfold AIService.analyze.
  destruct (noImages images && negb (truthy modelNumber)) eqn:Hr.
  - exists []. split; [|auto]. apply andb_prop in Hr as [Hn _].
    rewrite (noImages_urls _ Hn). now destruct (_ && _).
  - destruct (str_eqb (AIService.preferredProvider this) "gemini" &&
              AIService.geminiModel this).
    + destruct (analyzeWithGemini_cases backend now this images modelNumber additionalInfo)
        as (p & parts & [[Hf _] | [Hf _]]); cbv zeta in Hf; rewrite Hf.
      * exists []. rewrite app_nil_r. auto.
      * eexists. split; [reflexivity|]. right. eauto.
    + destruct (str_eqb (AIService.preferredProvider this) "openai" && AIService.openai this).
      * destruct (analyzeWithGPT4_cases backend now this images modelNumber additionalInfo)
          as (request & Hf & _); cbv zeta in Hf; rewrite Hf.
        eexists. split; [reflexivity|]. right. eauto.
      * exists []. auto.
Qed.

Lemma analyzeV1_events backend now this images modelNumber additionalInfo :
  exists calls,
    fst (AIServiceV1.analyze backend now this images modelNumber additionalInfo) =
      map Fetch
        (if str_eqb (AIServiceV1.preferredProvider this) "gemini" &&
            AIServiceV1.geminiModel this
         then urls images else []) ++ calls /\
    (calls = [] \/ exists ev, calls = [ev] /\ is_provider_call ev = true).
Proof.
  unfold AIServiceV1.analyze.
  destruct (str_eqb (AIServiceV1.preferredProvider this) "gemini" &&
            AIServiceV1.geminiModel this).
  - destruct (analyzeWithGeminiV1_cases backend now this images modelNumber additionalInfo)
      as (p & parts & [[Hf _] | [Hf _]]); cbv zeta in Hf; rewrite Hf.
    + exists []. rewrite app_nil_r. auto.
    + eexists. split; [reflexivity|]. right. eauto.
  - destruct (str_eqb (AIServiceV1.preferredProvider this) "openai" &&
              AIServiceV1.openai this).
    + destruct (analyzeWithGPT4V1_cases backend now this images modelNumber additionalInfo)
        as [[Hf _] | (request & Hf & _)]; cbv zeta in Hf; rewrite Hf.
      * exists []. auto.
      * eexists. split; [reflexivity|]. right. eauto.
    + exists []. auto.
Qed.

Lemma external_fetches (l : list jsstring) (rest : list event) :
  filter is_external (map Fetch l ++ rest) = map Fetch l ++ filter is_external rest.
Proof.
  induction l as [|u l IH]; [reflexivity|].
  cbn [map app filter is_external]. now rewrite IH.
Qed.

Lemma external_calls (calls : list event) :
  calls = [] \/ (exists ev, calls = [ev] /\ is_provider_call ev = true) ->
  filter is_external (calls ++ [ConsoleError "AI analysis error:"]) = calls /\
  filter is_external calls = calls.
Proof.
  intros [-> | (ev & -> & Hev)]; [split; reflexivity|].
  destruct ev; try discriminate; split; reflexivity.
Qed.

(** X7. What a call of [analyzeProductImages] does outside, in order: with
    Gemini configured it fetches every image once, in the order given, also
    after a fetch that fails; with OpenAI it fetches nothing.  Then comes at
    most one request to a provider: never a second one, and never one to
    the provider that is not the configured one.  The same holds of the
    first generation. *)
Theorem analyzeProductImages_external_calls (backend : Backend) (now : Date)
  (this : AIService.t) (old : AIServiceV1.t) (images : option (list jsstring))
  (modelNumber additionalInfo : option jsstring) :
  (exists calls,
     filter is_external
       (fst (AIService.analyzeProductImages backend now this images modelNumber
               additionalInfo)) =
       map Fetch
         (if str_eqb (AIService.preferredProvider this) "gemini" &&
             AIService.geminiModel this
          then urls images else []) ++ calls /\
     (calls = [] \/ exists ev, calls = [ev] /\ is_provider_call ev = true)) /\
  (exists calls,
     filter is_external
       (fst (AIServiceV1.analyzeProductImages backend now old images modelNumber
               additionalInfo)) =
       map Fetch
         (if str_eqb (AIServiceV1.preferredProvider old) "gemini" &&
             AIServiceV1.geminiModel old
          then urls images else []) ++ calls /\
     (calls = [] \/ exists ev, calls = [ev] /\ is_provider_call ev = true)).
Proof.
  split.
  - destruct (analyze_events backend now this images modelNumber additionalInfo)
      as (calls & Hf & Hc).
    destruct (external_calls calls Hc) as [Hlog Hnolog].
    rewrite handler_outcome. cbv zeta. rewrite Hf. exists calls. split; [|exact Hc].
    destruct (snd (AIService.analyze _ _ _ _ _ _)); cbn [fst];
      rewrite <- ?app_assoc, external_fetches; congruence.
  - destruct (analyzeV1_events backend now old images modelNumber additionalInfo)
      as (calls & Hf & Hc).
    destruct (external_calls calls Hc) as [Hlog Hnolog].
    rewrite handlerV1_outcome. cbv zeta. rewrite Hf. exists calls. split; [|exact Hc].
    destruct (snd (AIServiceV1.analyze _ _ _ _ _ _)); cbn [fst];
      rewrite <- ?app_assoc, external_fetches; congruence.
Qed.

Lemma io_all_throws {A B} (f : A -> io B) (l : list A) (a : A) (e : exn) :
  In a l -> snd (f a) = Throw e -> exists e', snd (io_all f l) = Throw e'.
Proof.
  induction l as [|b l IH]; intros Hin He; [contradiction|].
  cbn [io_all]. destruct (f b) as [tr r] eqn:Hb.
  destruct (io_all f l) as [tr' rs] eqn:Hl. cbn [snd] in *.
  destruct Hin as [-> | Hin].
  - rewrite Hb in He. cbn [snd] in He. subst r. eauto.
  - destruct (IH Hin He) as [e' ->]. destruct r; eauto.
Qed.

(** X8. With Gemini configured, one image that cannot be fetched fails the
    whole call: every image is still fetched, the provider is not called,
    and the call throws the uniform error. *)
Theorem one_failed_fetch_fails_the_call (backend : Backend) (now : Date)
  (this : AIService.t) (l : list jsstring) (url : jsstring) (e : exn)
  (modelNumber additionalInfo : option jsstring) :
  str_eqb (AIService.preferredProvider this) "gemini" = true ->
  AIService.geminiModel this = true ->
  In url l ->
  fetchImage backend url = Throw e ->
  AIService.analyzeProductImages backend now this (Some l) modelNumber additionalInfo =
    (map Fetch l ++ [ConsoleError "AI analysis error:"], Throw analysisFailed).
Proof.
  intros Hp Hg Hin He.
  rewrite handler_outcome. cbv zeta.
  unfold AIService.analyze. rewrite Hp, Hg.
  destruct l as [|u l']; [contradiction|].
  cbn [noImages andb]. unfold AIService.analyzeWithGemini. cbn [noImages urls].
  pose proof (io_all_fetches backend (u :: l')) as Hf.
  destruct (io_all_throws (AIService.toInlineData backend) (u :: l') url e Hin) as [e' He'].
  { unfold AIService.toInlineData, io_bind, io_call. now rewrite He. }
  destruct (io_all (AIService.toInlineData backend) (u :: l')) as [tr r].
  cbn [fst snd] in *. subst tr r. reflexivity.
Qed.

Lemma one_failed_fetch_fails_the_call_witness :
  AIService.analyzeProductImages
    {| fetchImage := fun url =>
         if str_eqb url "http://b" then Throw (Error "ECONNREFUSED")
         else Return (lit "AAAA", None);
       generateContent := fun _ _ => Return (lit "{}");
       createCompletion := fun _ => Return (lit "{}") |}
    0%Z
    {| AIService.geminiModel := true;
       AIService.preferredProvider := "gemini";
       AIService.openai := true |}
    (Some [lit "http://a"; lit "http://b"; lit "http://c"]) None None =
  ([Fetch "http://a"; Fetch "http://b"; Fetch "http://c";
    ConsoleError "AI analysis error:"], Throw analysisFailed).
Proof.
  apply (one_failed_fetch_fails_the_call
           {| fetchImage := fun url =>
                if str_eqb url "http://b" then Throw (Error "ECONNREFUSED")
                else Return (lit "AAAA", None);
              generateContent := fun _ _ => Return (lit "{}");
              createCompletion := fun _ => Return (lit "{}") |}
           0%Z
           {| AIService.geminiModel := true;
              AIService.preferredProvider := "gemini";
              AIService.openai := true |}
           [lit "http://a"; lit "http://b"; lit "http://c"] "http://b"
           (Error "ECONNREFUSED") None None).
  - reflexivity.
  - reflexivity.
  - right. left. reflexivity.
  - reflexivity.
Defined.

(** X9. When the configured provider has no client, the call fails without
    a fetch and without a request, whatever the arguments: the service does
    not turn to the other provider, even if that one has its client. *)
Theorem unconfigured_provider_makes_no_call (backend : Backend) (now : Date)
  (this : AIService.t) (images : option (list jsstring))
  (modelNumber additionalInfo : option jsstring) :
  configured this = false ->
  AIService.analyzeProductImages backend now this images modelNumber additionalInfo =
    ([ConsoleError "AI analysis error:"], Throw analysisFailed).
Proof.
  unfold configured. intros H. apply orb_false_iff in H as [Hg Ho].
  rewrite handler_outcome. cbv zeta. unfold AIService.analyze. rewrite Hg, Ho.
  destruct (noImages images && negb (truthy modelNumber)); reflexivity.
Qed.

Lemma unconfigured_provider_makes_no_call_witness :
  AIService.analyzeProductImages
    {| fetchImage := fun _ => Return (lit "AAAA", None);
       generateContent := fun _ _ => Return (lit "{}");
       createCompletion := fun _ => Return (lit "{}") |}
    0%Z
    {| AIService.geminiModel := false;
       AIService.preferredProvider := "gemini";
       AIService.openai := true |}
    (Some [lit "http://a"]) (Some (lit "A1")) None =
  ([ConsoleError "AI analysis error:"], Throw analysisFailed).
Proof.
  apply (unconfigured_provider_makes_no_call
           {| fetchImage := fun _ => Return (lit "AAAA", None);
              generateContent := fun _ _ => Return (lit "{}");
              createCompletion := fun _ => Return (lit "{}") |}
           0%Z
           {| AIService.geminiModel := false;
              AIService.preferredProvider := "gemini";
              AIService.openai := true |}
           (Some [lit "http://a"]) (Some (lit "A1")) None).
  reflexivity.
Defined.

(** ** Printing *)

Lemma value_nested_ind (P : value -> Prop)
  (Hu : P VUndefined) (Hn : P VNull) (Hb : forall b, P (VBool b))
  (Hnum : forall n, P (VNum n)) (Hs : forall s, P (VStr s))
  (Ha : forall elems, Forall P elems -> P (VArr elems))
  (Ho : forall props, P (VObj props))
  (Hf : forall name, P (VFunction name)) :
  forall v, P v.
Proof.
  fix IH 1. intros [ | | b | n | s | elems | props | name].
  - exact Hu.
  - exact Hn.
  - exact (Hb b).
  - exact (Hnum n).
  - exact (Hs s).
  - apply Ha. induction elems as [|x elems IHe].
    + constructor.
    + constructor; [exact (IH x) | exact IHe].
  - exact (Ho props).
  - exact (Hf name).
Qed.

Section PrintingFacts.

Variable numberToString : number -> jsstring.

Lemma printed_throw {A} (unprintable : bool) (c : completion A) :
  printed unprintable c -> throwsPrintingError c.
Proof. destruct c as [a|e]; cbn; [auto | intros [[H _] | H]; auto]. Qed.

Lemma sequence_throw {A} (l : list (completion A)) :
  Forall throwsPrintingError l -> throwsPrintingError (sequence l).
Proof.
  induction 1 as [|c l Hc _ IH]; [exact I|].
  cbn [sequence]. destruct c as [x|e]; cbn [bind]; [|exact Hc].
  destruct (sequence l); cbn [bind]; [exact I | exact IH].
Qed.

Lemma sequence_printed (f : value -> completion jsstring) (elems : list value) :
  Forall (fun x => printed (toStringThrows x) (f x)) elems ->
  printed (existsb toStringThrows elems) (sequence (map f elems)).
Proof.
  induction 1 as [|x elems Hx _ IH]; [reflexivity|].
  cbn [map sequence existsb]. destruct (f x) as [s|e]; cbn [bind printed] in *.
  - rewrite Hx. cbn [orb].
    destruct (sequence (map f elems)) as [strs|e]; cbn [bind printed] in *; exact IH.
  - destruct Hx as [[-> ->] | ->]; [left; split; reflexivity | right; reflexivity].
Qed.

(** [ToString] returns only on the values [toStringThrows] lets through, and
    throws a TypeError only on those it singles out; the other error is the
    RangeError of the stack. *)
Lemma ToString_cases (v : value) :
  forall depth, printed (toStringThrows v) (ToString numberToString depth v).
Proof.
  induction v as [ | | b | n | s | elems IH | props | name] using value_nested_ind;
    intros depth; try reflexivity.
  - destruct b; reflexivity.
  - cbn [toStringThrows ToString]. destruct depth as [|below]; [right; reflexivity|].
    set (elt := fun x : value => match x with
                                 | VUndefined | VNull => Return []
                                 | _ => ToString numberToString below x
                                 end).
    assert (H : printed (existsb toStringThrows elems) (sequence (map elt elems))).
    { apply sequence_printed. apply Forall_forall. intros x Hin.
      rewrite Forall_forall in IH. specialize (IH x Hin below).
      destruct x; try exact IH; reflexivity. }
    destruct (sequence (map elt elems)); exact H.
  - cbn [toStringThrows ToString].
    destruct (lookup (lit "toString") props); cbn; auto.
Qed.

Lemma ToString_throw (depth : nat) (v : value) :
  throwsPrintingError (ToString numberToString depth v).
Proof. exact (printed_throw _ _ (ToString_cases v depth)). Qed.

Lemma element_text_cases (depth : nat) (x : value) :
  printed (toStringThrows x) (element_text numberToString depth x).
Proof. destruct x; try apply ToString_cases; reflexivity. Qed.

(** [join] returns only when every element can be printed. *)
Lemma join_cases (depth : nat) (sep : jsstring) (l : list value) :
  printed (existsb toStringThrows l) (join numberToString depth sep l).
Proof.
  unfold join.
  assert (H : printed (existsb toStringThrows l)
                (sequence (map (element_text numberToString depth) l))).
  { apply sequence_printed. apply Forall_forall. intros x _.
    apply element_text_cases. }
  destruct (sequence (map (element_text numberToString depth) l)); exact H.
Qed.

Lemma join_throw (depth : nat) (sep : jsstring) (l : list value) :
  throwsPrintingError (join numberToString depth sep l).
Proof. exact (printed_throw _ _ (join_cases depth sep l)). Qed.

Lemma member_throw (o : value) (k : jsstring) : throwsPrintingError (member o k).
Proof. destruct o; cbn; auto. Qed.

Lemma bind_throw {A B} (c : completion A) (k : A -> completion B) :
  throwsPrintingError c -> (forall a, throwsPrintingError (k a)) ->
  throwsPrintingError (bind c k).
Proof. destruct c; cbn; auto. Qed.

End PrintingFacts.

(** ** The text helpers of the service *)

Section TextHelpers.

Variable numberToString : number -> jsstring.
Variable stack : nat.

Lemma bind_title {A} (c : completion A) (k : A -> completion jsstring) :
  throwsPrintingError c ->
  (forall a, match k a with
             | Return title => List.length title <= 200
             | Throw e => e = TypeError \/ e = RangeError
             end) ->
  match bind c k with
  | Return title => List.length title <= 200
  | Throw e => e = TypeError \/ e = RangeError
  end.
Proof. intros Hc Hk. destruct c as [a|e]; cbn; [apply Hk | exact Hc]. Qed.

(** X10. A title [generateTitle] returns has at most 200 code units,
    whatever the four arguments and whatever room the stack has.  The call
    can throw: a TypeError, when the details are [null] or a part cannot be
    printed, or the RangeError of the engine, when a part is an array nested
    deeper than the stack has room for. *)
Theorem generateTitle_at_most_200 (brand model category additionalDetails : value) :
  match generateTitle numberToString stack brand model category additionalDetails with
  | Return title => List.length title <= 200
  | Throw e => e = TypeError \/ e = RangeError
  end.
Proof.
  unfold generateTitle.
  apply bind_title. { destruct (strictEq _ _); [apply member_throw | exact I]. }
  intros storage.
  apply bind_title. { destruct (strictEq _ _); [apply member_throw | exact I]. }
  intros size.
  apply bind_title.
  { destruct (ToBoolean size); [|exact I].
    apply bind_throw; [apply ToString_throw | intros; exact I]. }
  intros sized.
  apply bind_title; [apply member_throw|]. intros color.
  apply bind_title; [apply join_throw|]. intros joined.
  unfold substring0. rewrite length_firstn. lia.
Qed.

(** X11. Without details, as the route [/generate-title] calls it, the
    title does not depend on the category: the handler answers the same for
    every category of the body. *)
Theorem generateTitle_route_ignores_category (valid : bool)
  (model_number brand category category' : value) :
  generateTitle numberToString stack brand model_number category VUndefined =
    generateTitle numberToString stack brand model_number category' VUndefined /\
  AiRoutes.generateTitleRoute numberToString stack valid model_number category brand =
    AiRoutes.generateTitleRoute numberToString stack valid model_number category' brand.
Proof.
  assert (H : forall b m c c',
             generateTitle numberToString stack b m c VUndefined =
             generateTitle numberToString stack b m c' VUndefined).
  { intros b m c c'. unfold generateTitle.
    destruct (strictEq c "Electronics"), (strictEq c' "Electronics"),
             (strictEq c "Fashion"), (strictEq c' "Fashion"); reflexivity. }
  split; [apply H|].
  unfold AiRoutes.generateTitleRoute. destruct valid; [|reflexivity].
  cbn [negb]. now rewrite (H _ _ _ (or_else category' (VStr "Product"))).
Qed.

(** X12. On the string fields of a body the handler of [/generate-title]
    never throws: the title is the brand and the model number with one space
    between them, cut to 200 code units; a field that is missing or empty
    adds nothing, no space either, and when both are missing the answer is a
    success with the empty title. *)
Theorem generateTitle_route_on_strings (brand model_number : option jsstring)
  (category : value) :
  AiRoutes.generateTitleRoute numberToString stack true
    (opt_value model_number) category (opt_value brand) =
  Return (Ok (substring0
                match truthy brand, truthy model_number with
                | true, true => text_of brand ++ lit " " ++ text_of model_number
                | true, false => text_of brand
                | false, true => text_of model_number
                | false, false => []
                end 200)).
Proof.
  unfold AiRoutes.generateTitleRoute, generateTitle. cbn [negb].
  destruct brand as [[|b0 b]|], model_number as [[|m0 m]|];
    cbn [opt_value or_else ToBoolean truthy text_of];
    destruct (strictEq _ "Electronics"), (strictEq _ "Fashion");
    cbn -[substring0]; rewrite ?app_nil_r; reflexivity.
Qed.

Lemma startsWith_app_self (d rest : jsstring) : startsWith (d ++ rest) d = true.
Proof.
  induction d as [|c d IH]; [destruct rest; reflexivity|].
  cbn [app startsWith]. now rewrite N.eqb_refl, IH.
Qed.

Lemma keywordParagraph_length (first3 all : jsstring) :
  List.length (keywordParagraph first3 all) =
  101 + List.length first3 + List.length all.
Proof.
  unfold keywordParagraph. rewrite !length_app.
  change (List.length (template [""; ""; "Perfect for those searching for "])) with 34.
  change (List.length (lit ". ")) with 2.
  change (List.length
            (lit "This listing includes everything shown in the photos. ")) with 54.
  change (List.length (lit "Keywords: ")) with 10.
  change (List.length (lit ".")) with 1.
  lia.
Qed.

Lemma existsb_firstn {A} (f : A -> bool) (n : nat) (l : list A) :
  existsb f l = false -> existsb f (firstn n l) = false.
Proof.
  revert n. induction l as [|x l IH]; intros [|n] H; try reflexivity.
  cbn [firstn existsb] in *. apply orb_false_iff in H as [Hx Hl].
  now rewrite Hx, IH.
Qed.

(** X13. [enhanceDescription] never alters the description it is given: on
    a string and an array of keywords the result starts with the
    description and is at least 101 code units longer, the closing paragraph
    being appended even when there is no keyword at all (the handler of
    [/enhance-description] then answers with the two lists empty).  The
    call returns only when every keyword can be printed; it throws a
    TypeError only when one cannot, and always when the keywords are not an
    array; the one other error is the RangeError of the engine, on a keyword
    nested deeper than the stack has room for. *)
Theorem enhanceDescription_appends (d : jsstring) (l : list value)
  (description keywords : value) :
  match enhanceDescription numberToString stack (VStr d) (VArr l) with
  | Return r =>
      startsWith r d = true /\ List.length d + 101 <= List.length r /\
      existsb toStringThrows l = false
  | Throw e => (e = TypeError /\ existsb toStringThrows l = true) \/ e = RangeError
  end /\
  match keywords with
  | VArr _ => True
  | _ => enhanceDescription numberToString stack description keywords = Throw TypeError
  end /\
  AiRoutes.enhanceDescriptionRoute numberToString stack true (VStr d) VUndefined =
    Return (Ok (d ++ template
      [""; "";
       "Perfect for those searching for . This listing includes everything shown in the photos. Keywords: ."])).
Proof.
  split; [|split].
  - unfold enhanceDescription.
    pose proof (join_cases numberToString stack ", " (firstn 3 l)) as H3.
    pose proof (join_cases numberToString stack ", " l) as Hl.
    destruct (join numberToString stack ", " (firstn 3 l)) as [first3|e]; cbn [bind].
    + destruct (join numberToString stack ", " l) as [all|e]; cbn [bind ToString];
        [|exact Hl].
      split; [apply startsWith_app_self|]. split; [|exact Hl].
      rewrite length_app, keywordParagraph_length. lia.
    + destruct H3 as [[-> H3] | ->]; [left | right; reflexivity].
      split; [reflexivity|].
      destruct (existsb toStringThrows l) eqn:E; [reflexivity|].
      rewrite (existsb_firstn _ 3 _ E) in H3. discriminate.
  - destruct keywords; try reflexivity; exact I.
  - reflexivity.
Qed.

End TextHelpers.

(** ** The user model *)

Lemma strictEq_iff (v : value) (s : jsstring) : strictEq v s = true <-> v = VStr s.
Proof.
  split.
  - destruct v; try discriminate. cbn. intros H. apply str_eqb_eq in H. now subst.
  - intros ->. apply str_eqb_refl.
Qed.

Lemma authProvider_cases (clerkUser : value) :
  match User.authProvider clerkUser with
  | Return p =>
      (p = lit "apple" /\
       get (opt_at0 (get clerkUser "externalAccounts")) "provider" = VStr "oauth_apple") \/
      (p = lit "google" /\
       get (opt_at0 (get clerkUser "externalAccounts")) "provider" <> VStr "oauth_apple")
  | Throw e => e = TypeError
  end.
Proof.
  unfold User.authProvider, member.
  destruct (requireObjectCoercible clerkUser) eqn:Hc; cbn [bind];
    [|destruct clerkUser; try discriminate; cbn in Hc; congruence].
  set (accounts := get clerkUser "externalAccounts").
  assert (Hsame : ToBoolean (get (opt_at0 accounts) "provider") = true ->
                  get (at0 accounts) "provider" = get (opt_at0 accounts) "provider").
  { destruct accounts; try reflexivity; discriminate. }
  destruct (ToBoolean (get (opt_at0 accounts) "provider")) eqn:Ht.
  - rewrite (Hsame eq_refl).
    destruct (strictEq (get (opt_at0 accounts) "provider") "oauth_apple") eqn:Ha.
    + left. split; [reflexivity|]. now apply strictEq_iff.
    + assert (Hne : get (opt_at0 accounts) "provider" <> VStr "oauth_apple").
      { intros E. apply strictEq_iff in E. congruence. }
      destruct (strictEq _ "oauth_google"); right; split; auto.
  - right. split; [reflexivity|]. intros E. rewrite E in Ht. discriminate.
Qed.

Lemma or_else_default_truthy (v d : value) :
  ToBoolean d = true -> ToBoolean (or_else v d) = true.
Proof. unfold or_else. intros Hd. destruct (ToBoolean v) eqn:Hv; assumption. Qed.

Section UserFacts.

Variable numberToString : number -> jsstring.
Variable stack : nat.

(** X14. The object [createFromClerk] hands to [create] meets two
    constraints of the schema for every Clerk user: [auth_provider] is one
    of [google] and [apple], and it is [apple] exactly when the provider of
    the first external account is the string [oauth_apple] (any other
    provider, or none, gives [google]); [name] is never empty, the word
    [User] standing in when the names and the user name are missing.  The
    call throws a TypeError on a user that is [null] or has no
    [emailAddresses], or whose name cannot be printed, and the RangeError of
    the engine on a name nested deeper than the stack has room for; it
    throws nothing else. *)
Theorem createFromClerk_provider_and_name (clerkUser : value) (now : Date) :
  match User.createFromClerk numberToString stack clerkUser now with
  | Return u =>
      In (User.auth_provider u) [lit "google"; lit "apple"] /\
      (User.auth_provider u = lit "apple" <->
       get (opt_at0 (get clerkUser "externalAccounts")) "provider" = VStr "oauth_apple") /\
      ToBoolean (User.name u) = true /\
      User.created_at u = now
  | Throw e => e = TypeError \/ e = RangeError
  end.
Proof.
  unfold User.createFromClerk.
  pose proof (authProvider_cases clerkUser) as Hp.
  destruct (User.authProvider clerkUser) as [p|e]; cbn [bind]; [|left; exact Hp].
  pose proof (ToString_throw numberToString stack
                (or_else (get clerkUser "firstName") (VStr ""))) as Hf.
  destruct (ToString numberToString stack (or_else (get clerkUser "firstName") (VStr "")))
    as [first|e]; cbn [bind]; [|exact Hf].
  pose proof (ToString_throw numberToString stack
                (or_else (get clerkUser "lastName") (VStr ""))) as Hl.
  destruct (ToString numberToString stack (or_else (get clerkUser "lastName") (VStr "")))
    as [last|e]; cbn [bind]; [|exact Hl].
  pose proof (member_throw clerkUser "emailAddresses") as Hm.
  destruct (member clerkUser "emailAddresses") as [emails|e]; cbn [bind]; [|exact Hm].
  destruct (requireObjectCoercible emails) eqn:He; cbn [bind];
    [|destruct emails; try discriminate; cbn in He; left; congruence].
  cbn [User.auth_provider User.name User.created_at].
  split; [|split; [|split; [|reflexivity]]].
  - destruct Hp as [[-> _] | [-> _]]; cbn; auto.
  - destruct Hp as [[-> Ha] | [-> Hg]]; split; intros H; auto;
      [vm_compute in H; discriminate | contradiction].
  - apply or_else_default_truthy. reflexivity.
Qed.

End UserFacts.

(** X15. The JSON form of a user never carries [clerkId], and every other
    property of the object is kept with its value. *)
Theorem toJSON_drops_clerkId_only (userObject : list (jsstring * value)) (k : jsstring) :
  lookup k (User.toJSON userObject) =
  if str_eqb k "clerkId" then None else lookup k userObject.
Proof.
  unfold User.toJSON. induction userObject as [|[k' v] rest IH].
  - cbn [User.delete lookup]. now destruct (str_eqb k "clerkId").
  - cbn [User.delete lookup].
    destruct (str_eqb "clerkId" k') eqn:Hk'.
    + apply str_eqb_eq in Hk'. subst k'. rewrite IH.
      destruct (str_eqb k "clerkId"); reflexivity.
    + cbn [lookup]. destruct (str_eqb k k') eqn:Hkk'.
      * apply str_eqb_eq in Hkk'. subst k'.
        destruct (str_eqb k "clerkId") eqn:Hk; [|reflexivity].
        apply str_eqb_eq in Hk. subst k. rewrite str_eqb_refl in Hk'. discriminate.
      * exact IH.
Qed.

(** ** The routes *)

Lemma trimStart_nil (s : jsstring) : trimStart s = [] -> all_white s = true.
Proof.
  unfold all_white. induction s as [|c s IH]; [reflexivity|].
  cbn [trimStart forallb]. destruct (is_StrWhiteSpaceChar c); [exact IH | discriminate].
Qed.

Lemma trimStart_white (s : jsstring) : all_white (trimStart s) = true -> all_white s = true.
Proof.
  unfold all_white. induction s as [|c s IH]; [reflexivity|].
  cbn [trimStart]. destruct (is_StrWhiteSpaceChar c) eqn:Hc.
  - intros H. cbn [forallb]. now rewrite Hc, IH.
  - cbn [forallb]. now rewrite Hc.
Qed.

Lemma all_white_app (a b : jsstring) : all_white (a ++ b) = all_white a && all_white b.
Proof. apply forallb_app. Qed.

Lemma all_white_rev (s : jsstring) : all_white (rev s) = all_white s.
Proof.
  unfold all_white. induction s as [|c s IH]; [reflexivity|].
  cbn [rev forallb]. rewrite forallb_app, IH. cbn [forallb].
  rewrite andb_true_r. apply andb_comm.
Qed.

(** [trim] leaves the empty string only of white space. *)
Lemma trim_nil (s : jsstring) : trim s = [] -> all_white s = true.
Proof.
  unfold trim, trimEnd. intros H.
  apply trimStart_white. rewrite <- all_white_rev. apply trimStart_nil.
  destruct (trimStart (rev (trimStart s))) as [|c t]; [reflexivity|].
  cbn [rev] in H. destruct (rev t); discriminate.
Qed.

Section RouteFacts.

Variable numberToString : number -> jsstring.
Variable stack : nat.

Lemma appended_throw (pieces : list (completion jsstring)) :
  Forall throwsPrintingError pieces -> throwsPrintingError (appended pieces).
Proof.
  intros H. unfold appended. apply bind_throw; [now apply sequence_throw|].
  intros; exact I.
Qed.

Lemma appended_cons_return (h : jsstring) (rest : list (completion jsstring)) :
  appended (Return h :: rest) = bind (appended rest) (fun s => Return (h ++ s)).
Proof.
  unfold appended. cbn [sequence bind]. destruct (sequence rest); reflexivity.
Qed.

Lemma block_throw (header : jsstring) (v : value) :
  throwsPrintingError (AiRoutes.block numberToString stack header v).
Proof.
  unfold AiRoutes.block. destruct (ToBoolean v); [|exact I].
  apply bind_throw; [apply ToString_throw | intros; exact I].
Qed.

Lemma line_throw (label : jsstring) (v : value) :
  throwsPrintingError (AiRoutes.line numberToString stack label v).
Proof.
  unfold AiRoutes.line. destruct (ToBoolean v); [|exact I].
  apply bind_throw; [apply ToString_throw | intros; exact I].
Qed.

Lemma joined_throw (label : jsstring) (l : list value) (tail : jsstring) :
  throwsPrintingError (AiRoutes.joined numberToString stack label l tail).
Proof.
  unfold AiRoutes.joined. destruct l; [exact I|].
  apply bind_throw; [apply join_throw | intros; exact I].
Qed.

Lemma keyFeaturesBlock_throw (features : list value) :
  throwsPrintingError (AiRoutes.keyFeaturesBlock numberToString stack features).
Proof.
  unfold AiRoutes.keyFeaturesBlock. destruct features as [|f fs]; [exact I|].
  apply bind_throw; [|intros; exact I].
  apply appended_throw. apply Forall_forall. intros c Hc.
  apply in_map_iff in Hc as (x & <- & _). unfold AiRoutes.featureLine.
  apply bind_throw; [apply ToString_throw | intros; exact I].
Qed.

Lemma seoKeywordsBlock_throw (keywords : AIService.SeoKeywords.t) :
  throwsPrintingError (AiRoutes.seoKeywordsBlock numberToString stack keywords).
Proof.
  unfold AiRoutes.seoKeywordsBlock. apply appended_throw.
  repeat constructor; apply joined_throw.
Qed.

(** The block of the specifications starts with its header on every
    record. *)
Lemma specificationsBlock_cases (specifications : option AIService.Specifications.t) :
  match AiRoutes.specificationsBlock numberToString stack specifications with
  | Return s => exists rest, s = AiRoutes.specificationsHeader ++ rest
  | Throw e => e = TypeError \/ e = RangeError
  end.
Proof.
  unfold AiRoutes.specificationsBlock. destruct specifications as [specs|]; [|eauto].
  rewrite appended_cons_return.
  match goal with
  | |- context [appended ?l] =>
      pose proof (appended_throw l) as Hs; destruct (appended l) as [s|e]
  end.
  - cbn [bind]. eauto.
  - cbn [bind]. apply Hs.
    repeat (constructor; [first [apply line_throw | exact I]|]). constructor.
Qed.

(** X16. The description the handlers of [/analyze-product] and
    [/analyze-url] answer with is always the text assembled from the
    sections of the analysis, trimmed.  That text holds the header of the
    specifications on every record, so it is never empty and the
    description of the analysis itself is never used in its place.
    Assembling throws a TypeError when a value of the payload cannot be
    printed, the RangeError of the engine when one is nested deeper than the
    stack has room for, and nothing else. *)
Theorem description_is_always_assembled (analysis : AIService.ListingContent) :
  match AiRoutes.descriptionOf numberToString stack analysis with
  | Return v =>
      exists full before rest,
        AiRoutes.fullDescription numberToString stack analysis = Return full /\
        full = before ++ AiRoutes.specificationsHeader ++ rest /\
        trim full <> [] /\
        v = VStr (trim full)
  | Throw e => e = TypeError \/ e = RangeError
  end.
Proof.
  unfold AiRoutes.descriptionOf, AiRoutes.fullDescription, appended.
  cbn [sequence].
  pose proof (block_throw [] (AIService.MarketplaceContent.productDescription
                                (AIService.marketplaceContent analysis))) as H1.
  destruct (AiRoutes.block numberToString stack [] _) as [p1|e]; cbn [bind]; [|exact H1].
  pose proof (keyFeaturesBlock_throw (AIService.MarketplaceContent.keyFeatures
                                        (AIService.marketplaceContent analysis))) as H2.
  destruct (AiRoutes.keyFeaturesBlock numberToString stack _) as [p2|e]; cbn [bind]; [|exact H2].
  pose proof (specificationsBlock_cases (AIService.specifications analysis)) as H3.
  destruct (AiRoutes.specificationsBlock numberToString stack _) as [p3|e]; cbn [bind];
    [|exact H3].
  destruct H3 as [rest3 ->].
  pose proof (block_throw AiRoutes.summaryHeader
                (AIService.MarketplaceContent.shortMarketplaceSummary
                   (AIService.marketplaceContent analysis))) as H4.
  destruct (AiRoutes.block numberToString stack AiRoutes.summaryHeader _) as [p4|e];
    cbn [bind]; [|exact H4].
  pose proof (block_throw AiRoutes.seoHeader
                (AIService.MarketplaceContent.longSeoDescription
                   (AIService.marketplaceContent analysis))) as H5.
  destruct (AiRoutes.block numberToString stack AiRoutes.seoHeader _) as [p5|e];
    cbn [bind]; [|exact H5].
  pose proof (seoKeywordsBlock_throw (AIService.MarketplaceContent.seoKeywords
                                        (AIService.marketplaceContent analysis))) as H6.
  destruct (AiRoutes.seoKeywordsBlock numberToString stack _) as [p6|e]; cbn [bind]; [|exact H6].
  pose proof (joined_throw AiRoutes.tagsHeader
                (AIService.MarketplaceContent.marketplaceTags
                   (AIService.marketplaceContent analysis)) (nl ++ nl)) as H7.
  destruct (AiRoutes.joined numberToString stack AiRoutes.tagsHeader _ _) as [p7|e];
    cbn [bind]; [|exact H7].
  cbn [List.concat].
  set (full := p1 ++ p2 ++ (AiRoutes.specificationsHeader ++ rest3) ++ p4 ++ p5 ++ p6 ++ p7 ++ []).
  assert (Hfull : full = (p1 ++ p2) ++ AiRoutes.specificationsHeader ++
                         (rest3 ++ p4 ++ p5 ++ p6 ++ p7 ++ [])).
  { unfold full. now rewrite <- !app_assoc. }
  assert (Hne : trim full <> []).
  { intros E. apply trim_nil in E. rewrite Hfull, !all_white_app in E.
    change (all_white AiRoutes.specificationsHeader) with false in E.
    rewrite andb_false_l, andb_false_r in E. discriminate. }
  exists full, (p1 ++ p2), (rest3 ++ p4 ++ p5 ++ p6 ++ p7 ++ []).
  repeat split; try assumption.
  unfold or_else, ToBoolean. destruct (trim full); [contradiction | reflexivity].
Qed.

Lemma or_else_trimmed (full : jsstring) (d : value) :
  all_white full = false -> or_else (VStr (trim full)) d = VStr (trim full).
Proof.
  intros H. unfold or_else, ToBoolean.
  destruct (trim full) eqn:E; [|reflexivity].
  apply trim_nil in E. congruence.
Qed.

(** X17. When the answer of the provider could not be read, the
    description the handler answers with is made of the first 500 code
    units of that answer, not of the 1000 the analysis keeps as its
    description, followed by the headers of the specifications and of the
    keywords with nothing under them. *)
Theorem description_of_degraded_analysis (text provider : jsstring) (now : Date) :
  AiRoutes.descriptionOf numberToString stack (AIService.fallback text provider now) =
  Return (VStr (trim (match substring0 text 500 with
                      | [] => []
                      | c :: t => (c :: t) ++ nl ++ nl
                      end ++
                      AiRoutes.specificationsHeader ++ nl ++
                      AiRoutes.keywordsHeader ++ nl))).
Proof.
  unfold AiRoutes.descriptionOf, AiRoutes.fullDescription.
  cbn [AIService.fallback AIService.marketplaceContent AIService.specifications
       AIService.description AIService.MarketplaceContent.productDescription
       AIService.MarketplaceContent.keyFeatures
       AIService.MarketplaceContent.shortMarketplaceSummary
       AIService.MarketplaceContent.longSeoDescription
       AIService.MarketplaceContent.seoKeywords
       AIService.MarketplaceContent.marketplaceTags].
  generalize (substring0 text 500) (substring0 text 1000). intros pd d.
  assert (Hfull : forall full,
             all_white (full ++ AiRoutes.specificationsHeader ++ nl ++
                        AiRoutes.keywordsHeader ++ nl) = false).
  { intros full. rewrite !all_white_app.
    change (all_white AiRoutes.specificationsHeader) with false.
    now rewrite andb_false_l, andb_false_r. }
  destruct pd as [|c t].
  - reflexivity.
  - change (VStr (lit "")) with (VStr (@nil codeunit)).
    cbn [AiRoutes.block ToBoolean ToString bind appended sequence
         AiRoutes.keyFeaturesBlock AiRoutes.specificationsBlock
         AiRoutes.seoKeywordsBlock AiRoutes.joined AIService.SeoKeywords.primary
         AIService.SeoKeywords.secondary AIService.SeoKeywords.longTail
         List.concat].
    match goal with
    | |- Return (or_else (VStr (trim ?f)) _) = Return (VStr (trim ?g)) =>
        assert (E : f = g)
    end.
    { cbn [app]. rewrite ?app_nil_r, <- ?app_assoc. reflexivity. }
    rewrite E. apply f_equal. apply or_else_trimmed. apply Hfull.
Qed.

(** X24. The assembled description opens with the product description of
    the analysis, followed by an empty line, whenever that description is a
    string with at least one code unit: nothing is put before it. *)
Theorem description_opens_with_product_description (analysis : AIService.ListingContent)
  (c : codeunit) (pd full : jsstring) :
  AIService.MarketplaceContent.productDescription (AIService.marketplaceContent analysis) =
    VStr (c :: pd) ->
  AiRoutes.fullDescription numberToString stack analysis = Return full ->
  startsWith full ((c :: pd) ++ nl ++ nl) = true.
Proof.
  intros Hpd. unfold AiRoutes.fullDescription. rewrite Hpd.
  change (AiRoutes.block numberToString stack [] (VStr (c :: pd)))
    with (Return (A := jsstring) ([] ++ (c :: pd) ++ nl ++ nl)).
  rewrite appended_cons_return.
  destruct (appended _) as [rest|e]; cbn [bind]; [|discriminate].
  intros H. apply return_inj in H. subst full.
  exact (startsWith_app_self ((c :: pd) ++ nl ++ nl) rest).
Qed.

End RouteFacts.

Lemma description_opens_with_product_description_witness :
  exists full,
    AiRoutes.fullDescription samplePrinter sampleStack
      (AIService.fallback "No JSON here" "gemini" 0%Z) = Return full /\
    startsWith full (lit "No JSON here" ++ nl ++ nl) = true.
Proof.
  destruct (AiRoutes.fullDescription samplePrinter sampleStack
              (AIService.fallback "No JSON here" "gemini" 0%Z)) as [full|e] eqn:Hf;
    [|vm_compute in Hf; discriminate].
  exists full. split; [reflexivity|].
  exact (description_opens_with_product_description samplePrinter sampleStack
           (AIService.fallback "No JSON here" "gemini" 0%Z)
           78%N (lit "o JSON here") full eq_refl Hf).
Defined.

Lemma service_outcome backend now this images modelNumber additionalInfo :
  match snd (AIService.analyzeProductImages backend now this images modelNumber
               additionalInfo) with
  | Return r =>
      exists text provider, AIService.parseAIResponse text provider now = Return r
  | Throw e => e = analysisFailed
  end.
Proof.
  rewrite handler_outcome. cbv zeta.
  destruct (snd (AIService.analyze backend now this images modelNumber additionalInfo))
    as [r|e] eqn:Hm; cbn [snd]; [|reflexivity].
  apply analyze_returns_parsed in Hm as (text & provider & Hp & _). eauto.
Qed.

Lemma parsed_condition text provider now r :
  AIService.parseAIResponse text provider now = Return r ->
  In (AIService.condition r) validConditions.
Proof.
  intros Hr.
  destruct (parse_cases text provider now) as (r' & Hr' & Hc).
  rewrite Hr in Hr'. apply return_inj in Hr'. subst r'.
  destruct Hc as [[_ Hok] | (_ & -> & _)]; [|apply good_canonical].
  destruct (parse_ok_inv _ _ _ _ Hr Hok)
    as (json & parsed & t & c & mn & mx & cf & _ & _ & _ & Hc & _ & _ & _ & ->).
  cbn [AIService.condition AIService.listing].
  eapply validateCondition_returns_canonical; eassumption.
Qed.

Lemma parsed_title text provider now r :
  AIService.parseAIResponse text provider now = Return r ->
  exists s, AIService.title r = VStr s /\ 1 <= List.length s <= 200.
Proof.
  intros Hr.
  destruct (parse_cases text provider now) as (r' & Hr' & Hc).
  rewrite Hr in Hr'. apply return_inj in Hr'. subst r'.
  destruct Hc as [[_ Hok] | (_ & -> & _)].
  - destruct (parse_ok_inv _ _ _ _ Hr Hok)
      as (json & parsed & t & c & mn & mx & cf & _ & _ & Ht & _ & _ & _ & _ & ->).
    apply (title_of_substring _ _ (lit "Product Listing") Ht). vm_compute; lia.
  - eexists. split; [reflexivity|]. vm_compute; lia.
Qed.

Lemma canonical_not_empty (c : jsstring) : In c validConditions -> conditionOrGood c = c.
Proof.
  intros H. vm_compute in H.
  repeat (destruct H as [<- | H]; [reflexivity|]). contradiction.
Qed.

Section HandlerFacts.

Variable numberToString : number -> jsstring.
Variable stack : nat.
Variable backend : Backend.
Variable now : Date.
Variable aiService : AIService.t.

Lemma listingData_throw (urls : list jsstring) (modelNumber : option jsstring)
  (analysis : AIService.ListingContent) :
  throwsPrintingError (AiRoutes.listingData numberToString stack urls modelNumber analysis).
Proof.
  unfold AiRoutes.listingData. apply bind_throw; [|intros; exact I].
  unfold AiRoutes.descriptionOf. apply bind_throw; [|intros; exact I].
  unfold AiRoutes.fullDescription. apply appended_throw.
  repeat constructor;
    first [apply block_throw | apply keyFeaturesBlock_throw
          | apply seoKeywordsBlock_throw | apply joined_throw | idtac].
  pose proof (specificationsBlock_cases numberToString stack (AIService.specifications analysis))
    as H.
  destruct (AiRoutes.specificationsBlock numberToString stack _); [exact I | exact H].
Qed.

(** How the handler runs once its two checks have passed. *)
Lemma analyzeProduct_run (req : Request) :
  valid req = true -> hasImages req || hasModelNumber req = true ->
  AiRoutes.analyzeProduct numberToString stack backend now aiService req =
  let service := AIService.analyzeProductImages backend now aiService
                   (Some (imageUrls req)) (modelNumber req) (additionalInfo req) in
  (fst service,
   match snd service with
   | Return analysis =>
       match AiRoutes.listingData numberToString stack (imageUrls req) (modelNumber req)
               analysis with
       | Return response =>
           Return (Ok {| AiRoutes.listing_data := response;
                         AiRoutes.analysis_details := analysis |})
       | Throw e => Throw e
       end
   | Throw e => Throw e
   end).
Proof.
  intros Hv Hg. unfold AiRoutes.analyzeProduct. rewrite Hv. cbn [negb].
  apply orb_true_iff in Hg.
  assert (Hn : negb (hasImages req) && negb (hasModelNumber req) = false).
  { destruct Hg as [-> | ->]; [reflexivity | apply andb_false_r]. }
  rewrite Hn. cbv zeta.
  destruct (AIService.analyzeProductImages backend now aiService _ _ _) as [tr [a|e]];
    cbn [io_bind fst snd]; [|reflexivity].
  unfold io_lift, io_ret.
  destruct (AiRoutes.listingData numberToString stack _ _ a); cbn; now rewrite ?app_nil_r.
Qed.

Lemma route_guard_passes (req : Request) :
  hasImages req || hasModelNumber req = true ->
  noImages (Some (imageUrls req)) && negb (truthy (modelNumber req)) = false.
Proof.
  unfold imageUrls, hasImages, hasModelNumber.
  destruct (files req) as [[|u l]|]; cbn [orb urls noImages andb]; try reflexivity;
    intros H; apply andb_prop in H as [-> _]; reflexivity.
Qed.

(** X18. The handler of [/analyze-product] and the service.  A request
    without a usable image and without a model number is answered 400, with
    the message naming what is missing, and nothing is called; so is one
    whose validation failed.  Every other request reaches the service with
    arguments that pass the service's own check, the handler does outside
    exactly what the service does, and it ends in one of three ways: the
    answer carries the record of the service, the uniform error of the
    service is thrown, or the service returned a record and assembling the
    description threw a TypeError or the RangeError of the engine. *)
Theorem analyzeProduct_and_the_service (req : Request) :
  match AiRoutes.analyzeProduct numberToString stack backend now aiService req with
  | (tr, Return ValidationFailed) => tr = [] /\ valid req = false
  | (tr, Return (BadRequest message)) =>
      tr = [] /\ message = lit "Either images or model number is required" /\
      hasImages req = false /\ hasModelNumber req = false
  | (tr, Return (Ok body)) =>
      noImages (Some (imageUrls req)) && negb (truthy (modelNumber req)) = false /\
      AIService.analyzeProductImages backend now aiService
        (Some (imageUrls req)) (modelNumber req) (additionalInfo req) =
        (tr, Return (AiRoutes.analysis_details body))
  | (tr, Throw e) =>
      noImages (Some (imageUrls req)) && negb (truthy (modelNumber req)) = false /\
      tr = fst (AIService.analyzeProductImages backend now aiService
                  (Some (imageUrls req)) (modelNumber req) (additionalInfo req)) /\
      (e = analysisFailed \/
       (e = TypeError \/ e = RangeError) /\
       exists analysis,
         snd (AIService.analyzeProductImages backend now aiService
                (Some (imageUrls req)) (modelNumber req) (additionalInfo req)) =
         Return analysis)
  end.
Proof.
  destruct (valid req) eqn:Hv.
  2:{ unfold AiRoutes.analyzeProduct. rewrite Hv. cbn. auto. }
  destruct (hasImages req || hasModelNumber req) eqn:Hg.
  2:{ unfold AiRoutes.analyzeProduct. rewrite Hv. cbn [negb].
      apply orb_false_iff in Hg as [Hi Hm]. rewrite Hi, Hm. cbn. auto. }
  rewrite (analyzeProduct_run req Hv Hg). cbv zeta.
  pose proof (route_guard_passes req Hg) as Hpass.
  pose proof (service_outcome backend now aiService (Some (imageUrls req))
                (modelNumber req) (additionalInfo req)) as Hs.
  destruct (AIService.analyzeProductImages backend now aiService _ _ _) as [tr [a|e]];
    cbn [fst snd] in *.
  - pose proof (listingData_throw (imageUrls req) (modelNumber req) a) as Hl.
    destruct (AiRoutes.listingData numberToString stack _ _ a) as [response|e].
    + cbn [AiRoutes.analysis_details]. auto.
    + cbn in Hl. split; [exact Hpass|]. split; [reflexivity|]. right.
      split; [exact Hl | eauto].
  - subst e. auto.
Qed.

(** X19. What the handler of [/analyze-product] answers with, when it
    answers 200: the condition is the one of the analysis, one of the seven
    canonical values, so the default of the handler is never taken; the
    title is a string of 1 to 200 code units; and the main photo followed by
    the additional photos is the list of the uploaded images, in order, the
    main photo being the empty string when there is none. *)
Theorem analyzeProduct_answer (req : Request) :
  match snd (AiRoutes.analyzeProduct numberToString stack backend now aiService req) with
  | Return (Ok body) =>
      let response := AiRoutes.listing_data body in
      AiRoutes.condition response = AIService.condition (AiRoutes.analysis_details body) /\
      In (AiRoutes.condition response) validConditions /\
      (exists s, AiRoutes.title response = VStr s /\ 1 <= List.length s <= 200) /\
      match imageUrls req with
      | [] => AiRoutes.photo_url response = [] /\ AiRoutes.additional_photos response = []
      | _ :: _ =>
          AiRoutes.photo_url response :: AiRoutes.additional_photos response =
          imageUrls req
      end
  | _ => True
  end.
Proof.
  destruct (valid req) eqn:Hv.
  2:{ unfold AiRoutes.analyzeProduct. rewrite Hv. exact I. }
  destruct (hasImages req || hasModelNumber req) eqn:Hg.
  2:{ unfold AiRoutes.analyzeProduct. rewrite Hv. cbn [negb].
      apply orb_false_iff in Hg as [Hi Hm]. rewrite Hi, Hm. exact I. }
  rewrite (analyzeProduct_run req Hv Hg). cbv zeta. cbn [snd].
  pose proof (service_outcome backend now aiService (Some (imageUrls req))
                (modelNumber req) (additionalInfo req)) as Hs.
  destruct (snd (AIService.analyzeProductImages backend now aiService _ _ _)) as [a|e];
    [|exact I].
  destruct Hs as (text & provider & Hp).
  unfold AiRoutes.listingData.
  destruct (AiRoutes.descriptionOf numberToString stack a) as [d|e]; cbn [bind]; [|exact I].
  cbv zeta. cbn [AiRoutes.listing_data AiRoutes.analysis_details AiRoutes.condition
                 AiRoutes.title AiRoutes.photo_url AiRoutes.additional_photos].
  pose proof (parsed_condition _ _ _ _ Hp) as Hc.
  rewrite (canonical_not_empty _ Hc).
  split; [reflexivity|]. split; [exact Hc|]. split; [exact (parsed_title _ _ _ _ Hp)|].
  destruct (imageUrls req); cbn; auto.
Qed.

End HandlerFacts.

Lemma parsed_category text provider now r :
  AIService.parseAIResponse text provider now = Return r ->
  ToBoolean (AIService.Category.main (AIService.category r)) = true.
Proof.
  intros Hr.
  destruct (parse_cases text provider now) as (r' & Hr' & Hc).
  rewrite Hr in Hr'. apply return_inj in Hr'. subst r'.
  destruct Hc as [[_ Hok] | (_ & -> & _)]; [|reflexivity].
  destruct (parse_ok_inv _ _ _ _ Hr Hok)
    as (json & parsed & t & c & mn & mx & cf & _ & _ & _ & _ & _ & _ & _ & ->).
  cbn [AIService.category AIService.listing AIService.Category.main].
  apply or_else_default_truthy. reflexivity.
Qed.

Section EarlierRoutes.

Variable backend : Backend.
Variable now : Date.

(** X20. The routes that copy the analysis ([ai_metadata]): when the
    handler of [/analyze-product] answers 200, the description is the one
    of the analysis, the category of the summary is the main category of
    the analysis and never the empty default, and the condition is one of
    the seven canonical values.  The only error the handler throws is the
    uniform error of the service. *)
Theorem analyzeProduct_summary (aiService : AIService.t) (req : Request) :
  match snd (AiRoutesV2.analyzeProduct backend now aiService req) with
  | Return (Ok body) =>
      let response := AiRoutesV2.listing_data body in
      let analysis := AiRoutesV2.analysis_details body in
      AiRoutesV2.description response = AIService.description analysis /\
      AiRoutesV2.category (AiRoutesV2.ai_metadata response) =
        AIService.Category.main (AIService.category analysis) /\
      ToBoolean (AiRoutesV2.category (AiRoutesV2.ai_metadata response)) = true /\
      In (AiRoutesV2.condition (AiRoutesV2.ai_metadata response)) validConditions
  | Return _ => True
  | Throw e => e = analysisFailed
  end.
Proof.
  unfold AiRoutesV2.analyzeProduct.
  destruct (valid req); cbn [negb]; [|exact I].
  destruct (negb (hasImages req) && negb (hasModelNumber req)); [exact I|].
  pose proof (service_outcome backend now aiService (Some (imageUrls req))
                (modelNumber req) (additionalInfo req)) as Hs.
  destruct (AIService.analyzeProductImages backend now aiService _ _ _) as [tr [a|e]];
    cbn [io_bind io_ret fst snd] in *; [|exact Hs].
  destruct Hs as (text & provider & Hp).
  cbv zeta.
  cbn [AiRoutesV2.listing_data AiRoutesV2.analysis_details AiRoutesV2.listingData
       AiRoutesV2.description AiRoutesV2.ai_metadata AiRoutesV2.category
       AiRoutesV2.condition].
  pose proof (parsed_category _ _ _ _ Hp) as Hc.
  rewrite (or_else_truthy _ _ Hc).
  split; [reflexivity|]. split; [reflexivity|]. split; [exact Hc|].
  exact (parsed_condition _ _ _ _ Hp).
Qed.

Lemma serviceV1_outcome (old : AIServiceV1.t) images modelNumber additionalInfo :
  match snd (AIServiceV1.analyzeProductImages backend now old images modelNumber
               additionalInfo) with
  | Return r => True
  | Throw e => e = analysisFailed
  end.
Proof.
  rewrite handlerV1_outcome. cbv zeta.
  destruct (snd (AIServiceV1.analyze backend now old images modelNumber additionalInfo));
    cbn [snd]; [exact I | reflexivity].
Qed.

(** X21. The first routes require an image: a request without one is
    answered 400 and nothing is called, a model number alone being refused;
    every other request reaches the first generation of the service with a
    list of at least one image, so that the service never meets a missing
    list.  The answer then carries the record of the service, the first
    image as main photo and the others, in order, as additional photos;
    the only error thrown is the uniform error of the service. *)
Theorem first_routes_require_an_image (old : AIServiceV1.t) (req : Request) :
  match AiRoutesV1.analyzeProduct backend now old req with
  | (tr, Return ValidationFailed) => tr = [] /\ valid req = false
  | (tr, Return (BadRequest message)) =>
      tr = [] /\ message = lit "At least one image is required" /\
      noImages (files req) = true
  | (tr, Return (Ok body)) =>
      exists u l,
        files req = Some (u :: l) /\
        AIServiceV1.analyzeProductImages backend now old (Some (u :: l))
          (modelNumber req) (additionalInfo req) =
          (tr, Return (AiRoutesV1.analysis_details body)) /\
        AiRoutesV1.photo_url (AiRoutesV1.listing_data body) = VStr u /\
        AiRoutesV1.additional_photos (AiRoutesV1.listing_data body) = l
  | (tr, Throw e) =>
      e = analysisFailed /\
      exists u l,
        files req = Some (u :: l) /\
        tr = fst (AIServiceV1.analyzeProductImages backend now old (Some (u :: l))
                    (modelNumber req) (additionalInfo req))
  end.
Proof.
  unfold AiRoutesV1.analyzeProduct.
  destruct (valid req); cbn [negb]; [|cbn; auto].
  destruct (files req) as [[|u l]|] eqn:Hf; cbn [noImages]; try (cbn; auto; fail).
  cbv zeta. cbn [urls].
  pose proof (serviceV1_outcome old (Some (u :: l)) (modelNumber req) (additionalInfo req))
    as Hs.
  destruct (AIServiceV1.analyzeProductImages backend now old _ _ _) as [tr [a|e]] eqn:Hsvc;
    cbn [io_bind io_ret fst snd] in *.
  - rewrite app_nil_r. exists u, l. rewrite Hsvc. repeat split; reflexivity.
  - split; [exact Hs|]. exists u, l. rewrite Hsvc. split; reflexivity.
Qed.

End EarlierRoutes.

(** ** The category of the first generation *)

(** X22. In the first generation a payload whose [category] is a string
    instead of an object is read into a record whose main category is the
    default [Other], whose tags are empty, and whose sub-category is no
    string at all: [parsed.category?.sub] finds the method [sub] that every
    string inherits, and the default is not taken. *)
Theorem string_category_reads_a_method (text provider json s : jsstring) (now : Date)
  (parsed : value) (r : AIServiceV1.ListingContent) :
  match_braces text = Some json ->
  JSON_parse json = Return parsed ->
  get parsed "category" = VStr s ->
  AIServiceV1.parseAIResponse text provider now = Return r ->
  parseFailedV1 r = false ->
  AIServiceV1.Category.sub (AIServiceV1.category r) = VFunction "sub" /\
  AIServiceV1.Category.main (AIServiceV1.category r) = VStr "Other" /\
  AIServiceV1.Category.tags (AIServiceV1.category r) = [].
Proof.
  intros Hm Hp Hcat Hr Hok.
  destruct (parseV1_ok_inv _ _ _ _ Hr Hok)
    as (json' & parsed' & t & c & mn & mx & cf & Hm' & Hp' & _ & _ & _ & _ & _ & ->).
  rewrite Hm in Hm'. inversion Hm'; subst json'.
  rewrite Hp in Hp'. apply return_inj in Hp'. subst parsed'.
  cbn [AIServiceV1.category AIServiceV1.listing AIServiceV1.Category.sub
       AIServiceV1.Category.main AIServiceV1.Category.tags].
  rewrite Hcat. repeat split.
Qed.

Lemma string_category_reads_a_method_witness :
  exists r,
    AIServiceV1.parseAIResponse stringCategoryText "gemini" 0%Z = Return r /\
    AIServiceV1.Category.sub (AIServiceV1.category r) = VFunction "sub" /\
    AIServiceV1.Category.main (AIServiceV1.category r) = VStr "Other" /\
    AIServiceV1.Category.tags (AIServiceV1.category r) = [].
Proof.
  destruct (JSON_parse stringCategoryText) as [parsed|e] eqn:Hp;
    [|vm_compute in Hp; discriminate].
  destruct (AIServiceV1.parseAIResponse stringCategoryText "gemini" 0%Z) as [r|e] eqn:Hr;
    [|vm_compute in Hr; discriminate].
  assert (Hm : match_braces stringCategoryText = Some stringCategoryText)
    by (vm_compute; reflexivity).
  assert (Hcat : get parsed "category" = VStr "Electronics").
  { vm_compute in Hp. apply return_inj in Hp. subst parsed. vm_compute. reflexivity. }
  assert (Hok : parseFailedV1 r = false).
  { vm_compute in Hr. apply return_inj in Hr. subst r. reflexivity. }
  exists r. split; [reflexivity|].
  exact (string_category_reads_a_method stringCategoryText "gemini" stringCategoryText
           "Electronics" 0%Z parsed r Hm Hp Hcat Hr Hok).
Defined.

(** ** The route [/analyze-url] *)

Section AnalyzeUrl.

Variable numberToString : number -> jsstring.
Variable stack : nat.
Variable backend : Backend.
Variable now : Date.
Variable aiService : AIService.t.

(** X23. The handler of [/analyze-url] hands the service the one address
    of the body, the model number, and never a free-form context; it sends
    no 400 of its own once the validation has passed.  It does outside
    exactly what the service does with these arguments, and answers with the
    record of the service and the address as main photo, or throws the
    uniform error of the service, or the TypeError or RangeError of the
    assembled description. *)
Theorem analyzeUrl_and_the_service (image_url : jsstring) (model_number : option jsstring) :
  match AiRoutes.analyzeUrl numberToString stack backend now aiService true image_url
          model_number with
  | (tr, Return (Ok body)) =>
      AIService.analyzeProductImages backend now aiService (Some [image_url])
        model_number None = (tr, Return (AiRoutes.analysis_details body)) /\
      AiRoutes.photo_url (AiRoutes.listing_data body) = image_url
  | (tr, Return _) => False
  | (tr, Throw e) =>
      tr = fst (AIService.analyzeProductImages backend now aiService (Some [image_url])
                  model_number None) /\
      (e = analysisFailed \/ e = TypeError \/ e = RangeError)
  end.
Proof.
  unfold AiRoutes.analyzeUrl. cbn [negb].
  pose proof (service_outcome backend now aiService (Some [image_url]) model_number None)
    as Hs.
  destruct (AIService.analyzeProductImages backend now aiService _ _ _) as [tr [a|e]];
    cbn [io_bind fst snd] in *.
  - unfold io_lift, io_ret.
    assert (Hd : throwsPrintingError (AiRoutes.descriptionOf numberToString stack a)).
    { pose proof (listingData_throw numberToString stack [] None a) as H.
      unfold AiRoutes.listingData in H.
      destruct (AiRoutes.descriptionOf numberToString stack a); [exact I | exact H]. }
    destruct (AiRoutes.descriptionOf numberToString stack a) as [d|e]; cbn.
    + rewrite !app_nil_r. split; reflexivity.
    + rewrite app_nil_r. cbn in Hd. split; [reflexivity | right; exact Hd].
  - subst e. auto.
Qed.

End AnalyzeUrl.

(** ** The webhook *)

Lemma includes_start (s key : jsstring) :
  startsWith s key = true -> includes s key = true.
Proof. intros H. destruct s; cbn [includes]; now rewrite H. Qed.

Lemma includes_app_right (a key : jsstring) : includes (a ++ key) key = true.
Proof.
  induction a as [|c a IH].
  - apply includes_start. cbn [app].
    rewrite <- (app_nil_r key) at 1. apply startsWith_app_self.
  - cbn [app includes]. rewrite IH. apply orb_true_r.
Qed.

Section WebhookFacts.

Variable numberToString : number -> jsstring.
Variable stack : nat.
Variable store : Webhook.Store.
Variable now : Date.

Lemma userDataOf_provider_and_name (clerkUser : value) (u : User.UserData) :
  Webhook.userDataOf numberToString stack clerkUser now = Return u ->
  In (User.auth_provider u) [lit "google"; lit "apple"] /\
  ToBoolean (User.name u) = true /\
  Webhook.emailOf numberToString stack clerkUser = Return (User.email u).
Proof.
  unfold Webhook.userDataOf.
  destruct (Webhook.emailOf numberToString stack clerkUser) as [email|e]; [|discriminate].
  cbn [bind].
  destruct (ToString numberToString stack (or_else (get clerkUser "first_name") (VStr "")))
    as [first|e]; [|discriminate].
  cbn [bind].
  destruct (ToString numberToString stack (or_else (get clerkUser "last_name") (VStr "")))
    as [last|e]; [|discriminate].
  cbn [bind]. intros H. apply return_inj in H. subst u.
  cbn [User.auth_provider User.name User.email].
  split; [|split; [|reflexivity]].
  - destruct (strictEq _ _); cbn; auto.
  - apply or_else_default_truthy. reflexivity.
Qed.

Lemma noValidEmail_accepted (u : User.UserData) :
  Webhook.noValidEmail u = Return false -> acceptedEmail (User.email u) = true.
Proof.
  unfold Webhook.noValidEmail, Webhook.includesLocal, acceptedEmail.
  destruct (User.email u) as [ | | b | n | [|c s] | l | props | name];
    cbn [ToBoolean]; try discriminate.
  - destruct b; discriminate.
  - destruct (negb _); discriminate.
  - intros H. apply return_inj in H. now rewrite H.
  - intros H. apply return_inj in H. now rewrite H.
Qed.

(** X25. Whatever the event and whatever the store answers, every user
    [handleUserCreated] hands to [create] has an e-mail value that is a
    string of at least one code unit without the text [@clerk.local] (or an
    array not holding it), an [auth_provider] that is [google] or [apple],
    and a name that is not empty. *)
Theorem created_users_are_checked (clerkUser : value) :
  Forall (fun c => match c with
                   | Webhook.Create u =>
                       acceptedEmail (User.email u) = true /\
                       In (User.auth_provider u) [lit "google"; lit "apple"] /\
                       ToBoolean (User.name u) = true
                   | Webhook.FindByClerkId _ => True
                   end)
         (fst (Webhook.handleUserCreated numberToString stack store now clerkUser)).
Proof.
  unfold Webhook.handleUserCreated.
  destruct (Webhook.skipped clerkUser) as [[|]|e]; try constructor.
  destruct (Webhook.findByClerkId store _) as [[|]|e];
    try (repeat constructor; fail).
  destruct (Webhook.userDataOf numberToString stack clerkUser now) as [u|e] eqn:Hu;
    cbn [bind]; [|repeat constructor].
  destruct (Webhook.noValidEmail u) as [[|]|e] eqn:Hv; cbn [bind];
    try (repeat constructor; fail).
  apply userDataOf_provider_and_name in Hu as (Hp & Hn & _).
  apply noValidEmail_accepted in Hv.
  destruct (Webhook.create store u);
    (constructor; [exact I|]; constructor; [auto | constructor]).
Qed.

(** X26. The address [id@clerk.local] that [handleUserCreated] makes up as a
    last resort is never stored: when the first e-mail entry of the event
    has no address and the event has no primary address id, no user is
    created, whatever the store answers. *)
Theorem made_up_address_is_never_stored (clerkUser : value) :
  ToBoolean (get (opt_at0 (get clerkUser "email_addresses")) "email_address") = false ->
  ToBoolean (get clerkUser "primary_email_address_id") = false ->
  existsb is_create
    (fst (Webhook.handleUserCreated numberToString stack store now clerkUser)) = false.
Proof.
  intros Hfirst Hprimary. unfold Webhook.handleUserCreated.
  destruct (Webhook.skipped clerkUser) as [[|]|e]; try reflexivity.
  destruct (Webhook.findByClerkId store _) as [[|]|e]; try reflexivity.
  destruct (Webhook.userDataOf numberToString stack clerkUser now) as [u'|e] eqn:Hu;
    cbn [bind]; [|reflexivity].
  apply userDataOf_provider_and_name in Hu as (_ & _ & He).
  unfold Webhook.emailOf in He. rewrite Hfirst, Hprimary in He.
  destruct (ToString numberToString stack (get clerkUser "id")) as [id|e]; [|discriminate].
  cbn [bind] in He. apply return_inj in He.
  unfold Webhook.noValidEmail, Webhook.includesLocal. rewrite <- He.
  assert (Ht : ToBoolean (VStr (id ++ lit "@clerk.local")) = true).
  { cbn [ToBoolean]. destruct id; reflexivity. }
  rewrite Ht, includes_app_right. reflexivity.
Qed.

End WebhookFacts.

Lemma made_up_address_is_never_stored_witness :
  existsb is_create
    (fst (Webhook.handleUserCreated samplePrinter sampleStack emptyStore 0%Z eventWithoutAddress)) =
  false.
Proof.
  apply (made_up_address_is_never_stored samplePrinter sampleStack emptyStore 0%Z
           eventWithoutAddress); reflexivity.
Defined.

Section WebhookEdge.

Variable numberToString : number -> jsstring.
Variable stack : nat.
Variable store : Webhook.Store.
Variable now : Date.

(** X27. When the first e-mail entry of the event has no address,
    [handleUserCreated] takes the primary address id of the event in its
    place: if that id is a string without the text [@clerk.local] and the
    store knows no such user, the user is handed to [create] with the id as
    e-mail. *)
Theorem primary_id_is_stored_as_email (clerkUser : value) (u : User.UserData)
  (c : codeunit) (s : jsstring) :
  Webhook.skipped clerkUser = Return false ->
  Webhook.findByClerkId store (get clerkUser "id") = Return false ->
  ToBoolean (get (opt_at0 (get clerkUser "email_addresses")) "email_address") = false ->
  get clerkUser "primary_email_address_id" = VStr (c :: s) ->
  includes (c :: s) "@clerk.local" = false ->
  Webhook.userDataOf numberToString stack clerkUser now = Return u ->
  User.email u = VStr (c :: s) /\
  fst (Webhook.handleUserCreated numberToString stack store now clerkUser) =
    [Webhook.FindByClerkId (get clerkUser "id"); Webhook.Create u].
Proof.
  intros Hs Hf Hfirst Hprimary Hinc Hu.
  pose proof (userDataOf_provider_and_name numberToString stack now _ _ Hu) as (_ & _ & He).
  unfold Webhook.emailOf in He. rewrite Hfirst, Hprimary in He.
  cbn [ToBoolean] in He. apply return_inj in He.
  split; [now symmetry|].
  unfold Webhook.handleUserCreated. rewrite Hs, Hf, Hu. cbn [bind].
  unfold Webhook.noValidEmail, Webhook.includesLocal. rewrite <- He.
  cbn [ToBoolean]. rewrite Hinc. cbn [bind].
  destruct (Webhook.create store u); reflexivity.
Qed.

End WebhookEdge.

Lemma primary_id_is_stored_as_email_witness :
  exists u,
    Webhook.userDataOf samplePrinter sampleStack eventWithPrimaryId 0%Z = Return u /\
    User.email u = VStr "idn_1" /\
    fst (Webhook.handleUserCreated samplePrinter sampleStack emptyStore 0%Z eventWithPrimaryId) =
      [Webhook.FindByClerkId (VStr "user_2abc"); Webhook.Create u].
Proof.
  destruct (Webhook.userDataOf samplePrinter sampleStack eventWithPrimaryId 0%Z) as [u|e] eqn:Hu;
    [|vm_compute in Hu; discriminate].
  exists u. split; [reflexivity|].
  exact (primary_id_is_stored_as_email samplePrinter sampleStack emptyStore 0%Z eventWithPrimaryId u
           105%N (lit "dn_1") eq_refl eq_refl eq_refl eq_refl eq_refl Hu).
Defined.

Section WebhookCalls.

Variable numberToString : number -> jsstring.
Variable stack : nat.
Variable store : Webhook.Store.
Variable now : Date.

(** X28. The calls [handleUserCreated] makes of the user model: none, one
    look-up by the id of the event, or that look-up followed by one
    creation.  A user is created only after the look-up answered that none
    exists, never twice, and the handler ends as created only when the
    creation succeeded; a creation that fails is logged and not thrown
    again. *)
Theorem handleUserCreated_calls (clerkUser : value) :
  match Webhook.handleUserCreated numberToString stack store now clerkUser with
  | ([], outcome) =>
      outcome = Webhook.Skipped \/ exists e, outcome = Webhook.Logged e
  | ([Webhook.FindByClerkId id], outcome) =>
      id = get clerkUser "id" /\
      outcome <> Webhook.Created /\ outcome <> Webhook.Skipped
  | ([Webhook.FindByClerkId id; Webhook.Create u], outcome) =>
      id = get clerkUser "id" /\
      Webhook.findByClerkId store id = Return false /\
      ((outcome = Webhook.Created /\ Webhook.create store u = Return tt) \/
       exists e, outcome = Webhook.Logged e /\ Webhook.create store u = Throw e)
  | _ => False
  end.
Proof.
  unfold Webhook.handleUserCreated.
  destruct (Webhook.skipped clerkUser) as [[|]|e]; eauto.
  destruct (Webhook.findByClerkId store (get clerkUser "id")) as [[|]|e] eqn:Hf;
    try (repeat split; discriminate).
  destruct (Webhook.userDataOf numberToString stack clerkUser now) as [u|e];
    cbn [bind]; [|repeat split; discriminate].
  destruct (Webhook.noValidEmail u) as [[|]|e]; cbn [bind];
    try (repeat split; discriminate).
  destruct (Webhook.create store u) as [[]|e] eqn:Hc.
  - split; [reflexivity|]. split; [exact Hf|]. left. split; [reflexivity | exact Hc].
  - split; [reflexivity|]. split; [exact Hf|]. right. exists e. split; [reflexivity | exact Hc].
Qed.

End WebhookCalls.
